(** * Gelato limit-order hooks: submission, cancellation and rate toggling

    A shallow embedding of the React hooks of [limit-orders-react]:

    - [useGelatoStopLimitOrdersHandlers] (stop-limit orders),
    - [useGelatoLimitOrdersHandlers]     (plain limit orders),
    - [useGelatoStoplossOrdersLib]       (construction of the stop-loss client).

    The handlers are [async] functions that talk to collaborators: the Gelato
    execution client, the signer, the transaction adder of the store and the
    draft-state actions.  They are written here in a state-and-exception
    monad; the state records, in order, every call made to a collaborator and
    every entry handed to the transaction adder.  What a collaborator answers
    is a parameter of the hook, so every statement below holds for whatever
    the client, the signer or the sdk's number formatting do.  What goes to
    the console is left out; the arguments of a [console.log] are evaluated
    all the same. *)

From Stdlib Require Import ZArith QArith String Ascii List Lia Relations.
From stdpp Require Import gmap strings pretty.

Local Open Scope string_scope.
Local Open Scope Z_scope.

(** ** JavaScript values *)

Module Js.

(** The values that occur in order records and transaction requests. *)
Inductive Value : Type :=
| Undefined
| Null
| Bool (b : bool)
| Num (n : Z)
| Str (s : string).

(** [Boolean(v)], which is also how [&&], [!] and [if] read a value. *)
Definition truthy (v : Value) : bool :=
  match v with
  | Undefined | Null => false
  | Bool b => b
  | Num n => negb (n =? 0)%Z
  | Str s => negb (String.eqb s "")
  end.

(** [a && b] yields [a] when [a] is falsy and [b] otherwise. *)
Definition and (a b : Value) : Value := if truthy a then b else a.

(** A plain object: a finite map from property names to values.  Reading a
    property that is not there gives [undefined]. *)
Abbreviation Object := (gmap string Value).

Definition get (o : Object) (k : string) : Value := default Undefined (o !! k).

(** A [string | undefined] read as a condition: [undefined] and the empty
    string are falsy; a truthy one is a string to go on with. *)
Definition truthy_string (s : option string) : option string :=
  match s with
  | Some s => if String.eqb s "" then None else Some s
  | None => None
  end.

(** A [number | undefined] read as a condition: [undefined] and [0] are
    falsy. *)
Definition truthy_number (n : option Z) : option Z :=
  match n with
  | Some n => if (n =? 0)%Z then None else Some n
  | None => None
  end.

Definition lower_ascii (c : ascii) : ascii :=
  let n := nat_of_ascii c in
  if ((65 <=? n) && (n <=? 90))%nat then ascii_of_nat (n + 32) else c.

(** [s.toLowerCase()] on the ASCII strings the hooks apply it to
    (transaction hashes, [0x] followed by hexadecimal digits). *)
Fixpoint toLowerCase (s : string) : string :=
  match s with
  | EmptyString => EmptyString
  | String c s' => String (lower_ascii c) (toLowerCase s')
  end.

(** [n.toString()] for an integral number. *)
Definition toString (n : Z) : string := pretty n.

(** [Math.round(ms / 1000)]: the nearest integer, halves upwards. *)
Definition round_seconds (ms : Z) : Z := (ms + 500) / 1000.

(** [a === b] on these values. *)
Definition strict_equal (a b : Value) : bool :=
  match a, b with
  | Undefined, Undefined | Null, Null => true
  | Bool x, Bool y => Bool.eqb x y
  | Num x, Num y => (x =? y)%Z
  | Str x, Str y => String.eqb x y
  | _, _ => false
  end.

(** A template literal renders [undefined] by its name. *)
Definition interpolate (s : option string) : string :=
  match s with
  | Some s => s
  | None => "undefined"
  end.

End Js.

(** ** Results and the handler monad *)

(** What evaluating an expression or awaiting a promise gives: a value, or an
    exception (a rejection) carrying the message of its [Error]. *)
Inductive Result (A : Type) : Type :=
| Ok (a : A)
| Threw (message : string).

Arguments Ok {A} a.
Arguments Threw {A} message.

(** A computation over a state [S]; an exception keeps the effects made
    before it was raised. *)
Definition M (S A : Type) : Type := S -> Result A * S.

Definition ret {S A} (a : A) : M S A := fun s => (Ok a, s).

Definition throw {S A} (message : string) : M S A := fun s => (Threw message, s).

Definition bind {S A B} (m : M S A) (k : A -> M S B) : M S B :=
  fun s =>
    match m s with
    | (Ok a, s') => k a s'
    | (Threw e, s') => (Threw e, s')
    end.

(** The value of an expression that may throw, without any effect. *)
Definition lift {S A} (r : Result A) : M S A := fun s => (r, s).

Notation "'let!' x ':=' m 'in' k" := (bind m (fun x => k))
  (at level 10, x name, m at level 100, k at level 200, only parsing).
Notation "'let!' ' p ':=' m 'in' k" := (bind m (fun x => match x with p => k end))
  (at level 10, p pattern, m at level 100, k at level 200, only parsing).
Notation "'do!' m 'in' k" := (bind m (fun _ => k))
  (at level 10, m at level 100, k at level 200, only parsing).

(** ** Collaborators *)

(** An ethers [TransactionResponse]; the hooks read its hash only. *)
Record TransactionResponse : Type := { hash : string }.

(** The payload the execution client encodes for a submission.  Its [value]
    is a [BigNumberish]; all the handler does with it is to call
    [BigNumber.from] on it, which gives the integer it stands for or throws
    (a malformed string, a number that is not a safe integer, [null]): the
    field holds that outcome. *)
Record TransactionData : Type := {
  to : string;
  data : string;
  value : Result Z
}.

(** Every call a handler makes to the execution client or to the signer. *)
Inductive Call : Type :=
| EncodeStopLimitOrderSubmissionWithSecret
    (inputToken outputToken inputAmount outputAmount : string)
    (slippage : Z) (owner : string)
| SendTransaction (request : Js.Object)
| CancelStopLimitOrder (order : Js.Object) (checkIfOrderExists : bool)
    (overrides : Js.Object)
| GetFeeAndSlippageAdjustedMinReturn (outputAmount : string)
| SubmitLimitOrder (inputToken outputToken inputAmount minReturn : string)
| CancelLimitOrder (fromCurrency toCurrency amount witness : string).

Inductive TransactionType : Type := submission | cancellation.

(** What a handler hands to the transaction adder: the response and the
    custom data ([summary], [type] and, for stop-limit orders, [order]). *)
Record TransactionDetails : Type := {
  response : TransactionResponse;
  summary : string;
  type : TransactionType;
  order : option Js.Object
}.

(** The world a handler acts on: the calls made so far, oldest first, and the
    history of added transactions, oldest first. *)
Record World : Type := {
  calls : list Call;
  history : list TransactionDetails
}.

Definition empty_world : World := {| calls := []; history := [] |}.

(** A call to a collaborator, awaited where it is asynchronous: the call is
    made, then its outcome is the value or the exception. *)
Definition invoke {A} (c : Call) (outcome : Result A) : M World A :=
  fun w => (outcome, {| calls := calls w ++ [c]; history := history w |}).

(** Modelled from the spec: the transaction adder ([useTransactionAdder] of
    [state/gtransactions/hooks]) is not among the sources.  Here it keeps
    what it is handed: the entry goes to the end of the history of added
    transactions.  What an entry does to the records of the History Store is
    [Store.record_entry] below. *)
Definition addTransaction (tx : TransactionResponse) (summary : string)
    (type : TransactionType) (order : option Js.Object) : M World unit :=
  fun w =>
    (Ok tt,
     {| calls := calls w;
        history := history w ++
          [{| response := tx; summary := summary; type := type; order := order |}] |}).

(** The order records a stretch of history carries. *)
Definition order_records (entries : list TransactionDetails) : list Js.Object :=
  omap order entries.

(** ** The sdk's fractions, amounts and prices *)

Module Sdk.

Inductive Rounding : Type := ROUND_DOWN | ROUND_HALF_UP | ROUND_UP.

(** [Fraction]: a pair of big integers. *)
Record Fraction : Type := {
  numerator : Z;
  denominator : Z
}.

Definition multiply (a b : Fraction) : Fraction :=
  {| numerator := numerator a * numerator b;
     denominator := denominator a * denominator b |}.

Definition divide (a b : Fraction) : Fraction :=
  {| numerator := numerator a * denominator b;
     denominator := denominator a * numerator b |}.

Definition invert (a : Fraction) : Fraction :=
  {| numerator := denominator a; denominator := numerator a |}.

(** A big integer used as a fraction, as in [multiply(JSBI.BigInt(n))]. *)
Definition of_int (n : Z) : Fraction := {| numerator := n; denominator := 1 |}.

(** [JSBI.divide(numerator, denominator)], on a non-zero denominator. *)
Definition quotient (a : Fraction) : Z := Z.quot (numerator a) (denominator a).

(** The rational number a fraction stands for. *)
Definition toQ (a : Fraction) : Q :=
  (inject_Z (numerator a) / inject_Z (denominator a))%Q.

(** The decimal arithmetic behind [toSignificant]: the quotient of two big
    integers rendered with the given number of significant digits, or an
    exception (a zero denominator, no digits asked for).  The handlers are
    verified for every such formatter; [decimal_js] below is one. *)
Class DecimalFormat : Type := {
  toSignificantDigits : nat -> Rounding -> Z -> Z -> Result string
}.

(** [Fraction.toSignificant(significantDigits, format, rounding)] *)
Definition Fraction_toSignificant `{DecimalFormat} (significantDigits : nat)
    (rounding : Rounding) (a : Fraction) : Result string :=
  toSignificantDigits significantDigits rounding (numerator a) (denominator a).

Record Currency : Type := {
  isNative : bool;
  address : string;        (* [wrapped.address] *)
  decimals : N;
  symbol : option string
}.

(** [CurrencyAmount]: a fraction of the currency's smallest unit. *)
Record CurrencyAmount : Type := {
  currency : Currency;
  asFraction : Fraction
}.

(** The amount that is a whole number of the smallest unit, as
    [CurrencyAmount.fromRawAmount] makes it when the number is within the
    range the constructor checks ([fromFractionalAmount] below, with the
    denominator 1). *)
Definition fromRawAmount (c : Currency) (rawAmount : Z) : CurrencyAmount :=
  {| currency := c; asFraction := of_int rawAmount |}.

(** [MaxUint256], the largest quotient an amount may have. *)
Definition MaxUint256 : Z := 2 ^ 256 - 1.

(** [CurrencyAmount.fromFractionalAmount], that is the constructor, which
    every operation that makes an amount goes through: it computes the
    quotient, where [JSBI.divide] throws a [RangeError] on a zero
    denominator, and requires it to be at most [MaxUint256]. *)
Definition fromFractionalAmount (c : Currency) (numerator denominator : Z)
  : Result CurrencyAmount :=
  if denominator =? 0 then Threw "Division by zero"
  else if MaxUint256 <? Z.quot numerator denominator
  then Threw "Invariant failed: AMOUNT"
  else Ok {| currency := c;
             asFraction := {| numerator := numerator; denominator := denominator |} |}.

(** [JSBI.exponentiate(JSBI.BigInt(10), JSBI.BigInt(decimals))] *)
Definition exponentiate10 (decimals : N) : Z := 10 ^ Z.of_N decimals.

Definition decimalScale (a : CurrencyAmount) : Z :=
  exponentiate10 (decimals (currency a)).

(** [CurrencyAmount.multiply] and [CurrencyAmount.divide]: the fraction is
    multiplied or divided, and an amount is made of the result. *)
Definition CurrencyAmount_multiply (a : CurrencyAmount) (other : Fraction)
  : Result CurrencyAmount :=
  let multiplied := multiply (asFraction a) other in
  fromFractionalAmount (currency a) (numerator multiplied) (denominator multiplied).

Definition CurrencyAmount_divide (a : CurrencyAmount) (other : Fraction)
  : Result CurrencyAmount :=
  let divided := divide (asFraction a) other in
  fromFractionalAmount (currency a) (numerator divided) (denominator divided).

(** [CurrencyAmount.toSignificant]: the amount in whole units of the
    currency, rounded down by default. *)
Definition CurrencyAmount_toSignificant `{DecimalFormat}
    (significantDigits : nat) (a : CurrencyAmount) : Result string :=
  Fraction_toSignificant significantDigits ROUND_DOWN
    (divide (asFraction a) (of_int (decimalScale a))).

(** The amount in whole units of the currency, as a rational number. *)
Definition exactQ (a : CurrencyAmount) : Q :=
  (toQ (asFraction a) / inject_Z (decimalScale a))%Q.

(** Leading zeros up to a width, and the removal of trailing zeros. *)
Fixpoint zeros (n : nat) : string :=
  match n with
  | O => ""
  | S n' => String "0" (zeros n')
  end.

Definition pad_left (width : nat) (s : string) : string :=
  zeros (width - String.length s) ++ s.

Fixpoint strip_trailing_zeros (s : string) : string :=
  match s with
  | EmptyString => EmptyString
  | String c s' =>
    match strip_trailing_zeros s' with
    | EmptyString => if Ascii.eqb c "0" then EmptyString else String c EmptyString
    | t => String c t
    end
  end.

(** The decimal numeral of [m / 10^places], without trailing zeros. *)
Definition decimal_string (m : Z) (places : N) : string :=
  let scale := 10 ^ Z.of_N places in
  let whole := Z.quot m scale in
  let part := Z.abs (Z.rem m scale) in
  let sign := if (m <? 0) && (whole =? 0) then "-" else "" in
  if part =? 0 then pretty whole
  else sign ++ pretty whole ++ "."
         ++ strip_trailing_zeros (pad_left (N.to_nat places) (pretty part)).

(** [CurrencyAmount.toExact()]: the quotient over the decimal scale, with as
    many decimal places as the currency has. *)
Definition toExact (a : CurrencyAmount) : string :=
  decimal_string (quotient (asFraction a)) (decimals (currency a)).

(** [Price]: quote currency per base currency, as a fraction of raw
    amounts; [scalar] converts it to whole units. *)
Record Price : Type := {
  baseCurrency : Currency;
  quoteCurrency : Currency;
  fraction : Fraction
}.

Definition scalar (p : Price) : Fraction :=
  {| numerator := exponentiate10 (decimals (baseCurrency p));
     denominator := exponentiate10 (decimals (quoteCurrency p)) |}.

Definition Price_invert (p : Price) : Price :=
  {| baseCurrency := quoteCurrency p;
     quoteCurrency := baseCurrency p;
     fraction := invert (fraction p) |}.

Definition adjustedForDecimals (p : Price) : Fraction :=
  multiply (fraction p) (scalar p).

(** [Price.toSignificant]: rounds half up by default. *)
Definition Price_toSignificant `{DecimalFormat} (significantDigits : nat)
    (p : Price) : Result string :=
  Fraction_toSignificant significantDigits ROUND_HALF_UP (adjustedForDecimals p).

(** *** A formatter to run the handlers with *)

Definition digits (n : Z) : Z := Z.of_nat (String.length (pretty (Z.abs n))).

(** [n * 10^k] and [d], or [n] and [d * 10^-k]: the fraction [n/d] scaled
    by a power of ten of either sign. *)
Definition scale10 (n d k : Z) : Z * Z :=
  if 0 <=? k then (n * 10 ^ k, d) else (n, d * 10 ^ (- k)).

(** The exponent [e] with [10^e <= n/d < 10^(e+1)], for positive [n], [d]. *)
Definition exponent10 (n d : Z) : Z :=
  let e := digits n - digits d in
  let '(n', d') := scale10 n d (- e) in
  if d' <=? n' then e else e - 1.

Definition round_quotient (rounding : Rounding) (n d : Z) : Z :=
  match rounding with
  | ROUND_DOWN => n / d
  | ROUND_HALF_UP => (2 * n + d) / (2 * d)
  | ROUND_UP => (n + d - 1) / d
  end.

(** [n/d], positive, rounded to the given number of significant digits: the
    result is [m / 10^k], returned as a fraction again. *)
Definition round_significant (significantDigits : nat) (rounding : Rounding)
    (n d : Z) : Z * Z :=
  let k := Z.of_nat significantDigits - 1 - exponent10 n d in
  let '(n', d') := scale10 n d k in
  let m := round_quotient rounding n' d' in
  if 0 <=? k then (m, 10 ^ k) else (m * 10 ^ (- k), 1).

(** The numeral of [m / 10^k] for a power of ten [10^k]. *)
Definition numeral (m scale : Z) : string :=
  decimal_string m (Z.to_N (digits scale - 1)).

(** The sdk sets the precision to one digit more than asked for and the
    rounding mode, divides, and asks for the significant digits.  The
    division of a zero numerator gives zero whatever the denominator; a
    division by zero throws; the quotient is cut off after the digits of the
    precision, and that is then rounded to the digits asked for. *)
Definition format_significant (significantDigits : nat) (rounding : Rounding)
    (n d : Z) : Result string :=
  if (significantDigits =? 0)%nat then Threw "Invariant failed"
  else if n =? 0 then Ok "0"
  else if d =? 0 then Threw "[DecimalError] Division by zero"
  else
    let negative := xorb (n <? 0) (d <? 0) in
    let '(n1, d1) :=
      round_significant (S significantDigits) ROUND_DOWN (Z.abs n) (Z.abs d) in
    let '(m, scale) := round_significant significantDigits rounding n1 d1 in
    Ok ((if negative then "-" else "") ++ numeral m scale).

Definition decimal_js : DecimalFormat :=
  {| toSignificantDigits := format_significant |}.

End Sdk.

(** ** The draft of an order *)

Inductive Rate : Type := MUL | DIV.

Inductive Field : Type := INPUT | OUTPUT | PRICE.

(** The part of the order state the rate handlers act on. *)
Record OrderState : Type := {
  independentField : Field;
  typedValue : string;
  rateType : Rate
}.

(** Modelled from the spec: the action handlers of [state/gorder/hooks] and
    [state/gstoplimit/hooks] are not among the sources.  [onUserInput] is the
    draft's [setIndependentField(field, value)]: it sets the typed value and
    marks the field as the independent one. *)
Definition onUserInput (field : Field) (typed : string) : M OrderState unit :=
  fun s =>
    (Ok tt,
     {| independentField := field; typedValue := typed; rateType := rateType s |}).

(** Modelled from the spec: [onChangeRateType] stores the rate type, which
    carries no value of its own. *)
Definition onChangeRateType (r : Rate) : M OrderState unit :=
  fun s =>
    (Ok tt,
     {| independentField := independentField s;
        typedValue := typedValue s;
        rateType := r |}).


(** ** Stop-limit orders: [useGelatoStopLimitOrdersHandlers] *)

Module StopLimit.

(** The [orderToSubmit] argument of the submission handler. *)
Module OrderToSubmit.
Record t : Type := {
  inputToken : string;
  outputToken : string;
  inputAmount : string;
  outputAmount : string;
  slippage : Z;
  owner : string
}.
End OrderToSubmit.

(** The optional [orderDetails] argument of the cancellation handler. *)
Module OrderDetails.
Record t : Type := {
  inputTokenSymbol : string;
  outputTokenSymbol : string;
  inputAmount : string;
  outputAmount : string;
  maxOutputAmount : string
}.
End OrderDetails.

Record Signer : Type := {
  sendTransaction : Js.Object -> Result TransactionResponse
}.

(** The execution client, as far as the handlers use it.  The encoder
    answers with [{ witness, payload, order }]. *)
Record GelatoStopLimitOrders : Type := {
  signer : option Signer;
  encodeStopLimitOrderSubmissionWithSecret :
    string -> string -> string -> string -> Z -> string ->
    Result (string * TransactionData * Js.Object);
  cancelLimitOrder : Js.Object -> bool -> Js.Object -> Result TransactionResponse
}.

(** What the hook closes over: [useWeb3], the client, [useGasPrice], and the
    clock read by [Date.now()], in milliseconds. *)
Record Hook : Type := {
  chainId : option Z;
  account : option string;
  gelatoStopLimitOrders : option GelatoStopLimitOrders;
  gasPrice : Js.Value;
  now : Z
}.

(** [{ ...order, createdTxHash, witness, status: "open", updatedAt }] *)
Definition submitted_order (order : Js.Object) (tx : TransactionResponse)
    (witness : string) (now : Z) : Js.Object :=
  <["updatedAt" := Js.Str (Js.toString now)]>
    (<["status" := Js.Str "open"]>
       (<["witness" := Js.Str witness]>
          (<["createdTxHash" := Js.Str (Js.toLowerCase (hash tx))]> order))).

(** [{ ...(overrides ?? { gasPrice }), to, data, value }], with the
    [BigNumber] made of the payload's value. *)
Definition submission_request (h : Hook) (overrides : option Js.Object)
    (payload : TransactionData) (value : Z) : Js.Object :=
  <["value" := Js.Num value]>
    (<["data" := Js.Str (data payload)]>
       (<["to" := Js.Str (to payload)]>
          (default {["gasPrice" := gasPrice h]} overrides))).

Definition handleStopLimitOrderSubmission (h : Hook)
    (orderToSubmit : OrderToSubmit.t) (overrides : option Js.Object)
  : M World TransactionResponse :=
  match gelatoStopLimitOrders h with
  | None => throw "Could not reach Gelato Limit Orders library"
  | Some lib =>
    match Js.truthy_number (chainId h), signer lib with
    | None, _ => throw "No chainId"
    | Some _, None => throw "No signer"
    | Some _, Some sg =>
      let! '(witness, payload, order) :=
        invoke (EncodeStopLimitOrderSubmissionWithSecret
                  (OrderToSubmit.inputToken orderToSubmit)
                  (OrderToSubmit.outputToken orderToSubmit)
                  (OrderToSubmit.inputAmount orderToSubmit)
                  (OrderToSubmit.outputAmount orderToSubmit)
                  (OrderToSubmit.slippage orderToSubmit)
                  (OrderToSubmit.owner orderToSubmit))
               (encodeStopLimitOrderSubmissionWithSecret lib
                  (OrderToSubmit.inputToken orderToSubmit)
                  (OrderToSubmit.outputToken orderToSubmit)
                  (OrderToSubmit.inputAmount orderToSubmit)
                  (OrderToSubmit.outputAmount orderToSubmit)
                  (OrderToSubmit.slippage orderToSubmit)
                  (OrderToSubmit.owner orderToSubmit)) in
      let! value := lift (value payload) in
      let request := submission_request h overrides payload value in
      let! tx := invoke (SendTransaction request) (sendTransaction sg request) in
      let now := Js.round_seconds (now h) in
      do! addTransaction tx "Order submission" submission
            (Some (submitted_order order tx witness now)) in
      ret tx
    end
  end.

(** [Boolean(module && inputToken && owner && witness && data)] *)
Definition checkIfOrderExists (orderToCancel : Js.Object) : bool :=
  Js.truthy
    (Js.and (Js.and (Js.and (Js.and (Js.get orderToCancel "module")
                                    (Js.get orderToCancel "inputToken"))
                            (Js.get orderToCancel "owner"))
                    (Js.get orderToCancel "witness"))
            (Js.get orderToCancel "data")).

(** [overrides ?? { gasPrice, gasLimit: 600000 }] *)
Definition cancellation_overrides (h : Hook) (overrides : option Js.Object)
  : Js.Object :=
  default (<["gasLimit" := Js.Num 600000]> {["gasPrice" := gasPrice h]}) overrides.

Definition cancellation_summary (orderDetails : option OrderDetails.t) : string :=
  match orderDetails with
  | Some d =>
    "Order cancellation: Stoploss " ++ OrderDetails.inputAmount d ++ " "
      ++ OrderDetails.inputTokenSymbol d ++ " valid at "
      ++ OrderDetails.maxOutputAmount d ++ " " ++ OrderDetails.outputTokenSymbol d
  | None => "Order cancellation"
  end.

(** [{ ...orderToCancel, updatedAt, status: "cancelled", cancelledTxHash }] *)
Definition cancelled_order (orderToCancel : Js.Object) (tx : TransactionResponse)
    (now : Z) : Js.Object :=
  <["cancelledTxHash" := Js.Str (Js.toLowerCase (hash tx))]>
    (<["status" := Js.Str "cancelled"]>
       (<["updatedAt" := Js.Str (Js.toString now)]> orderToCancel)).

Definition handleStopLimitOrderCancellation (h : Hook)
    (orderToCancel : Js.Object) (orderDetails : option OrderDetails.t)
    (overrides : option Js.Object)
  : M World TransactionResponse :=
  match gelatoStopLimitOrders h with
  | None => throw "Could not reach Gelato Limit Orders library"
  | Some lib =>
    match Js.truthy_number (chainId h), Js.truthy_string (account h) with
    | None, _ => throw "No chainId"
    | Some _, None => throw "No account"
    | Some _, Some _ =>
      let checkIfOrderExists := checkIfOrderExists orderToCancel in
      let options := cancellation_overrides h overrides in
      let! tx :=
        invoke (CancelStopLimitOrder orderToCancel checkIfOrderExists options)
               (cancelLimitOrder lib orderToCancel checkIfOrderExists options) in
      let now := Js.round_seconds (now h) in
      let summary := cancellation_summary orderDetails in
      do! addTransaction tx summary cancellation
            (Some (cancelled_order orderToCancel tx now)) in
      ret tx
    end
  end.

(** [handleRateType(rateType, price)]: the caller passes the current rate
    type and the derived price. *)
Definition handleRateType `{Sdk.DecimalFormat} (rateType : Rate)
    (price : option Sdk.Price) : M OrderState unit :=
  match rateType with
  | MUL =>
    do! match price with
        | Some price =>
          let! inverted := lift (Sdk.Price_toSignificant 6 (Sdk.Price_invert price)) in
          onUserInput PRICE inverted
        | None => ret tt
        end in
    onChangeRateType DIV
  | DIV =>
    do! match price with
        | Some price =>
          let! direct := lift (Sdk.Price_toSignificant 6 price) in
          onUserInput PRICE direct
        | None => ret tt
        end in
    onChangeRateType MUL
  end.

End StopLimit.

(** ** Plain limit orders: [useGelatoLimitOrdersHandlers] *)

Module Limit.

(** The execution client of plain limit orders, as far as the handlers use
    it.  [getFeeAndSlippageAdjustedMinReturn] answers with an object of
    which the handler reads [minReturn]. *)
Record GelatoLimitOrders : Type := {
  getFeeAndSlippageAdjustedMinReturn : string -> Result string;
  submitLimitOrder : string -> string -> string -> string -> Result TransactionResponse;
  cancelLimitOrder : string -> string -> string -> string -> Result TransactionResponse
}.

Record FormattedAmounts : Type := {
  input : string;
  output : string;
  price : string
}.

Record RawAmounts : Type := {
  raw_input : option string;
  raw_output : option string
}.

(** What the hook closes over: [useWeb3], the memoised client (undefined
    unless both the chain id and the provider library are there), the derived
    order information, the memoised [rawAmounts] and the order state. *)
Record Hook : Type := {
  chainId : option Z;
  gelatoLimitOrders : option GelatoLimitOrders;
  inputCurrency : option Sdk.Currency;
  outputCurrency : option Sdk.Currency;
  parsedInput : option Sdk.CurrencyAmount;     (* [parsedAmounts.input] *)
  parsedOutput : option Sdk.CurrencyAmount;    (* [parsedAmounts.output] *)
  rawAmounts : RawAmounts;
  formattedAmounts : FormattedAmounts;
  rateType : Rate
}.

(** One side of the memoised [rawAmounts]:
    [currency ? parsed?.multiply(10 ** currency.decimals).toExact() : undefined];
    the multiplication makes an amount and may throw. *)
Definition rawAmount (currency : option Sdk.Currency)
    (parsed : option Sdk.CurrencyAmount) : Result (option string) :=
  match currency with
  | Some c =>
    match parsed with
    | Some amount =>
      match Sdk.CurrencyAmount_multiply amount
              (Sdk.of_int (Sdk.exponentiate10 (Sdk.decimals c))) with
      | Ok scaled => Ok (Some (Sdk.toExact scaled))
      | Threw e => Threw e
      end
    | None => Ok None
    end
  | None => Ok None
  end.

(** The function memoised as [rawAmounts], run while the hook renders: the
    input side first, then the output side. *)
Definition memoised_rawAmounts (inputCurrency outputCurrency : option Sdk.Currency)
    (parsedInput parsedOutput : option Sdk.CurrencyAmount) : Result RawAmounts :=
  match rawAmount inputCurrency parsedInput with
  | Threw e => Threw e
  | Ok input =>
    match rawAmount outputCurrency parsedOutput with
    | Threw e => Threw e
    | Ok output => Ok {| raw_input := input; raw_output := output |}
    end
  end.

(** A hook whose [rawAmounts] are those its render computed from its
    currencies and parsed amounts. *)
Definition memoised (h : Hook) : Prop :=
  memoised_rawAmounts (inputCurrency h) (outputCurrency h) (parsedInput h)
    (parsedOutput h) = Ok (rawAmounts h).

(** [currency?.wrapped.address] *)
Definition wrapped_address (currency : option Sdk.Currency) : option string :=
  match currency with
  | Some c => Some (Sdk.address c)
  | None => None
  end.

Section Handlers.

(** [utils.isEthereumChain] and the [NATIVE] address constant are imported
    from modules that are not among the sources. *)
Variable isEthereumChain : Z -> bool.
Variable NATIVE : string.

(** [currency?.isNative ? NATIVE : currency.wrapped.address] *)
Definition token_address (c : Sdk.Currency) : string :=
  if Sdk.isNative c then NATIVE else Sdk.address c.

(** The minimum return handed to the client: adjusted for fee and slippage
    unless the chain is an Ethereum chain. *)
Definition minReturn (client : GelatoLimitOrders) (chain : Z) (output : string)
  : M World string :=
  if negb (isEthereumChain chain)
  then invoke (GetFeeAndSlippageAdjustedMinReturn output)
              (getFeeAndSlippageAdjustedMinReturn client output)
  else ret output.

Definition submission_summary (h : Hook) (inputCurrency outputCurrency : Sdk.Currency)
  : string :=
  "Swap " ++ input (formattedAmounts h) ++ " "
    ++ Js.interpolate (Sdk.symbol inputCurrency) ++ " for "
    ++ output (formattedAmounts h) ++ " "
    ++ Js.interpolate (Sdk.symbol outputCurrency) ++ " when 1 "
    ++ Js.interpolate
         (match rateType h with
          | MUL => Sdk.symbol inputCurrency
          | DIV => Sdk.symbol outputCurrency
          end)
    ++ " = " ++ price (formattedAmounts h) ++ " "
    ++ Js.interpolate
         (match rateType h with
          | MUL => Sdk.symbol outputCurrency
          | DIV => Sdk.symbol inputCurrency
          end).

Definition handleLimitOrderSubmission (h : Hook) : M World string :=
  match inputCurrency h, Js.truthy_string (wrapped_address (inputCurrency h)) with
  | Some inputCurrency, Some _ =>
    match outputCurrency h, Js.truthy_string (wrapped_address (outputCurrency h)) with
    | Some outputCurrency, Some _ =>
      match Js.truthy_string (raw_input (rawAmounts h)) with
      | None => throw "Invalid input amount"
      | Some rawInput =>
        match Js.truthy_string (raw_output (rawAmounts h)) with
        | None => throw "Invalid output amount"
        | Some rawOutput =>
          match gelatoLimitOrders h with
          | None => throw "Could not reach Gelato Limit Orders library"
          | Some client =>
            match Js.truthy_number (chainId h) with
            | None => throw "No chainId"
            | Some chain =>
              let! minReturn := minReturn client chain rawOutput in
              let inputToken := token_address inputCurrency in
              let outputToken := token_address outputCurrency in
              let! tx :=
                invoke (SubmitLimitOrder inputToken outputToken rawInput minReturn)
                       (submitLimitOrder client inputToken outputToken rawInput
                          minReturn) in
              do! addTransaction tx
                    (submission_summary h inputCurrency outputCurrency)
                    submission None in
              ret (hash tx)
            end
          end
        end
      end
    | _, _ => throw "Invalid output currency"
    end
  | _, _ => throw "Invalid input currency"
  end.

Definition handleLimitOrderCancellation (h : Hook)
    (fromCurrency toCurrency amount witness : string) : M World string :=
  match gelatoLimitOrders h with
  | None => throw "Could not reach Gelato Limit Orders library"
  | Some client =>
    let! tx :=
      invoke (CancelLimitOrder fromCurrency toCurrency amount witness)
             (cancelLimitOrder client fromCurrency toCurrency amount witness) in
    do! addTransaction tx "Order cancellation" cancellation None in
    ret (hash tx)
  end.

End Handlers.

(** The price shown after a toggle: one parsed amount over the other, in
    whole units, with six significant digits; undefined unless both amounts
    and the currency whose decimals are used are there.  The division and the
    multiplication each make an amount and may throw, and so may the
    rendering. *)
Definition flipped `{Sdk.DecimalFormat} (over under : option Sdk.CurrencyAmount)
    (scale : option Sdk.Currency) : Result (option string) :=
  match over, under, scale with
  | Some a, Some b, Some c =>
    match Sdk.CurrencyAmount_divide a (Sdk.asFraction b) with
    | Threw e => Threw e
    | Ok divided =>
      match Sdk.CurrencyAmount_multiply divided
              (Sdk.of_int (Sdk.exponentiate10 (Sdk.decimals c))) with
      | Threw e => Threw e
      | Ok amount =>
        match Sdk.CurrencyAmount_toSignificant 6 amount with
        | Ok s => Ok (Some s)
        | Threw e => Threw e
        end
      end
    end
  | _, _, _ => Ok None
  end.

(** [if (flipped) onUserInput(Field.PRICE, flipped)] *)
Definition seed_price (flipped : option string) : M OrderState unit :=
  match Js.truthy_string flipped with
  | Some typed => onUserInput PRICE typed
  | None => ret tt
  end.

Definition handleRateType `{Sdk.DecimalFormat} (h : Hook) : M OrderState unit :=
  match rateType h with
  | MUL =>
    let! flipped :=
      lift (flipped (parsedInput h) (parsedOutput h) (outputCurrency h)) in
    do! onChangeRateType DIV in
    seed_price flipped
  | DIV =>
    let! flipped :=
      lift (flipped (parsedOutput h) (parsedInput h) (inputCurrency h)) in
    do! onChangeRateType MUL in
    seed_price flipped
  end.

(** The price as a toggle renders it for a rate type: output per input for
    [MUL], input per output for [DIV]. *)
Definition quoted `{Sdk.DecimalFormat} (r : Rate) (h : Hook) : Result (option string) :=
match r with
| MUL => flipped (parsedOutput h) (parsedInput h) (inputCurrency h)
| DIV => flipped (parsedInput h) (parsedOutput h) (outputCurrency h)
end.

(** The fraction [flipped] hands to the formatter, once the two amounts it
    makes on the way are there. *)
Definition flipped_fraction (a b : Sdk.CurrencyAmount) (c : Sdk.Currency)
  : Result Sdk.Fraction :=
match Sdk.CurrencyAmount_divide a (Sdk.asFraction b) with
| Threw e => Threw e
| Ok divided =>
  match Sdk.CurrencyAmount_multiply divided
          (Sdk.of_int (Sdk.exponentiate10 (Sdk.decimals c))) with
  | Threw e => Threw e
  | Ok amount =>
    Ok (Sdk.divide (Sdk.asFraction amount) (Sdk.of_int (Sdk.decimalScale amount)))
  end
end.

End Limit.

(** The plain hook at the render that follows a change of the order state:
    the rate type is the state's, the parsed amounts and what is computed
    from them are as they were. *)
Definition rerender (h : Limit.Hook) (s : OrderState) : Limit.Hook :=
{| Limit.chainId := Limit.chainId h;
   Limit.gelatoLimitOrders := Limit.gelatoLimitOrders h;
   Limit.inputCurrency := Limit.inputCurrency h;
   Limit.outputCurrency := Limit.outputCurrency h;
   Limit.parsedInput := Limit.parsedInput h;
   Limit.parsedOutput := Limit.parsedOutput h;
   Limit.rawAmounts := Limit.rawAmounts h;
   Limit.formattedAmounts := Limit.formattedAmounts h;
   Limit.rateType := rateType s |}.

(** ** The stop-loss client: [useGelatoStoplossOrdersLib] *)

Module Stoploss.

Section Lib.

(** The signer a provider hands out, the client, and the client's
    constructor [new GelatoStoplossOrders(chainId, signer, handler)], which
    may throw. *)
Variables Signer GelatoStoplossOrders : Type.
Variable construct : Z -> Signer -> string -> Result GelatoStoplossOrders.

(** The provider library of [useWeb3]; all the hook does with it is to
    call [getSigner()], which is a call into the provider and may throw. *)
Record Library : Type := { getSigner : Result Signer }.

Record Web3 : Type := {
  chainId : option Z;
  library : option Library
}.

(** [library?.getSigner()] *)
Definition optional_signer (library : option Library) : Result (option Signer) :=
  match library with
  | None => Ok None
  | Some l =>
    match getSigner l with
    | Ok s => Ok (Some s)
    | Threw e => Threw e
    end
  end.

(** [try { body } catch (error) { console.error(...); return undefined }] *)
Definition try_or_undefined {A} (body : Result (option A)) : Result (option A) :=
  match body with
  | Ok a => Ok a
  | Threw _ => Ok None
  end.

(** The body of the [try] block:
    [chainId && library ? new GelatoStoplossOrders(...) : undefined] *)
Definition instantiate (w : Web3) : Result (option GelatoStoplossOrders) :=
  match Js.truthy_number (chainId w), library w with
  | Some chain, Some l =>
    match getSigner l with
    | Ok s =>
      match construct chain s "quickswap_stoploss" with
      | Ok client => Ok (Some client)
      | Threw e => Threw e
      end
    | Threw e => Threw e
    end
  | _, _ => Ok None
  end.

(** The memoised function, run at the first render. *)
Definition memoised (w : Web3) : Result (option GelatoStoplossOrders) :=
  try_or_undefined (instantiate w).

(** The hook: the arguments of its [console.log] are evaluated first, among
    them [library?.getSigner()]; then the memoised function runs. *)
Definition useGelatoStoplossOrdersLib (w : Web3)
  : Result (option GelatoStoplossOrders) :=
  match optional_signer (library w) with
  | Ok _ => memoised w
  | Threw e => Threw e
  end.

End Lib.

End Stoploss.

(** The messages of the errors the guards of the two submission handlers
    raise. *)
Definition stop_limit_submission_errors : list string :=
  ["Could not reach Gelato Limit Orders library"; "No chainId"; "No signer"].

Definition limit_submission_errors : list string :=
  ["Invalid input currency"; "Invalid output currency"; "Invalid input amount";
   "Invalid output amount"; "Could not reach Gelato Limit Orders library";
   "No chainId"].

(** The status of a record. *)
Definition status (r : Js.Object) : Js.Value := Js.get r "status".

(** The price in the orientation of a rate type: as it is for [MUL], inverted
    for [DIV]. *)
Definition oriented (r : Rate) (p : Sdk.Price) : Sdk.Price :=
match r with
| MUL => p
| DIV => Sdk.Price_invert p
end.

Definition toggled (r : Rate) : Rate :=
match r with
| MUL => DIV
| DIV => MUL
end.

(** The draft right after a toggle has seeded the price field. *)
Definition seeded (r : Rate) (shown : string) : OrderState :=
{| independentField := PRICE; typedValue := shown; rateType := r |}.

(** ** The life of a record under the handlers *)

(** A record written to the history by a handler run from [w] to [w']. *)
Definition written (w w' : World) (r : Js.Object) : Prop :=
exists e, history w' = (history w ++ [e])%list /\ order e = Some r.

(** One step in the life of a record: a successful submission brings it into
    being, a successful cancellation of a record replaces it by the record
    the handler writes. *)
Inductive lifecycle : option Js.Object -> option Js.Object -> Prop :=
| lifecycle_submission h o ov w tx w' r :
    StopLimit.handleStopLimitOrderSubmission h o ov w = (Ok tx, w') ->
    written w w' r ->
    lifecycle None (Some r)
| lifecycle_cancellation h r d ov w tx w' r' :
    StopLimit.handleStopLimitOrderCancellation h r d ov w = (Ok tx, w') ->
    written w w' r' ->
    lifecycle (Some r) (Some r').

(** Modelled from the spec: the identifier a record is kept under in the
    History Store, its witness. *)
Definition identifier (r : Js.Object) : Js.Value := Js.get r "witness".

(** ** The history store *)

Module Store.

(** Modelled from the spec: the Order History Store is not among the
    sources.  The spec has it as an append-or-patch-only collection of order
    records, each kept under its identifier; here the records are in the
    order of their append. *)
Definition t : Type := list Js.Object.

(** Modelled from the spec: [find(id)], the lookup by identifier. *)
Fixpoint find (id : Js.Value) (s : t) : option Js.Object :=
match s with
| [] => None
| r :: s' => if Js.strict_equal (identifier r) id then Some r else find id s'
end.

(** Modelled from the spec: [append(record)]. *)
Definition append (r : Js.Object) (s : t) : t := (s ++ [r])%list.

(** Modelled from the spec: a record with the fields of a patch set on it,
    if it is kept under the identifier; any other record as it is. *)
Definition patched (id : Js.Value) (fields r : Js.Object) : Js.Object :=
if Js.strict_equal (identifier r) id then fields ∪ r else r.

(** Modelled from the spec: [patch(id, fields)] requires the record to exist
    already, found by the lookup; it then sets the fields on what is kept
    under the identifier and leaves every other record untouched. *)
Definition patch (id : Js.Value) (fields : Js.Object) (s : t) : option t :=
match find id s with
| Some _ => Some (patched id fields <$> s)
| None => None
end.

(** Modelled from the spec: the fields a cancellation stamps on a record,
    which are the status, the hash of the cancellation and the time of the
    update, read off the record the handler hands over. *)
Definition cancellation_fields (r : Js.Object) : Js.Object :=
<["status" := Js.get r "status"]>
  (<["cancelledTxHash" := Js.get r "cancelledTxHash"]>
     {["updatedAt" := Js.get r "updatedAt"]}).

(** Modelled from the spec: what an entry handed to the transaction adder
    does to the store.  The record of a submission is appended; the record of
    a cancellation patches what is kept under its identifier, and nothing is
    applied when the lookup finds no record; an entry without a record
    leaves the store as it is. *)
Definition record_entry (s : t) (e : TransactionDetails) : t :=
match order e with
| Some r =>
  match type e with
  | submission => append r s
  | cancellation =>
    match patch (identifier r) (cancellation_fields r) s with
    | Some patched => patched
    | None => s
    end
  end
| None => s
end.

(** Modelled from the spec: the store after the entries of a history,
    oldest first, starting from an empty store. *)
Definition replay (entries : list TransactionDetails) : t :=
fold_left record_entry entries [].

End Store.

(** ** Hooks to run the handlers with *)

Module Run.

Definition tx0 : TransactionResponse := {| hash := "0xAB12CD34EF" |}.

Definition payload0 : TransactionData :=
{| to := "0x0c2c2963A4353FfD839590f7cb1E783688378814"; data := "0x1234"; value := Ok 0 |}.

(** The order the encoder answers with. *)
Definition encoded0 : Js.Object :=
<["data" := Js.Str "0x00ff"]>
  (<["module" := Js.Str "0x5A36178E38864F5E724A2DaF5f9cD9bA473f7903"]>
     (<["owner" := Js.Str "0x8ba1f109551bD432803012645Ac136ddd64DBA72"]>
        (<["inputToken" := Js.Str "0x2791Bca1f2de4661ED88A30C99A7a9449Aa84174"]>
           {["inputAmount" := Js.Str "1000000000"]}))).

Definition signer0 : StopLimit.Signer :=
{| StopLimit.sendTransaction := fun _ => Ok tx0 |}.

Definition client0 : StopLimit.GelatoStopLimitOrders :=
{| StopLimit.signer := Some signer0;
   StopLimit.encodeStopLimitOrderSubmissionWithSecret :=
     fun _ _ _ _ _ _ => Ok ("0x71C7656EC7ab88b098defB751B7401B5f6d8976F", payload0, encoded0);
   StopLimit.cancelLimitOrder := fun _ _ _ => Ok tx0 |}.

Definition hook0 : StopLimit.Hook :=
{| StopLimit.chainId := Some 137;
   StopLimit.account := Some "0x8ba1f109551bD432803012645Ac136ddd64DBA72";
   StopLimit.gelatoStopLimitOrders := Some client0;
   StopLimit.gasPrice := Js.Num 30000000000;
   StopLimit.now := 1700000000499 |}.

(** The same hook before a wallet is connected: no client. *)
Definition hook_offline : StopLimit.Hook :=
{| StopLimit.chainId := Some 137;
   StopLimit.account := None;
   StopLimit.gelatoStopLimitOrders := None;
   StopLimit.gasPrice := Js.Undefined;
   StopLimit.now := 1700000000499 |}.

Definition order_to_submit0 : StopLimit.OrderToSubmit.t :=
{| StopLimit.OrderToSubmit.inputToken := "0x2791Bca1f2de4661ED88A30C99A7a9449Aa84174";
   StopLimit.OrderToSubmit.outputToken := "0x7ceB23fD6bC0adD59E62ac25578270cFf1b9f619";
   StopLimit.OrderToSubmit.inputAmount := "1000000000";
   StopLimit.OrderToSubmit.outputAmount := "500000000000000000";
   StopLimit.OrderToSubmit.slippage := 50;
   StopLimit.OrderToSubmit.owner := "0x8ba1f109551bD432803012645Ac136ddd64DBA72" |}.

(** A full record, as the submission handler writes it. *)
Definition record0 : Js.Object :=
StopLimit.submitted_order encoded0 tx0 "0x71C7656EC7ab88b098defB751B7401B5f6d8976F"
  1700000000.

(** The same record without its witness. *)
Definition record_without_witness : Js.Object := delete "witness" record0.

Definition USDC : Sdk.Currency :=
{| Sdk.isNative := false;
   Sdk.address := "0x2791Bca1f2de4661ED88A30C99A7a9449Aa84174";
   Sdk.decimals := 6;
   Sdk.symbol := Some "USDC" |}.

Definition WETH : Sdk.Currency :=
{| Sdk.isNative := false;
   Sdk.address := "0x7ceB23fD6bC0adD59E62ac25578270cFf1b9f619";
   Sdk.decimals := 18;
   Sdk.symbol := Some "WETH" |}.

(** 1000.0 USDC and 0.5 WETH. *)
Definition usdc_1000 : Sdk.CurrencyAmount := Sdk.fromRawAmount USDC 1000000000.
Definition weth_half : Sdk.CurrencyAmount := Sdk.fromRawAmount WETH 500000000000000000.

(** WETH per USDC for these two amounts: 0.0005. *)
Definition price0 : Sdk.Price :=
{| Sdk.baseCurrency := USDC;
   Sdk.quoteCurrency := WETH;
   Sdk.fraction := {| Sdk.numerator := 500000000000000000; Sdk.denominator := 1000000000 |} |}.

(** The members of the [ChainId] enum of the hook's file. *)
Definition isEthereumChain (chain : Z) : bool := (chain =? 1) || (chain =? 3).

Definition NATIVE : string := "0xEeeeeEeeeEeEeeEeEeEeeEEEeeeeEeeeeeeeEEeE".

(** A client that takes 2 in 1000 off the output as fee and slippage. *)
Definition limit_client0 : Limit.GelatoLimitOrders :=
{| Limit.getFeeAndSlippageAdjustedMinReturn := fun _ => Ok "499000000000000000";
   Limit.submitLimitOrder := fun _ _ _ _ => Ok tx0;
   Limit.cancelLimitOrder := fun _ _ _ _ => Ok tx0 |}.

Definition limit_hook (chain : Z) (r : Rate) : Limit.Hook :=
{| Limit.chainId := Some chain;
   Limit.gelatoLimitOrders := Some limit_client0;
   Limit.inputCurrency := Some USDC;
   Limit.outputCurrency := Some WETH;
   Limit.parsedInput := Some usdc_1000;
   Limit.parsedOutput := Some weth_half;
   Limit.rawAmounts :=
     {| Limit.raw_input := Some "1000000000";
        Limit.raw_output := Some "500000000000000000" |};
   Limit.formattedAmounts :=
     {| Limit.input := "1000"; Limit.output := "0.5"; Limit.price := "0.0005" |};
   Limit.rateType := r |}.

(** The plain hook with no output currency chosen yet. *)
Definition limit_hook_no_output : Limit.Hook :=
{| Limit.chainId := Some 137;
   Limit.gelatoLimitOrders := Some limit_client0;
   Limit.inputCurrency := Some USDC;
   Limit.outputCurrency := None;
   Limit.parsedInput := Some usdc_1000;
   Limit.parsedOutput := None;
   Limit.rawAmounts :=
     {| Limit.raw_input := Some "1000000000"; Limit.raw_output := None |};
   Limit.formattedAmounts :=
     {| Limit.input := "1000"; Limit.output := ""; Limit.price := "" |};
   Limit.rateType := MUL |}.

(** A read-only provider: asking it for a signer throws. *)
Definition read_only_provider : Stoploss.Library unit :=
{| Stoploss.getSigner := Threw "API provider does not support signing" |}.

Definition wallet_provider : Stoploss.Library unit :=
{| Stoploss.getSigner := Ok tt |}.

(** A constructor that accepts Polygon only. *)
Definition construct0 (chain : Z) (_ : unit) (handler : string) : Result string :=
if chain =? 137 then Ok handler else Threw "Unsupported chain".

End Run.

(** ** The client of the plain hook *)

Module Client.

Section Memo.

(** The signer of the provider, and [new GelatoLimitOrders(chainId, signer)],
    which may throw. *)
Variable Signer : Type.
Variable construct : Z -> Signer -> Result Limit.GelatoLimitOrders.

(** The memoised client of [useGelatoLimitOrdersHandlers]:
    [chainId && library ? new GelatoLimitOrders(chainId, library?.getSigner()) : undefined],
    with no [try] around it. *)
Definition gelatoLimitOrders (w : Stoploss.Web3 Signer)
  : Result (option Limit.GelatoLimitOrders) :=
match Js.truthy_number (Stoploss.chainId Signer w), Stoploss.library Signer w with
| Some chain, Some l =>
  match Stoploss.getSigner Signer l with
  | Ok s =>
    match construct chain s with
    | Ok client => Ok (Some client)
    | Threw e => Threw e
    end
  | Threw e => Threw e
  end
| _, _ => Ok None
end.

(** A hook as a render of [useGelatoLimitOrdersHandlers] has it: the chain id
    is the one of [useWeb3] and the client is the memoised one. *)
Definition rendered (w : Stoploss.Web3 Signer) (h : Limit.Hook) : Prop :=
Limit.chainId h = Stoploss.chainId Signer w
/\ gelatoLimitOrders w = Ok (Limit.gelatoLimitOrders h).

End Memo.

End Client.

(** ** The order panel: [GelatoLimitOrder] *)

Module Panel.

(** A trade of the router; the panel asks whether it is there and whether it
    has a route (the path of token addresses). *)
Record Trade : Type := { route : option (list string) }.

(** The state of the confirmation modal, kept with [useState]. *)
Record SwapState : Type := {
  showConfirm : bool;
  tradeToConfirm : option Trade;
  attemptingTxn : bool;
  swapErrorMessage : option string;
  txHash : option string
}.

Definition initialSwapState : SwapState :=
{| showConfirm := false; tradeToConfirm := None; attemptingTxn := false;
   swapErrorMessage := None; txHash := None |}.

(** What the callbacks of the panel act on: the swap state, every swap state
    set so far (oldest first), the order state and the world of the
    handlers. *)
Record State : Type := {
  swapState : SwapState;
  shown : list SwapState;
  orderState : OrderState;
  world : World
}.

Definition setSwapState (s : SwapState) : M State unit :=
fun p =>
  (Ok tt,
   {| swapState := s; shown := shown p ++ [s];
      orderState := orderState p; world := world p |}).

(** A handler of the hook, run on the world of the panel. *)
Definition on_world {A} (m : M World A) : M State A :=
fun p =>
  let '(r, w) := m (world p) in
  (r, {| swapState := swapState p; shown := shown p;
         orderState := orderState p; world := w |}).

(** An action handler of the hook, run on the order state of the panel. *)
Definition on_order {A} (m : M OrderState A) : M State A :=
fun p =>
  let '(r, s) := m (orderState p) in
  (r, {| swapState := swapState p; shown := shown p;
         orderState := s; world := world p |}).

(** [handleInput] of the handlers hook forwards to [onUserInput]. *)
Definition handleInput (field : Field) (value : string) : M OrderState unit :=
onUserInput field value.

(** [Fraction.greaterThan] and [Fraction.equalTo] of the sdk compare by
    cross-multiplication. *)
Definition greaterThan (a b : Sdk.Fraction) : bool :=
Sdk.numerator b * Sdk.denominator a <? Sdk.numerator a * Sdk.denominator b.

Definition equalTo (a b : Sdk.Fraction) : bool :=
Sdk.numerator a * Sdk.denominator b =? Sdk.numerator b * Sdk.denominator a.

Definition present {A} (o : option A) : bool :=
match o with
| Some _ => true
| None => false
end.

Section Callbacks.

(** [confirmPriceImpactWithoutFee] asks the user; its answer is a parameter.
    The submission handler is the one of the plain hook. *)
Variable confirmPriceImpactWithoutFee : Sdk.Fraction -> bool.
Variable isEthereumChain : Z -> bool.
Variable NATIVE : string.
Variable hook : Limit.Hook.

(** [handleSwap]: the handler is always there, so its first test never
    returns; [tradeToConfirm] and [showConfirm] are those of the render the
    callback was made in. *)
Definition handleSwap (priceImpact : option Sdk.Fraction) : M State unit :=
fun p =>
  let declined :=
    match priceImpact with
    | Some impact => negb (confirmPriceImpactWithoutFee impact)
    | None => false
    end in
  if declined then (Ok tt, p)
  else
    let tradeToConfirm := tradeToConfirm (swapState p) in
    let showConfirm := showConfirm (swapState p) in
    (do! setSwapState
           {| attemptingTxn := true; tradeToConfirm := tradeToConfirm;
              showConfirm := showConfirm; swapErrorMessage := None;
              txHash := None |} in
     fun p1 =>
       match on_world (Limit.handleLimitOrderSubmission isEthereumChain NATIVE hook) p1 with
       | (Ok hash, p2) =>
         setSwapState
           {| attemptingTxn := false; tradeToConfirm := tradeToConfirm;
              showConfirm := showConfirm; swapErrorMessage := None;
              txHash := Some hash |} p2
       | (Threw message, p2) =>
         setSwapState
           {| attemptingTxn := false; tradeToConfirm := tradeToConfirm;
              showConfirm := showConfirm; swapErrorMessage := Some message;
              txHash := None |} p2
       end) p.

(** [handleConfirmDismiss]: the modal is closed; if there was a transaction
    hash, the input is cleared. *)
Definition handleConfirmDismiss : M State unit :=
fun p =>
  let s := swapState p in
  (do! setSwapState
         {| showConfirm := false; tradeToConfirm := tradeToConfirm s;
            attemptingTxn := attemptingTxn s;
            swapErrorMessage := swapErrorMessage s; txHash := txHash s |} in
   match Js.truthy_string (txHash s) with
   | Some _ => on_order (handleInput INPUT "")
   | None => ret tt
   end) p.

(** [handleAcceptChanges]: the trade to confirm becomes the current trade. *)
Definition handleAcceptChanges (trade : option Trade) : M State unit :=
fun p =>
  let s := swapState p in
  setSwapState
    {| tradeToConfirm := trade; swapErrorMessage := swapErrorMessage s;
       txHash := txHash s; attemptingTxn := attemptingTxn s;
       showConfirm := showConfirm s |} p.

(** The [onClick] of the order button: the modal opens on the current
    trade. *)
Definition placeOrderClick (trade : option Trade) : M State unit :=
setSwapState
  {| tradeToConfirm := trade; attemptingTxn := false; swapErrorMessage := None;
     showConfirm := true; txHash := None |}.

(** [handleMaxInput]:
    [maxInputAmount && handleInput(Field.INPUT, maxInputAmount.toExact())] *)
Definition handleMaxInput (maxInputAmount : option Sdk.CurrencyAmount) : M State unit :=
match maxInputAmount with
| Some amount => on_order (handleInput INPUT (Sdk.toExact amount))
| None => ret tt
end.

End Callbacks.

(** [showMaxButton]:
    [Boolean(maxInputAmount?.greaterThan(0) && !parsedAmounts.input?.equalTo(maxInputAmount))] *)
Definition showMaxButton (maxInputAmount parsedInput : option Sdk.CurrencyAmount) : bool :=
match maxInputAmount with
| Some amount =>
  greaterThan (Sdk.asFraction amount) (Sdk.of_int 0)
  && negb match parsedInput with
          | Some input => equalTo (Sdk.asFraction input) (Sdk.asFraction amount)
          | None => false
          end
| None => false
end.

(** One entry of [formattedAmounts]: the typed value for the independent
    field, else the derived value with six significant digits, else the empty
    string. *)
Definition formatted (independent : bool) (typed : string)
    (derived : option (Result string)) : Result string :=
if independent then Ok typed
else match derived with
     | Some rendered => rendered
     | None => Ok ""
     end.

(** [formattedAmounts] of the panel; rendering a derived value may throw. *)
Definition formattedAmounts `{Sdk.DecimalFormat} (s : OrderState)
    (parsedInput parsedOutput : option Sdk.CurrencyAmount) (price : option Sdk.Price)
  : Result Limit.FormattedAmounts :=
match formatted (match independentField s with INPUT => true | _ => false end)
        (typedValue s) (Sdk.CurrencyAmount_toSignificant 6 <$> parsedInput) with
| Threw e => Threw e
| Ok input =>
  match formatted (match independentField s with OUTPUT => true | _ => false end)
          (typedValue s) (Sdk.CurrencyAmount_toSignificant 6 <$> parsedOutput) with
  | Threw e => Threw e
  | Ok output =>
    match formatted (match independentField s with PRICE => true | _ => false end)
            (typedValue s) (Sdk.Price_toSignificant 6 <$> price) with
    | Threw e => Threw e
    | Ok price =>
      Ok {| Limit.input := input; Limit.output := output; Limit.price := price |}
    end
  end
end.

(** What the bottom of the panel depends on. *)
Record View : Type := {
  swapIsUnsupported : bool;
  account : option string;
  trade : option Trade;
  independent : Field;
  currencyInput : option Sdk.Currency;
  currencyOutput : option Sdk.Currency;
  parsedInput : option Sdk.CurrencyAmount;
  priceImpact : option Sdk.Fraction;
  inputError : option string
}.

(** What the bottom of the panel shows. *)
Inductive Bottom : Type :=
| UnsupportedAsset
| ConnectWallet
| LoadingRoute
| InsufficientLiquidity
| AboveMarketRate
| OrderButton (label : string) (disabled : bool).

Definition isValid (v : View) : bool := negb (present (Js.truthy_string (inputError v))).

Definition userHasSpecifiedInputOutput (v : View) : bool :=
match independent v with
| INPUT | OUTPUT => present (currencyInput v) && present (currencyOutput v)
| PRICE => false
end.

(** [!trade?.route] *)
Definition routeNotFound (v : View) : bool :=
negb match trade v with
     | Some t => present (route t)
     | None => false
     end.

(** [parsedAmounts.input && !trade] *)
Definition isLoadingRoute (v : View) : bool :=
present (parsedInput v) && negb (present (trade v)).

(** The nested conditional of [BottomGrouping]. *)
Definition bottom (v : View) : Bottom :=
if swapIsUnsupported v then UnsupportedAsset
else if negb (present (Js.truthy_string (account v))) then ConnectWallet
else if routeNotFound v && userHasSpecifiedInputOutput v && present (parsedInput v)
then (if isLoadingRoute v then LoadingRoute else InsufficientLiquidity)
else if match priceImpact v with
        | Some impact => greaterThan impact (Sdk.of_int 0)
        | None => false
        end
then AboveMarketRate
else OrderButton (default "Place order" (Js.truthy_string (inputError v)))
       (negb (isValid v)).

(** [swapErrorMessage && isValid ? <SwapCallbackError error={swapErrorMessage} /> : null] *)
Definition callbackError (s : SwapState) (v : View) : option string :=
match Js.truthy_string (swapErrorMessage s) with
| Some message => if isValid v then Some message else None
| None => None
end.

End Panel.

(** ** Sequences of handler calls *)

(** One call of a handler of the two hooks. *)
Inductive Operation : Type :=
| StopLimitSubmission (h : StopLimit.Hook) (o : StopLimit.OrderToSubmit.t)
    (overrides : option Js.Object)
| StopLimitCancellation (h : StopLimit.Hook) (o : Js.Object)
    (details : option StopLimit.OrderDetails.t) (overrides : option Js.Object)
| LimitSubmission (h : Limit.Hook)
| LimitCancellation (h : Limit.Hook) (fromCurrency toCurrency amount witness : string).

Definition succeeded {S A} (run : Result A * S) : bool :=
match run.1 with
| Ok _ => true
| Threw _ => false
end.

Section Sequences.

Variable isEthereumChain : Z -> bool.
Variable NATIVE : string.

(** The call is made; what is kept of its result is whether it returned. *)
Definition perform (op : Operation) (w : World) : bool * World :=
match op with
| StopLimitSubmission h o overrides =>
  let run := StopLimit.handleStopLimitOrderSubmission h o overrides w in
  (succeeded run, run.2)
| StopLimitCancellation h o details overrides =>
  let run := StopLimit.handleStopLimitOrderCancellation h o details overrides w in
  (succeeded run, run.2)
| LimitSubmission h =>
  let run := Limit.handleLimitOrderSubmission isEthereumChain NATIVE h w in
  (succeeded run, run.2)
| LimitCancellation h fromCurrency toCurrency amount witness =>
  let run := Limit.handleLimitOrderCancellation h fromCurrency toCurrency amount witness w in
  (succeeded run, run.2)
end.

(** The calls of a list, one after the other: how many returned, and the
    world they leave. *)
Fixpoint perform_all (ops : list Operation) (w : World) : nat * World :=
match ops with
| [] => (O, w)
| op :: ops' =>
  let '(ok, w1) := perform op w in
  let '(n, w2) := perform_all ops' w1 in
  ((if ok then S n else n), w2)
end.

End Sequences.

(** ** More hooks and panels to run the code with *)

Module Stage.

(** An encoder that rejects, and a signer that rejects. *)
Definition client_rejecting_encoding : StopLimit.GelatoStopLimitOrders :=
{| StopLimit.signer := Some Run.signer0;
   StopLimit.encodeStopLimitOrderSubmissionWithSecret :=
     fun _ _ _ _ _ _ => Threw "invalid BigNumber string";
   StopLimit.cancelLimitOrder := fun _ _ _ => Threw "execution reverted" |}.

Definition client_rejecting_send : StopLimit.GelatoStopLimitOrders :=
{| StopLimit.signer :=
     Some {| StopLimit.sendTransaction := fun _ => Threw "user rejected transaction" |};
   StopLimit.encodeStopLimitOrderSubmissionWithSecret :=
     StopLimit.encodeStopLimitOrderSubmissionWithSecret Run.client0;
   StopLimit.cancelLimitOrder := fun _ _ _ => Threw "execution reverted" |}.

Definition hook_with (client : StopLimit.GelatoStopLimitOrders) : StopLimit.Hook :=
{| StopLimit.chainId := Some 137;
   StopLimit.account := Some "0x8ba1f109551bD432803012645Ac136ddd64DBA72";
   StopLimit.gelatoStopLimitOrders := Some client;
   StopLimit.gasPrice := Js.Num 30000000000;
   StopLimit.now := 1700000000499 |}.

(** Overrides that try to redirect the transaction. *)
Definition hostile_overrides : Js.Object :=
<["to" := Js.Str "0x000000000000000000000000000000000000dEaD"]>
  (<["value" := Js.Num 1000000000000000000]> {["gasLimit" := Js.Num 21000]}).

(** An encoder whose order already carries a status and a witness. *)
Definition encoded_stale : Js.Object :=
<["status" := Js.Str "cancelled"]> (<["witness" := Js.Str "0xold"]> Run.encoded0).

Definition client_stale : StopLimit.GelatoStopLimitOrders :=
{| StopLimit.signer := Some Run.signer0;
   StopLimit.encodeStopLimitOrderSubmissionWithSecret :=
     fun _ _ _ _ _ _ =>
       Ok ("0x71C7656EC7ab88b098defB751B7401B5f6d8976F", Run.payload0, encoded_stale);
   StopLimit.cancelLimitOrder := fun _ _ _ => Threw "execution reverted" |}.

Definition tx1 : TransactionResponse := {| hash := "0xFEED01" |}.

(** A client whose cancellation is answered with another transaction. *)
Definition client1 : StopLimit.GelatoStopLimitOrders :=
{| StopLimit.signer := Some Run.signer0;
   StopLimit.encodeStopLimitOrderSubmissionWithSecret :=
     StopLimit.encodeStopLimitOrderSubmissionWithSecret Run.client0;
   StopLimit.cancelLimitOrder := fun _ _ _ => Ok tx1 |}.

(** The plain client rejecting every call. *)
Definition limit_client_rejecting : Limit.GelatoLimitOrders :=
{| Limit.getFeeAndSlippageAdjustedMinReturn := fun _ => Ok "0";
   Limit.submitLimitOrder := fun _ _ _ _ => Threw "insufficient funds";
   Limit.cancelLimitOrder := fun _ _ _ _ => Threw "execution reverted" |}.

(** The raw amounts a render computes for USDC against WETH; none are kept
    of a render that throws. *)
Definition raw_amounts_of (a b : option Sdk.CurrencyAmount) : Limit.RawAmounts :=
match Limit.memoised_rawAmounts (Some Run.USDC) (Some Run.WETH) a b with
| Ok raw => raw
| Threw _ => {| Limit.raw_input := None; Limit.raw_output := None |}
end.

Definition limit_hook_with (client : option Limit.GelatoLimitOrders)
    (chain : option Z) (a b : option Sdk.CurrencyAmount) : Limit.Hook :=
{| Limit.chainId := chain;
   Limit.gelatoLimitOrders := client;
   Limit.inputCurrency := Some Run.USDC;
   Limit.outputCurrency := Some Run.WETH;
   Limit.parsedInput := a;
   Limit.parsedOutput := b;
   Limit.rawAmounts := raw_amounts_of a b;
   Limit.formattedAmounts :=
     {| Limit.input := "1000"; Limit.output := "0.5"; Limit.price := "0.0005" |};
   Limit.rateType := MUL |}.

(** One and a half of the smallest unit of USDC, and an amount of USDC that
    is within the range of the sdk but not once it is scaled by 10^6. *)
Definition usdc_fraction : Sdk.CurrencyAmount :=
{| Sdk.currency := Run.USDC;
   Sdk.asFraction := {| Sdk.numerator := 3; Sdk.denominator := 2 |} |}.

Definition usdc_huge : Sdk.CurrencyAmount := Sdk.fromRawAmount Run.USDC (10 ^ 76).

(** An encoder whose payload has a value [BigNumber.from] does not take. *)
Definition client_invalid_value : StopLimit.GelatoStopLimitOrders :=
{| StopLimit.signer := Some Run.signer0;
   StopLimit.encodeStopLimitOrderSubmissionWithSecret :=
     fun _ _ _ _ _ _ =>
       Ok ("0x71C7656EC7ab88b098defB751B7401B5f6d8976F",
           {| to := to Run.payload0; data := data Run.payload0;
              value := Threw "invalid BigNumber string" |},
           Run.encoded0);
   StopLimit.cancelLimitOrder := fun _ _ _ => Threw "execution reverted" |}.

(** An amount of nothing, and a price of nothing. *)
Definition usdc_0 : Sdk.CurrencyAmount := Sdk.fromRawAmount Run.USDC 0.
Definition weth_0 : Sdk.CurrencyAmount := Sdk.fromRawAmount Run.WETH 0.

Definition price_zero : Sdk.Price :=
{| Sdk.baseCurrency := Run.USDC;
   Sdk.quoteCurrency := Run.WETH;
   Sdk.fraction := {| Sdk.numerator := 0; Sdk.denominator := 1000000000 |} |}.

(** 3 USDC against 2 WETH, two thirds of a WETH per USDC. *)
Definition usdc_3 : Sdk.CurrencyAmount := Sdk.fromRawAmount Run.USDC 3000000.
Definition weth_2 : Sdk.CurrencyAmount := Sdk.fromRawAmount Run.WETH 2000000000000000000.

Definition price_two_thirds : Sdk.Price :=
{| Sdk.baseCurrency := Run.USDC;
   Sdk.quoteCurrency := Run.WETH;
   Sdk.fraction :=
     {| Sdk.numerator := 2000000000000000000; Sdk.denominator := 3000000 |} |}.

Definition draft_3 : OrderState :=
{| independentField := INPUT; typedValue := "3"; rateType := MUL |}.

Definition draft0 : OrderState :=
{| independentField := INPUT; typedValue := "1000"; rateType := MUL |}.

Definition panel0 : Panel.State :=
{| Panel.swapState := Panel.initialSwapState; Panel.shown := [];
   Panel.orderState := draft0; Panel.world := empty_world |}.

Definition trade0 : Panel.Trade :=
{| Panel.route := Some [Sdk.address Run.USDC; Sdk.address Run.WETH] |}.

(** A price impact of 1%, and one of -2%. *)
Definition impact_up : Sdk.Fraction := {| Sdk.numerator := 1; Sdk.denominator := 100 |}.
Definition impact_down : Sdk.Fraction := {| Sdk.numerator := -2; Sdk.denominator := 100 |}.

Definition view0 : Panel.View :=
{| Panel.swapIsUnsupported := false;
   Panel.account := Some "0x8ba1f109551bD432803012645Ac136ddd64DBA72";
   Panel.trade := Some trade0;
   Panel.independent := INPUT;
   Panel.currencyInput := Some Run.USDC;
   Panel.currencyOutput := Some Run.WETH;
   Panel.parsedInput := Some Run.usdc_1000;
   Panel.priceImpact := Some impact_down;
   Panel.inputError := None |}.

(** The same view with a trade that has no route. *)
Definition view_no_route : Panel.View :=
{| Panel.swapIsUnsupported := false;
   Panel.account := Some "0x8ba1f109551bD432803012645Ac136ddd64DBA72";
   Panel.trade := Some {| Panel.route := None |};
   Panel.independent := INPUT;
   Panel.currencyInput := Some Run.USDC;
   Panel.currencyOutput := Some Run.WETH;
   Panel.parsedInput := Some Run.usdc_1000;
   Panel.priceImpact := None;
   Panel.inputError := None |}.

(** A constructor of the plain client. *)
Definition construct_limit (chain : Z) (_ : unit) : Result Limit.GelatoLimitOrders :=
if chain =? 137 then Ok Run.limit_client0 else Threw "Unsupported chain".

End Stage.

(** * Properties *)

(** ** The definitions at work *)

Example toLowerCase_hash : Js.toLowerCase "0xAB12CD34EF" = "0xab12cd34ef".
Proof. reflexivity. Qed.

Example round_seconds_half_up :
  Js.round_seconds 1700000000499 = 1700000000 /\ Js.round_seconds 1700000000500 = 1700000001.
Proof. split; reflexivity. Qed.

Example toExact_half_weth : Sdk.toExact Run.weth_half = "0.5".
Proof. reflexivity. Qed.

Example price_six_digits :
  Sdk.Price_toSignificant (H := Sdk.decimal_js) 6 Run.price0 = Ok "0.0005"
  /\ Sdk.Price_toSignificant (H := Sdk.decimal_js) 6 (Sdk.Price_invert Run.price0)
     = Ok "2000".
Proof. split; reflexivity. Qed.

Example significant_digits_rounding :
  Sdk.format_significant 6 Sdk.ROUND_HALF_UP 2 3 = Ok "0.666667"
  /\ Sdk.format_significant 6 Sdk.ROUND_DOWN 2 3 = Ok "0.666666"
  /\ Sdk.format_significant 6 Sdk.ROUND_HALF_UP 123456789 1 = Ok "123457000"
  /\ Sdk.format_significant 6 Sdk.ROUND_HALF_UP 12345649 100000000 = Ok "0.123456"
  /\ Sdk.format_significant 6 Sdk.ROUND_DOWN 1 0 = Threw "[DecimalError] Division by zero"
  /\ Sdk.format_significant 6 Sdk.ROUND_DOWN 0 0 = Ok "0".
Proof. repeat split; reflexivity. Qed.

(** The panel renders the derived price rounding half up, the toggle of the
    plain handler renders its quotient rounding down: for 3 USDC against
    2 WETH the panel shows 0.666667, a toggle seeds 1.5, and a second toggle
    with the same amounts seeds 0.666666. *)
Example toggling_twice_rounds_down :
  let h := Stage.limit_hook_with (Some Run.limit_client0) (Some 137)
             (Some Stage.usdc_3) (Some Stage.weth_2) in
  (exists shown,
      Panel.formattedAmounts (H := Sdk.decimal_js) Stage.draft_3 (Some Stage.usdc_3)
        (Some Stage.weth_2) (Some Stage.price_two_thirds) = Ok shown
      /\ Limit.price shown = "0.666667")
  /\ Limit.handleRateType (H := Sdk.decimal_js) h Stage.draft_3
     = (Ok tt, seeded DIV "1.5")
  /\ Limit.handleRateType (H := Sdk.decimal_js) (rerender h (seeded DIV "1.5"))
       (seeded DIV "1.5")
     = (Ok tt, seeded MUL "0.666666").
Proof.
  cbv zeta. split; [eexists; split; [vm_compute; reflexivity | reflexivity]|].
  split; vm_compute; reflexivity.
Qed.

Example full_record_exists_on_chain :
  StopLimit.checkIfOrderExists Run.record0 = true
  /\ StopLimit.checkIfOrderExists Run.record_without_witness = false.
Proof. split; reflexivity. Qed.

Example stoploss_client_constructed :
  Stoploss.useGelatoStoplossOrdersLib unit string Run.construct0
    {| Stoploss.chainId := Some 137; Stoploss.library := Some Run.wallet_provider |}
  = Ok (Some "quickswap_stoploss")
  /\ Stoploss.useGelatoStoplossOrdersLib unit string Run.construct0
       {| Stoploss.chainId := Some 1; Stoploss.library := Some Run.wallet_provider |}
     = Ok None
  /\ Stoploss.useGelatoStoplossOrdersLib unit string Run.construct0
       {| Stoploss.chainId := Some 137; Stoploss.library := None |}
     = Ok None.
Proof. repeat split; reflexivity. Qed.

(** ** Reading a record *)

Lemma submitted_order_status order tx witness now :
  StopLimit.submitted_order order tx witness now !! "status" = Some (Js.Str "open").
Proof.
  unfold StopLimit.submitted_order.
  rewrite lookup_insert_ne by discriminate.
  apply lookup_insert_eq.
Qed.

Lemma submitted_order_createdTxHash order tx witness now :
  StopLimit.submitted_order order tx witness now !! "createdTxHash"
  = Some (Js.Str (Js.toLowerCase (hash tx))).
Proof.
  unfold StopLimit.submitted_order.
  do 3 (rewrite lookup_insert_ne by discriminate).
  apply lookup_insert_eq.
Qed.

Lemma cancelled_order_status o tx now :
  StopLimit.cancelled_order o tx now !! "status" = Some (Js.Str "cancelled").
Proof.
  unfold StopLimit.cancelled_order.
  rewrite lookup_insert_ne by discriminate.
  apply lookup_insert_eq.
Qed.

Lemma cancelled_order_cancelledTxHash o tx now :
  StopLimit.cancelled_order o tx now !! "cancelledTxHash"
  = Some (Js.Str (Js.toLowerCase (hash tx))).
Proof. unfold StopLimit.cancelled_order. apply lookup_insert_eq. Qed.

Lemma cancelled_order_updatedAt o tx now :
  StopLimit.cancelled_order o tx now !! "updatedAt" = Some (Js.Str (Js.toString now)).
Proof.
  unfold StopLimit.cancelled_order.
  do 2 (rewrite lookup_insert_ne by discriminate).
  apply lookup_insert_eq.
Qed.

Lemma cancelled_order_frame o tx now (k : string) :
  k ≠ "status" -> k ≠ "cancelledTxHash" -> k ≠ "updatedAt" ->
  StopLimit.cancelled_order o tx now !! k = o !! k.
Proof.
  intros Hs Hc Hu. unfold StopLimit.cancelled_order.
  rewrite !lookup_insert_ne by congruence. reflexivity.
Qed.

(** ** Running the handlers *)

(** The stop-limit submission, step by step: which guard stops it, or what
    the encoder and the signer answer. *)
Lemma stop_limit_submission_run h o ov w :
  match StopLimit.gelatoStopLimitOrders h with
  | None =>
    StopLimit.handleStopLimitOrderSubmission h o ov w
    = (Threw "Could not reach Gelato Limit Orders library", w)
  | Some lib =>
    match Js.truthy_number (StopLimit.chainId h), StopLimit.signer lib with
    | None, _ =>
      StopLimit.handleStopLimitOrderSubmission h o ov w = (Threw "No chainId", w)
    | Some _, None =>
      StopLimit.handleStopLimitOrderSubmission h o ov w = (Threw "No signer", w)
    | Some _, Some sg =>
      let encode :=
        EncodeStopLimitOrderSubmissionWithSecret
          (StopLimit.OrderToSubmit.inputToken o) (StopLimit.OrderToSubmit.outputToken o)
          (StopLimit.OrderToSubmit.inputAmount o) (StopLimit.OrderToSubmit.outputAmount o)
          (StopLimit.OrderToSubmit.slippage o) (StopLimit.OrderToSubmit.owner o) in
      match StopLimit.encodeStopLimitOrderSubmissionWithSecret lib
              (StopLimit.OrderToSubmit.inputToken o) (StopLimit.OrderToSubmit.outputToken o)
              (StopLimit.OrderToSubmit.inputAmount o) (StopLimit.OrderToSubmit.outputAmount o)
              (StopLimit.OrderToSubmit.slippage o) (StopLimit.OrderToSubmit.owner o) with
      | Threw e =>
        StopLimit.handleStopLimitOrderSubmission h o ov w
        = (Threw e, {| calls := calls w ++ [encode]; history := history w |})
      | Ok (witness, payload, order) =>
        match value payload with
        | Threw e =>
          StopLimit.handleStopLimitOrderSubmission h o ov w
          = (Threw e, {| calls := calls w ++ [encode]; history := history w |})
        | Ok amount =>
          let request := StopLimit.submission_request h ov payload amount in
          match StopLimit.sendTransaction sg request with
          | Threw e =>
            StopLimit.handleStopLimitOrderSubmission h o ov w
            = (Threw e,
               {| calls := (calls w ++ [encode]) ++ [SendTransaction request];
                  history := history w |})
          | Ok tx =>
            StopLimit.handleStopLimitOrderSubmission h o ov w
            = (Ok tx,
               {| calls := (calls w ++ [encode]) ++ [SendTransaction request];
                  history := history w ++
                    [{| response := tx; summary := "Order submission";
                        type := submission;
                        order := Some (StopLimit.submitted_order order tx witness
                                         (Js.round_seconds (StopLimit.now h))) |}] |})
          end
        end
      end
    end
  end.
Proof.
  unfold StopLimit.handleStopLimitOrderSubmission.
  destruct (StopLimit.gelatoStopLimitOrders h) as [lib|]; [|reflexivity].
  destruct (Js.truthy_number (StopLimit.chainId h)); [|reflexivity].
  destruct (StopLimit.signer lib) as [sg|]; [|reflexivity].
  unfold bind, invoke, lift; cbn.
  destruct (StopLimit.encodeStopLimitOrderSubmissionWithSecret lib _ _ _ _ _ _)
    as [[[witness payload] order]|e]; [|reflexivity].
  destruct (value payload) as [amount|e]; [|reflexivity].
  destruct (StopLimit.sendTransaction sg _) as [tx|e]; reflexivity.
Qed.

(** The stop-limit cancellation, step by step. *)
Lemma stop_limit_cancellation_run h o d ov w :
  match StopLimit.gelatoStopLimitOrders h with
  | None =>
    StopLimit.handleStopLimitOrderCancellation h o d ov w
    = (Threw "Could not reach Gelato Limit Orders library", w)
  | Some lib =>
    match Js.truthy_number (StopLimit.chainId h), Js.truthy_string (StopLimit.account h) with
    | None, _ =>
      StopLimit.handleStopLimitOrderCancellation h o d ov w = (Threw "No chainId", w)
    | Some _, None =>
      StopLimit.handleStopLimitOrderCancellation h o d ov w = (Threw "No account", w)
    | Some _, Some _ =>
      let flag := StopLimit.checkIfOrderExists o in
      let options := StopLimit.cancellation_overrides h ov in
      let called := (calls w ++ [CancelStopLimitOrder o flag options])%list in
      match StopLimit.cancelLimitOrder lib o flag options with
      | Threw e =>
        StopLimit.handleStopLimitOrderCancellation h o d ov w
        = (Threw e, {| calls := called; history := history w |})
      | Ok tx =>
        StopLimit.handleStopLimitOrderCancellation h o d ov w
        = (Ok tx,
           {| calls := called;
              history := history w ++
                [{| response := tx; summary := StopLimit.cancellation_summary d;
                    type := cancellation;
                    order := Some (StopLimit.cancelled_order o tx
                                     (Js.round_seconds (StopLimit.now h))) |}] |})
      end
    end
  end.
Proof.
  unfold StopLimit.handleStopLimitOrderCancellation.
  destruct (StopLimit.gelatoStopLimitOrders h) as [lib|]; [|reflexivity].
  destruct (Js.truthy_number (StopLimit.chainId h)); [|reflexivity].
  destruct (Js.truthy_string (StopLimit.account h)); [|reflexivity].
  unfold bind, invoke; cbn.
  destruct (StopLimit.cancelLimitOrder lib _ _ _) as [tx|e]; reflexivity.
Qed.

(** Case analysis on whatever the handler in the goal branches on next. *)
Ltac branch :=
  match goal with
  | |- context [match ?x with _ => _ end] =>
    lazymatch x with
    | context [match _ with _ => _ end] => fail
    | _ => destruct x eqn:?
    end
  end.

Ltac branch_in H :=
  match type of H with
  | context [match ?x with _ => _ end] =>
    lazymatch x with
    | context [match _ with _ => _ end] => fail
    | _ => destruct x eqn:?
    end
  end.

Ltac run_handler := unfold bind, invoke, addTransaction, throw, ret, lift in *; cbn in *.

(** The plain submission once its guards have passed. *)
Lemma limit_submission_run isEthereumChain NATIVE h w ic oc a b rin rout client chain :
  Limit.inputCurrency h = Some ic ->
  Js.truthy_string (Some (Sdk.address ic)) = Some a ->
  Limit.outputCurrency h = Some oc ->
  Js.truthy_string (Some (Sdk.address oc)) = Some b ->
  Js.truthy_string (Limit.raw_input (Limit.rawAmounts h)) = Some rin ->
  Js.truthy_string (Limit.raw_output (Limit.rawAmounts h)) = Some rout ->
  Limit.gelatoLimitOrders h = Some client ->
  Js.truthy_number (Limit.chainId h) = Some chain ->
  Limit.handleLimitOrderSubmission isEthereumChain NATIVE h w
  = (let! minReturn := Limit.minReturn isEthereumChain client chain rout in
     let inputToken := Limit.token_address NATIVE ic in
     let outputToken := Limit.token_address NATIVE oc in
     let! tx :=
       invoke (SubmitLimitOrder inputToken outputToken rin minReturn)
              (Limit.submitLimitOrder client inputToken outputToken rin minReturn) in
     do! addTransaction tx (Limit.submission_summary h ic oc) submission None in
     ret (hash tx)) w.
Proof.
  intros Hic Ha Hoc Hb Hrin Hrout Hclient Hchain.
  unfold Limit.handleLimitOrderSubmission.
  rewrite Hic; cbn [Limit.wrapped_address]; rewrite Ha.
  rewrite Hoc; cbn [Limit.wrapped_address]; rewrite Hb.
  rewrite Hrin, Hrout, Hclient, Hchain. reflexivity.
Qed.

(** A handler never removes or rewrites an entry of the history: it may only
    add one at the end, and only when it returns. *)
Lemma stop_limit_submission_history h o ov w :
  let run := StopLimit.handleStopLimitOrderSubmission h o ov w in
  match run.1 with
  | Ok tx => exists e, history run.2 = (history w ++ [e])%list
  | Threw _ => history run.2 = history w
  end.
Proof.
  pose proof (stop_limit_submission_run h o ov w) as H; cbv zeta in H.
  repeat branch_in H; cbv zeta; rewrite H; cbn; eauto.
Qed.

Lemma stop_limit_cancellation_history h o d ov w :
  let run := StopLimit.handleStopLimitOrderCancellation h o d ov w in
  match run.1 with
  | Ok tx => exists e, history run.2 = (history w ++ [e])%list
  | Threw _ => history run.2 = history w
  end.
Proof.
  pose proof (stop_limit_cancellation_run h o d ov w) as H; cbv zeta in H.
  repeat branch_in H; cbv zeta; rewrite H; cbn; eauto.
Qed.

(** The plain submission: what it leaves in the history. *)
Lemma limit_submission_history isEthereumChain NATIVE h w :
  let run := Limit.handleLimitOrderSubmission isEthereumChain NATIVE h w in
  match run.1 with
  | Ok txHash =>
    exists e, history run.2 = (history w ++ [e])%list /\ type e = submission
              /\ order e = None /\ hash (response e) = txHash
  | Threw _ => history run.2 = history w
  end.
Proof.
  unfold Limit.handleLimitOrderSubmission, Limit.minReturn.
  repeat (branch; cbn; try reflexivity).
  all: run_handler; repeat (branch; cbn; try reflexivity); eauto.
Qed.

(** ** Submission *)

(** C1, as the code has it.  A stop-limit submission that returns the
    transaction has added exactly one entry to the history; the entry carries
    an order record whose status is "open" and whose [createdTxHash] is the
    lower-cased hash of the transaction the signer answered with.  A plain
    limit submission that returns has added exactly one entry of type
    submission, which carries no order record.  A submission of either kind
    that fails leaves the history as it was. *)
Theorem submission_appends_one_entry :
  (forall h o ov w tx w',
      StopLimit.handleStopLimitOrderSubmission h o ov w = (Ok tx, w') ->
      exists r request,
        history w'
        = (history w ++
             [{| response := tx; summary := "Order submission";
                 type := submission; order := Some r |}])%list
        /\ r !! "status" = Some (Js.Str "open")
        /\ r !! "createdTxHash" = Some (Js.Str (Js.toLowerCase (hash tx)))
        /\ last (calls w') = Some (SendTransaction request)
        /\ exists lib sg,
            StopLimit.gelatoStopLimitOrders h = Some lib
            /\ StopLimit.signer lib = Some sg
            /\ StopLimit.sendTransaction sg request = Ok tx)
  /\ (forall h o ov w e w',
         StopLimit.handleStopLimitOrderSubmission h o ov w = (Threw e, w') ->
         history w' = history w)
  /\ (forall isEthereumChain NATIVE h w txHash w',
         Limit.handleLimitOrderSubmission isEthereumChain NATIVE h w = (Ok txHash, w') ->
         exists e,
           history w' = (history w ++ [e])%list /\ type e = submission
           /\ order e = None /\ hash (response e) = txHash)
  /\ (forall isEthereumChain NATIVE h w e w',
         Limit.handleLimitOrderSubmission isEthereumChain NATIVE h w = (Threw e, w') ->
         history w' = history w).
Proof.
  repeat split.
  - intros h o ov w tx w' Hrun.
    pose proof (stop_limit_submission_run h o ov w) as H; cbv zeta in H.
    repeat branch_in H; rewrite H in Hrun; try discriminate.
    injection Hrun as -> <-. cbn [history calls].
    eexists _, _. split; [reflexivity|].
    split; [apply submitted_order_status|].
    split; [apply submitted_order_createdTxHash|].
    split; [apply last_snoc|].
    eauto.
  - intros h o ov w e w' Hrun.
    pose proof (stop_limit_submission_history h o ov w) as H; cbv zeta in H.
    rewrite Hrun in H. exact H.
  - intros isEth NATIVE h w txHash w' Hrun.
    pose proof (limit_submission_history isEth NATIVE h w) as H; cbv zeta in H.
    rewrite Hrun in H. exact H.
  - intros isEth NATIVE h w e w' Hrun.
    pose proof (limit_submission_history isEth NATIVE h w) as H; cbv zeta in H.
    rewrite Hrun in H. exact H.
Qed.

(** C1 at concrete runs: a stop-limit submission and a plain submission that
    succeed, and a stop-limit submission that fails for want of a client. *)
Lemma submission_appends_one_entry_witness :
  (exists r,
      order_records
        (history (StopLimit.handleStopLimitOrderSubmission Run.hook0 Run.order_to_submit0
                    None empty_world).2) = [r]
      /\ r !! "status" = Some (Js.Str "open")
      /\ r !! "createdTxHash" = Some (Js.Str "0xab12cd34ef"))
  /\ history (StopLimit.handleStopLimitOrderSubmission Run.hook_offline
                Run.order_to_submit0 None empty_world).2 = []
  /\ (exists e,
         history (Limit.handleLimitOrderSubmission Run.isEthereumChain Run.NATIVE
                    (Run.limit_hook 137 MUL) empty_world).2 = [e]
         /\ order e = None).
Proof.
  destruct submission_appends_one_entry as (Hstop & Hfail & Hplain & _).
  split; [|split].
  - destruct (Hstop Run.hook0 Run.order_to_submit0 None empty_world Run.tx0 _ eq_refl)
      as (r & request & Hhistory & Hstatus & Hcreated & _).
    exists r. split; [exact (f_equal order_records Hhistory) | split; assumption].
  - exact (Hfail Run.hook_offline Run.order_to_submit0 None empty_world _ _ eq_refl).
  - destruct (Hplain Run.isEthereumChain Run.NATIVE (Run.limit_hook 137 MUL) empty_world
                "0xAB12CD34EF"
                (Limit.handleLimitOrderSubmission Run.isEthereumChain Run.NATIVE
                   (Run.limit_hook 137 MUL) empty_world).2
                ltac:(vm_compute; reflexivity)) as (e & Hhistory & _ & Horder & _).
    exists e. split; [exact Hhistory | assumption].
Defined.

(** C1 as stated fails on the plain limit handler: this submission succeeds,
    returning the hash of the dispatched transaction, and the one entry it
    adds to the history carries no order record, so no record with status
    "open" and no [createdTxHash] has been appended. *)
Lemma plain_submission_appends_no_order_record :
  let run := Limit.handleLimitOrderSubmission Run.isEthereumChain Run.NATIVE
               (Run.limit_hook 137 MUL) empty_world in
  run.1 = Ok "0xAB12CD34EF"
  /\ length (history run.2) = 1%nat
  /\ order_records (history run.2) = [].
Proof. vm_compute. repeat split. Qed.

(** C5.  A submission one of whose preconditions fails raises an error with
    one of the handler's named messages and leaves the world as it was: no
    call to the client or to the signer, no entry added to the history.  The
    stop-limit handler requires the client, the chain id and the signer; the
    plain handler requires both currencies, both raw amounts, the client and
    the chain id. *)
Theorem failed_precondition_raises_and_does_nothing :
  (forall h o ov w,
      StopLimit.gelatoStopLimitOrders h = None
      \/ Js.truthy_number (StopLimit.chainId h) = None
      \/ (exists lib, StopLimit.gelatoStopLimitOrders h = Some lib
                      /\ StopLimit.signer lib = None) ->
      exists message,
        In message stop_limit_submission_errors
        /\ StopLimit.handleStopLimitOrderSubmission h o ov w = (Threw message, w))
  /\ (forall isEthereumChain NATIVE h w,
         Js.truthy_string (Limit.wrapped_address (Limit.inputCurrency h)) = None
         \/ Js.truthy_string (Limit.wrapped_address (Limit.outputCurrency h)) = None
         \/ Js.truthy_string (Limit.raw_input (Limit.rawAmounts h)) = None
         \/ Js.truthy_string (Limit.raw_output (Limit.rawAmounts h)) = None
         \/ Limit.gelatoLimitOrders h = None
         \/ Js.truthy_number (Limit.chainId h) = None ->
         exists message,
           In message limit_submission_errors
           /\ Limit.handleLimitOrderSubmission isEthereumChain NATIVE h w
              = (Threw message, w)).
Proof.
  split.
  - intros h o ov w Hfails.
    pose proof (stop_limit_submission_run h o ov w) as H; cbv zeta in H.
    destruct (StopLimit.gelatoStopLimitOrders h) as [lib|].
    + destruct (Js.truthy_number (StopLimit.chainId h)).
      * destruct (StopLimit.signer lib) eqn:Hsigner.
        -- exfalso. destruct Hfails as [Hf|[Hf|(lib' & Hf & Hs)]]; try discriminate.
           injection Hf as <-. congruence.
        -- exists "No signer". split; [cbn; auto | exact H].
      * exists "No chainId". split; [cbn; auto | exact H].
    + exists "Could not reach Gelato Limit Orders library". split; [cbn; auto | exact H].
  - intros isEth NATIVE h w Hfails.
    unfold Limit.handleLimitOrderSubmission.
    destruct (Limit.inputCurrency h) as [ic|]; cbn [Limit.wrapped_address] in *;
      [|exists "Invalid input currency"; split; [cbn; auto | reflexivity]].
    destruct (Js.truthy_string (Some (Sdk.address ic)));
      [|exists "Invalid input currency"; split; [cbn; auto | reflexivity]].
    destruct (Limit.outputCurrency h) as [oc|]; cbn [Limit.wrapped_address] in *;
      [|exists "Invalid output currency"; split; [cbn; auto | reflexivity]].
    destruct (Js.truthy_string (Some (Sdk.address oc)));
      [|exists "Invalid output currency"; split; [cbn; auto | reflexivity]].
    destruct (Js.truthy_string (Limit.raw_input (Limit.rawAmounts h)));
      [|exists "Invalid input amount"; split; [cbn; auto | reflexivity]].
    destruct (Js.truthy_string (Limit.raw_output (Limit.rawAmounts h)));
      [|exists "Invalid output amount"; split; [cbn; auto | reflexivity]].
    destruct (Limit.gelatoLimitOrders h);
      [|exists "Could not reach Gelato Limit Orders library";
        split; [cbn; auto 10 | reflexivity]].
    destruct (Js.truthy_number (Limit.chainId h));
      [|exists "No chainId"; split; [cbn; auto 10 | reflexivity]].
    exfalso. decompose [or] Hfails; discriminate.
Qed.

(** C5 at concrete hooks: a stop-limit hook without a client and a plain hook
    without an output currency, both run on a world that already has a call
    and an entry. *)
Lemma failed_precondition_raises_and_does_nothing_witness :
  let w := {| calls := [CancelLimitOrder "a" "b" "1" "w"];
              history := [{| response := Run.tx0; summary := "Order cancellation";
                             type := cancellation; order := None |}] |} in
  (exists message,
      In message stop_limit_submission_errors
      /\ StopLimit.handleStopLimitOrderSubmission Run.hook_offline Run.order_to_submit0
           None w = (Threw message, w))
  /\ (exists message,
         In message limit_submission_errors
         /\ Limit.handleLimitOrderSubmission Run.isEthereumChain Run.NATIVE
              Run.limit_hook_no_output w = (Threw message, w)).
Proof.
  intros w. split.
  - apply (proj1 failed_precondition_raises_and_does_nothing).
    left. reflexivity.
  - apply (proj2 failed_precondition_raises_and_does_nothing).
    right. left. reflexivity.
Defined.

(** ** Cancellation *)

(** The fields the existence flag is computed from. *)
Lemma checkIfOrderExists_conjunction (o : Js.Object) :
  StopLimit.checkIfOrderExists o
  = Js.truthy (Js.get o "module") && Js.truthy (Js.get o "inputToken")
    && Js.truthy (Js.get o "owner") && Js.truthy (Js.get o "witness")
    && Js.truthy (Js.get o "data").
Proof.
  unfold StopLimit.checkIfOrderExists, Js.and.
  destruct (Js.truthy (Js.get o "module")) eqn:Hmodule; cbn;
    [|rewrite Hmodule; cbn; rewrite Hmodule; cbn; rewrite Hmodule; cbn; exact Hmodule].
  destruct (Js.truthy (Js.get o "inputToken")) eqn:HinputToken; cbn;
    [|rewrite HinputToken; cbn; rewrite HinputToken; cbn; exact HinputToken].
  destruct (Js.truthy (Js.get o "owner")) eqn:Howner; cbn;
    [|rewrite Howner; cbn; exact Howner].
  destruct (Js.truthy (Js.get o "witness")) eqn:Hwitness; cbn;
    [reflexivity | exact Hwitness].
Qed.

Lemma missing_field_is_falsy (o : Js.Object) (k : string) :
  o !! k = None -> Js.truthy (Js.get o k) = false.
Proof. intros H. unfold Js.get. rewrite H. reflexivity. Qed.

(** C2.  The existence flag is the conjunction of the module, the input
    token, the owner, the witness and the data of the order being set.  Once
    the client, the chain id and the account are there, the handler makes
    exactly one call to the client's [cancelLimitOrder], with the order, this
    flag and the overrides, and its outcome is the client's; a record that
    lacks one of the five fields gives the flag [false] and the call is made
    all the same. *)
Theorem cancellation_passes_existence_flag h o d ov w lib chain account :
  StopLimit.gelatoStopLimitOrders h = Some lib ->
  Js.truthy_number (StopLimit.chainId h) = Some chain ->
  Js.truthy_string (StopLimit.account h) = Some account ->
  let flag :=
    Js.truthy (Js.get o "module") && Js.truthy (Js.get o "inputToken")
    && Js.truthy (Js.get o "owner") && Js.truthy (Js.get o "witness")
    && Js.truthy (Js.get o "data") in
  let options := StopLimit.cancellation_overrides h ov in
  let run := StopLimit.handleStopLimitOrderCancellation h o d ov w in
  StopLimit.checkIfOrderExists o = flag
  /\ calls run.2 = (calls w ++ [CancelStopLimitOrder o flag options])%list
  /\ run.1 = StopLimit.cancelLimitOrder lib o flag options
  /\ (forall k,
         In k ["module"; "inputToken"; "owner"; "witness"; "data"] ->
         o !! k = None ->
         flag = false
         /\ calls run.2 = (calls w ++ [CancelStopLimitOrder o false options])%list).
Proof.
  intros Hlib Hchain Haccount flag options run.
  pose proof (checkIfOrderExists_conjunction o) as Hflag. fold flag in Hflag.
  assert (Hcalls : calls run.2 = (calls w ++ [CancelStopLimitOrder o flag options])%list
                   /\ run.1 = StopLimit.cancelLimitOrder lib o flag options).
  { subst run.
    pose proof (stop_limit_cancellation_run h o d ov w) as H; cbv zeta in H.
    rewrite Hlib, Hchain, Haccount, Hflag in H. fold options in H.
    destruct (StopLimit.cancelLimitOrder lib o flag options); rewrite H; split; reflexivity. }
  destruct Hcalls as [Hcalls Hresult].
  split; [assumption|]. split; [assumption|]. split; [assumption|].
  intros k Hk Hnone.
  assert (flag = false) as Hfalse.
  { subst flag. cbn in Hk.
    decompose [or] Hk; subst; try contradiction;
      rewrite (missing_field_is_falsy o _ Hnone); cbn;
      repeat rewrite andb_false_r; reflexivity. }
  split; [exact Hfalse | rewrite <- Hfalse; exact Hcalls].
Qed.

(** C2 at a record without its witness: the flag is [false] and the call
    goes to the client with it. *)
Lemma cancellation_passes_existence_flag_witness :
  StopLimit.checkIfOrderExists Run.record_without_witness = false
  /\ calls (StopLimit.handleStopLimitOrderCancellation Run.hook0
              Run.record_without_witness None None empty_world).2
     = [CancelStopLimitOrder Run.record_without_witness false
          (StopLimit.cancellation_overrides Run.hook0 None)]
  /\ (StopLimit.handleStopLimitOrderCancellation Run.hook0
        Run.record_without_witness None None empty_world).1 = Ok Run.tx0.
Proof.
  destruct (cancellation_passes_existence_flag Run.hook0 Run.record_without_witness
              None None empty_world Run.client0 137
              "0x8ba1f109551bD432803012645Ac136ddd64DBA72" eq_refl eq_refl eq_refl)
    as (Hflag & Hcalls & Hresult & Hmissing).
  split; [exact Hflag|]. split; [exact Hcalls | exact Hresult].
Defined.

(** C3.  A cancellation that returns the transaction has added one entry to
    the history; its record has the status "cancelled", the lower-cased hash
    of the transaction the client answered with as [cancelledTxHash], and the
    clock's seconds as [updatedAt]; every other field reads as in the record
    that was passed in. *)
Theorem cancellation_patches_record h o d ov w tx w' :
  StopLimit.handleStopLimitOrderCancellation h o d ov w = (Ok tx, w') ->
  exists r',
    history w'
    = (history w ++
         [{| response := tx; summary := StopLimit.cancellation_summary d;
             type := cancellation; order := Some r' |}])%list
    /\ r' !! "status" = Some (Js.Str "cancelled")
    /\ r' !! "cancelledTxHash" = Some (Js.Str (Js.toLowerCase (hash tx)))
    /\ r' !! "updatedAt"
       = Some (Js.Str (Js.toString (Js.round_seconds (StopLimit.now h))))
    /\ (forall k : string,
           k ≠ "status" -> k ≠ "cancelledTxHash" -> k ≠ "updatedAt" ->
           r' !! k = o !! k)
    /\ exists lib,
        StopLimit.gelatoStopLimitOrders h = Some lib
        /\ StopLimit.cancelLimitOrder lib o (StopLimit.checkIfOrderExists o)
             (StopLimit.cancellation_overrides h ov) = Ok tx.
Proof.
  intros Hrun.
  pose proof (stop_limit_cancellation_run h o d ov w) as H; cbv zeta in H.
  repeat branch_in H; rewrite H in Hrun; try discriminate.
  injection Hrun as -> <-. cbn [history].
  eexists. split; [reflexivity|].
  split; [apply cancelled_order_status|].
  split; [apply cancelled_order_cancelledTxHash|].
  split; [apply cancelled_order_updatedAt|].
  split; [intros k; apply cancelled_order_frame|].
  eauto.
Qed.

(** C3 at the cancellation of a full record: the tokens, the amount, the
    owner, the witness, the data and [createdTxHash] are those of the record
    passed in. *)
Lemma cancellation_patches_record_witness :
  exists r',
    order_records
      (history (StopLimit.handleStopLimitOrderCancellation Run.hook0 Run.record0
                  None None empty_world).2) = [r']
    /\ r' !! "status" = Some (Js.Str "cancelled")
    /\ r' !! "cancelledTxHash" = Some (Js.Str "0xab12cd34ef")
    /\ r' !! "updatedAt" = Some (Js.Str "1700000000")
    /\ Forall (fun k : string => r' !! k = Run.record0 !! k)
         ["inputToken"; "inputAmount"; "owner"; "witness"; "data"; "module";
          "createdTxHash"].
Proof.
  destruct (cancellation_patches_record Run.hook0 Run.record0 None None empty_world
              Run.tx0 _ eq_refl)
    as (r' & Hhistory & Hstatus & Hcancelled & Hupdated & Hframe & _).
  exists r'.
  split; [exact (f_equal order_records Hhistory)|].
  split; [exact Hstatus|]. split; [exact Hcancelled|]. split; [exact Hupdated|].
  repeat constructor; apply Hframe; discriminate.
Defined.

(** What a handler that returns has handed to the transaction adder. *)
Lemma stop_limit_submission_written h o ov w tx w' :
  StopLimit.handleStopLimitOrderSubmission h o ov w = (Ok tx, w') ->
  exists witness order,
    history w'
    = (history w ++
         [{| response := tx; summary := "Order submission"; type := submission;
             order := Some (StopLimit.submitted_order order tx witness
                              (Js.round_seconds (StopLimit.now h))) |}])%list.
Proof.
  intros Hrun.
  pose proof (stop_limit_submission_run h o ov w) as H; cbv zeta in H.
  repeat branch_in H; rewrite H in Hrun; try discriminate.
  injection Hrun as -> <-. eexists _, _. reflexivity.
Qed.

Lemma stop_limit_cancellation_written h o d ov w tx w' :
  StopLimit.handleStopLimitOrderCancellation h o d ov w = (Ok tx, w') ->
  history w'
  = (history w ++
       [{| response := tx; summary := StopLimit.cancellation_summary d;
           type := cancellation;
           order := Some (StopLimit.cancelled_order o tx
                            (Js.round_seconds (StopLimit.now h))) |}])%list.
Proof.
  intros Hrun.
  pose proof (stop_limit_cancellation_run h o d ov w) as H; cbv zeta in H.
  repeat branch_in H; rewrite H in Hrun; try discriminate.
  injection Hrun as -> <-. reflexivity.
Qed.

(** ** The history store and the order of its mutations *)

Lemma strict_equal_spec (a b : Js.Value) : Js.strict_equal a b = true <-> a = b.
Proof.
  split.
  - destruct a, b; cbn; try discriminate; try reflexivity; intros H; f_equal.
    + apply Bool.eqb_prop. exact H.
    + apply Z.eqb_eq. exact H.
    + apply String.eqb_eq. exact H.
  - intros <-. destruct a; cbn; try reflexivity.
    + apply Bool.eqb_reflx.
    + apply Z.eqb_refl.
    + apply String.eqb_refl.
Qed.

Lemma replay_snoc entries e :
  Store.replay (entries ++ [e]) = Store.record_entry (Store.replay entries) e.
Proof. unfold Store.replay. rewrite fold_left_app. reflexivity. Qed.

Lemma find_append id s r :
  Store.find id (Store.append r s)
  = match Store.find id s with
    | Some found => Some found
    | None => if Js.strict_equal (identifier r) id then Some r else None
    end.
Proof.
  unfold Store.append. induction s as [|r' s IH]; cbn; [reflexivity|].
  destruct (Js.strict_equal (identifier r') id); [reflexivity | exact IH].
Qed.

Lemma identifier_patched id fields r :
  fields !! "witness" = None -> identifier (Store.patched id fields r) = identifier r.
Proof.
  intros Hfields. unfold Store.patched.
  destruct (Js.strict_equal (identifier r) id); [|reflexivity].
  unfold identifier, Js.get. rewrite lookup_union_r by exact Hfields. reflexivity.
Qed.

Lemma find_patched id id' fields s :
  fields !! "witness" = None ->
  Store.find id' (Store.patched id fields <$> s)
  = Store.patched id fields <$> Store.find id' s.
Proof.
  intros Hfields. induction s as [|r s IH]; cbn; [reflexivity|].
  rewrite identifier_patched by exact Hfields.
  destruct (Js.strict_equal (identifier r) id'); [reflexivity | exact IH].
Qed.

Lemma cancellation_fields_keep_the_identifier r :
  Store.cancellation_fields r !! "witness" = None.
Proof.
  unfold Store.cancellation_fields.
  rewrite !lookup_insert_ne by discriminate.
  apply lookup_singleton_ne. discriminate.
Qed.

Lemma patch_needs_the_record id fields s :
  match Store.patch id fields s with
  | Some s' => (exists r, Store.find id s = Some r) /\ s' = Store.patched id fields <$> s
  | None => Store.find id s = None
  end.
Proof. unfold Store.patch. destruct (Store.find id s); eauto. Qed.

(** Whatever the lookup finds in the store of a history was appended by a
    submission entry of that history. *)
Lemma found_was_created entries id :
  is_Some (Store.find id (Store.replay entries)) ->
  exists j e r,
    entries !! j = Some e /\ type e = submission /\ order e = Some r
    /\ identifier r = id.
Proof.
  induction entries as [|e entries IH] using rev_ind; intros Hfound.
  - destruct Hfound as [r Hr]. discriminate.
  - assert (Hearlier : is_Some (Store.find id (Store.replay entries)) ->
                       exists j e' r,
                         (entries ++ [e])%list !! j = Some e' /\ type e' = submission
                         /\ order e' = Some r /\ identifier r = id).
    { intros H. destruct (IH H) as (j & e' & r & Hj & Hrest).
      exists j, e', r. split; [|exact Hrest].
      apply lookup_app_l_Some. exact Hj. }
    rewrite replay_snoc in Hfound. unfold Store.record_entry in Hfound.
    destruct (order e) as [r|] eqn:Horder; [|exact (Hearlier Hfound)].
    destruct (type e) eqn:Htype.
    + rewrite find_append in Hfound.
      destruct (Store.find id (Store.replay entries)) eqn:Hold; [apply Hearlier; eauto|].
      destruct (Js.strict_equal (identifier r) id) eqn:Hid;
        [|destruct Hfound; discriminate].
      apply strict_equal_spec in Hid.
      exists (length entries), e, r.
      split; [apply list_lookup_middle; reflexivity | auto].
    + pose proof (patch_needs_the_record (identifier r) (Store.cancellation_fields r)
                    (Store.replay entries)) as Hpatch.
      destruct (Store.patch _ _ _) as [s'|]; [|exact (Hearlier Hfound)].
      destruct Hpatch as [_ ->].
      rewrite find_patched in Hfound by apply cancellation_fields_keep_the_identifier.
      apply Hearlier. destruct Hfound as [r' Hr'].
      destruct (Store.find id (Store.replay entries)); [eauto | discriminate].
Qed.

(** C9, against the history store as the spec describes it.  The patch of the
    store requires the record to exist already, found by the lookup by
    identifier.  Along any history of entries handed to the transaction
    adder, the record of a cancellation is applied to the store only as a
    patch of what the lookup finds, and whenever it is applied a submission
    entry for the same identifier comes earlier in the history; when the
    lookup finds nothing the store stays as it was.  So it is for the entry
    of the cancellation handler, which itself looks nothing up: its record
    has the identifier of the record it was given, no record is added to or
    removed from the store, and the store changes only if a submission for
    that identifier is in the history. *)
Theorem cancellation_patch_follows_creation :
  (forall id fields s s',
      Store.patch id fields s = Some s' -> exists r, Store.find id s = Some r)
  /\ (forall entries i e r,
         entries !! i = Some e -> type e = cancellation -> order e = Some r ->
         let before := Store.replay (take i entries) in
         let after := Store.replay (take (S i) entries) in
         match Store.patch (identifier r) (Store.cancellation_fields r) before with
         | Some patched =>
           after = patched
           /\ exists j e' r',
               (j < i)%nat /\ entries !! j = Some e' /\ type e' = submission
               /\ order e' = Some r' /\ identifier r' = identifier r
         | None => after = before /\ Store.find (identifier r) before = None
         end)
  /\ (forall h o d ov w tx w',
         StopLimit.handleStopLimitOrderCancellation h o d ov w = (Ok tx, w') ->
         let before := Store.replay (history w) in
         let after := Store.replay (history w') in
         length after = length before
         /\ (Store.find (identifier o) before = None -> after = before)
         /\ (after <> before ->
             exists j e' r',
               history w !! j = Some e' /\ type e' = submission
               /\ order e' = Some r' /\ identifier r' = identifier o)).
Proof.
  split; [|split].
  - intros id fields s s' Hpatch.
    pose proof (patch_needs_the_record id fields s) as H.
    rewrite Hpatch in H. exact (proj1 H).
  - intros entries i e r He Htype Horder before after. subst before after.
    rewrite (take_S_r _ _ _ He), replay_snoc.
    unfold Store.record_entry. rewrite Horder, Htype.
    pose proof (patch_needs_the_record (identifier r) (Store.cancellation_fields r)
                  (Store.replay (take i entries))) as Hpatch.
    destruct (Store.patch _ _ _) as [patched|];
      [|split; [reflexivity | exact Hpatch]].
    split; [reflexivity|].
    destruct Hpatch as [[found Hfound] _].
    destruct (found_was_created (take i entries) (identifier r))
      as (j & e' & r' & Hj & Hrest); [rewrite Hfound; eauto|].
    apply lookup_take_Some in Hj as [Hj Hlt].
    exists j, e', r'. split; [exact Hlt|]. split; [exact Hj | exact Hrest].
  - intros h o d ov w tx w' Hrun before after. subst before after.
    rewrite (stop_limit_cancellation_written _ _ _ _ _ _ _ Hrun), replay_snoc.
    unfold Store.record_entry. cbn [order type].
    assert (Hid : identifier (StopLimit.cancelled_order o tx
                                (Js.round_seconds (StopLimit.now h))) = identifier o).
    { unfold identifier, Js.get.
      rewrite cancelled_order_frame by discriminate. reflexivity. }
    rewrite Hid.
    pose proof (patch_needs_the_record (identifier o)
                  (Store.cancellation_fields
                     (StopLimit.cancelled_order o tx (Js.round_seconds (StopLimit.now h))))
                  (Store.replay (history w))) as Hpatch.
    destruct (Store.patch _ _ _) as [patched|].
    + destruct Hpatch as [[found Hfound] ->].
      split; [apply length_fmap|].
      split; [intros Hnone; congruence|].
      intros _. apply found_was_created. rewrite Hfound. eauto.
    + split; [reflexivity|]. split; [reflexivity|].
      intros Hchanged. contradiction.
Qed.

(** C9 at two histories.  A cancellation on an empty history: the handler
    returns, and the store stays empty.  A submission and then the
    cancellation of its record: the store holds that one record, patched, and
    the submission entry comes first. *)
Lemma cancellation_patch_follows_creation_witness :
  let alone :=
    StopLimit.handleStopLimitOrderCancellation Run.hook0 Run.record0 None None
      empty_world in
  let submitted :=
    StopLimit.handleStopLimitOrderSubmission Run.hook0 Run.order_to_submit0 None
      empty_world in
  let cancelled :=
    StopLimit.handleStopLimitOrderCancellation (Stage.hook_with Stage.client1)
      Run.record0 None None submitted.2 in
  (alone.1 = Ok Run.tx0 /\ Store.replay (history alone.2) = [])
  /\ (length (Store.replay (history cancelled.2)) = 1%nat
      /\ exists e' r',
          history cancelled.2 !! 0%nat = Some e' /\ type e' = submission
          /\ order e' = Some r' /\ identifier r' = identifier Run.record0).
Proof.
  intros alone submitted cancelled.
  destruct cancellation_patch_follows_creation as (_ & Halong & Hhandler).
  split.
  - split; [reflexivity|].
    exact (proj1 (proj2 (Hhandler Run.hook0 Run.record0 None None empty_world Run.tx0
                           alone.2 ltac:(vm_compute; reflexivity)))
             eq_refl).
  - split.
    + exact (proj1 (Hhandler (Stage.hook_with Stage.client1) Run.record0 None None
                      submitted.2 Stage.tx1 cancelled.2 ltac:(vm_compute; reflexivity))).
    + pose proof (Halong (history cancelled.2) 1%nat
                    {| response := Stage.tx1; summary := "Order cancellation";
                       type := cancellation;
                       order := Some (StopLimit.cancelled_order Run.record0 Stage.tx1
                                        1700000000) |}
                    (StopLimit.cancelled_order Run.record0 Stage.tx1 1700000000)
                    eq_refl eq_refl eq_refl) as Hpatched.
      cbv zeta in Hpatched.
      destruct (Store.patch _ _ _) as [patched|] eqn:Hpatch;
        [|destruct Hpatched as [_ Hnone]; vm_compute in Hnone; discriminate].
      destruct Hpatched as (_ & j & e' & r' & Hlt & Hj & Hrest).
      assert (j = 0%nat) as -> by lia.
      exists e', r'. split; [exact Hj|].
      destruct Hrest as (Htype & Horder & Hid).
      split; [exact Htype|]. split; [exact Horder|].
      rewrite Hid. unfold identifier, Js.get.
      rewrite cancelled_order_frame by discriminate. reflexivity.
Defined.

(** ** The status of a record *)

Lemma written_by_submission h o ov w tx w' r :
  StopLimit.handleStopLimitOrderSubmission h o ov w = (Ok tx, w') ->
  written w w' r -> status r = Js.Str "open".
Proof.
  intros Hrun (e & Hhistory & Horder).
  pose proof (stop_limit_submission_run h o ov w) as H; cbv zeta in H.
  repeat branch_in H; rewrite H in Hrun; try discriminate.
  injection Hrun as -> <-. cbn [history] in Hhistory.
  apply app_inj_tail in Hhistory as [_ <-]. cbn in Horder.
  injection Horder as <-.
  unfold status, Js.get. rewrite submitted_order_status. reflexivity.
Qed.

Lemma written_by_cancellation h o d ov w tx w' r :
  StopLimit.handleStopLimitOrderCancellation h o d ov w = (Ok tx, w') ->
  written w w' r -> status r = Js.Str "cancelled".
Proof.
  intros Hrun (e & Hhistory & Horder).
  pose proof (stop_limit_cancellation_run h o d ov w) as H; cbv zeta in H.
  repeat branch_in H; rewrite H in Hrun; try discriminate.
  injection Hrun as -> <-. cbn [history] in Hhistory.
  apply app_inj_tail in Hhistory as [_ <-]. cbn in Horder.
  injection Horder as <-.
  unfold status, Js.get. rewrite cancelled_order_status. reflexivity.
Qed.

Lemma lifecycle_after_creation s s' :
  clos_trans _ lifecycle s s' ->
  forall r, s = Some r -> exists r', s' = Some r' /\ status r' = Js.Str "cancelled".
Proof.
  induction 1 as [s s' Hstep | s s1 s' _ IH1 _ IH2]; intros r ->.
  - inversion Hstep; subst. eauto using written_by_cancellation.
  - destruct (IH1 r eq_refl) as (r1 & -> & _). exact (IH2 r1 eq_refl).
Qed.

(** C8.  Under the steps the two handlers generate, a record comes into being
    with the status "open"; any step from an existing record leads to
    "cancelled", hence to one of "cancelled" and "executed"; and after any
    sequence of one or more steps from an existing record the status is
    "cancelled", never "open" again. *)
Theorem status_never_returns_to_open :
  (forall s', lifecycle None s' -> exists r, s' = Some r /\ status r = Js.Str "open")
  /\ (forall r s',
         lifecycle (Some r) s' ->
         exists r', s' = Some r'
                    /\ (status r' = Js.Str "cancelled" \/ status r' = Js.Str "executed"))
  /\ (forall r s',
         clos_trans _ lifecycle (Some r) s' ->
         exists r', s' = Some r' /\ status r' ≠ Js.Str "open").
Proof.
  split; [|split].
  - intros s' Hstep. inversion Hstep; subst. eauto using written_by_submission.
  - intros r s' Hstep. inversion Hstep; subst. eauto using written_by_cancellation.
  - intros r s' Hsteps.
    destruct (lifecycle_after_creation _ _ Hsteps r eq_refl) as (r' & -> & Hstatus).
    exists r'. split; [reflexivity|]. rewrite Hstatus. discriminate.
Qed.

(** C8 along the life of one record: submitted, cancelled, and cancelled once
    more. *)
Lemma status_never_returns_to_open_witness :
  let cancelled := StopLimit.cancelled_order Run.record0 Run.tx0 1700000000 in
  let again := StopLimit.cancelled_order cancelled Run.tx0 1700000000 in
  status Run.record0 = Js.Str "open"
  /\ (exists r', Some again = Some r' /\ status r' ≠ Js.Str "open").
Proof.
  intros cancelled again.
  assert (Hcreate : lifecycle None (Some Run.record0)).
  { apply (lifecycle_submission Run.hook0 Run.order_to_submit0 None empty_world
             Run.tx0 _ _ eq_refl).
    eexists. split; reflexivity. }
  assert (Hcancel : lifecycle (Some Run.record0) (Some cancelled)).
  { apply (lifecycle_cancellation Run.hook0 Run.record0 None None empty_world
             Run.tx0 _ _ eq_refl).
    eexists. split; reflexivity. }
  assert (Hagain : lifecycle (Some cancelled) (Some again)).
  { apply (lifecycle_cancellation Run.hook0 cancelled None None empty_world
             Run.tx0 _ _ eq_refl).
    eexists. split; reflexivity. }
  destruct status_never_returns_to_open as (Hopen & _ & Hnever).
  split.
  - destruct (Hopen _ Hcreate) as (r & Hr & Hstatus).
    injection Hr as <-. exact Hstatus.
  - exact (Hnever _ _ (t_trans _ _ _ _ _ (t_step _ _ _ _ Hcancel)
                                         (t_step _ _ _ _ Hagain))).
Defined.

(** ** The minimum return and the raw amounts of a plain submission *)

(** C6.  Once the guards of a plain submission have passed, the minimum
    return that goes to the client's [submitLimitOrder] is the raw output
    amount itself on an Ethereum chain; on any other chain it is what the
    client's fee-and-slippage adjustment answers for the raw output amount
    (and if that adjustment throws, nothing is submitted). *)
Theorem minimum_return_adjusted_off_ethereum
    isEthereumChain NATIVE h w ic oc a b rin rout client chain :
  Limit.inputCurrency h = Some ic ->
  Js.truthy_string (Some (Sdk.address ic)) = Some a ->
  Limit.outputCurrency h = Some oc ->
  Js.truthy_string (Some (Sdk.address oc)) = Some b ->
  Js.truthy_string (Limit.raw_input (Limit.rawAmounts h)) = Some rin ->
  Js.truthy_string (Limit.raw_output (Limit.rawAmounts h)) = Some rout ->
  Limit.gelatoLimitOrders h = Some client ->
  Js.truthy_number (Limit.chainId h) = Some chain ->
  let run := Limit.handleLimitOrderSubmission isEthereumChain NATIVE h w in
  let submit :=
    SubmitLimitOrder (Limit.token_address NATIVE ic) (Limit.token_address NATIVE oc) rin in
  if isEthereumChain chain
  then calls run.2 = (calls w ++ [submit rout])%list
  else
    match Limit.getFeeAndSlippageAdjustedMinReturn client rout with
    | Ok adjusted =>
      calls run.2
      = (calls w ++ [GetFeeAndSlippageAdjustedMinReturn rout; submit adjusted])%list
    | Threw e =>
      run = (Threw e,
             {| calls := calls w ++ [GetFeeAndSlippageAdjustedMinReturn rout];
                history := history w |})
    end.
Proof.
  intros Hic Ha Hoc Hb Hrin Hrout Hclient Hchain run submit. subst run submit.
  rewrite (limit_submission_run _ _ _ _ _ _ _ _ _ _ _ _ Hic Ha Hoc Hb Hrin Hrout
             Hclient Hchain).
  unfold Limit.minReturn.
  destruct (isEthereumChain chain); run_handler.
  - destruct (Limit.submitLimitOrder client _ _ _ _); reflexivity.
  - destruct (Limit.getFeeAndSlippageAdjustedMinReturn client rout); [|reflexivity].
    destruct (Limit.submitLimitOrder client _ _ _ _); cbn; rewrite <- app_assoc;
      reflexivity.
Qed.

(** C6 on Polygon, where the adjusted amount is submitted, and on mainnet,
    where the raw output amount is. *)
Lemma minimum_return_adjusted_off_ethereum_witness :
  calls (Limit.handleLimitOrderSubmission Run.isEthereumChain Run.NATIVE
           (Run.limit_hook 137 MUL) empty_world).2
  = [GetFeeAndSlippageAdjustedMinReturn "500000000000000000";
     SubmitLimitOrder (Sdk.address Run.USDC) (Sdk.address Run.WETH) "1000000000"
       "499000000000000000"]
  /\ calls (Limit.handleLimitOrderSubmission Run.isEthereumChain Run.NATIVE
              (Run.limit_hook 1 MUL) empty_world).2
     = [SubmitLimitOrder (Sdk.address Run.USDC) (Sdk.address Run.WETH) "1000000000"
          "500000000000000000"].
Proof.
  split.
  - exact (minimum_return_adjusted_off_ethereum Run.isEthereumChain Run.NATIVE
             (Run.limit_hook 137 MUL) empty_world Run.USDC Run.WETH
             (Sdk.address Run.USDC) (Sdk.address Run.WETH)
             "1000000000" "500000000000000000" Run.limit_client0 137
             eq_refl eq_refl eq_refl eq_refl eq_refl eq_refl eq_refl eq_refl).
  - exact (minimum_return_adjusted_off_ethereum Run.isEthereumChain Run.NATIVE
             (Run.limit_hook 1 MUL) empty_world Run.USDC Run.WETH
             (Sdk.address Run.USDC) (Sdk.address Run.WETH)
             "1000000000" "500000000000000000" Run.limit_client0 1
             eq_refl eq_refl eq_refl eq_refl eq_refl eq_refl eq_refl eq_refl).
Defined.

Lemma exponentiate10_pos decimals : 0 < Sdk.exponentiate10 decimals.
Proof. unfold Sdk.exponentiate10. apply Z.pow_pos_nonneg; lia. Qed.

Lemma decimal_string_whole (n : Z) (places : N) :
  Sdk.decimal_string (n * 10 ^ Z.of_N places) places = pretty n.
Proof.
  unfold Sdk.decimal_string.
  assert (10 ^ Z.of_N places ≠ 0) as Hscale
    by (pose proof (exponentiate10_pos places); unfold Sdk.exponentiate10 in *; lia).
  rewrite Z.rem_mul by exact Hscale.
  rewrite Z.quot_mul by exact Hscale.
  reflexivity.
Qed.

(** What the memoised function computes for one side, whatever the amount:
    the numerator is scaled by ten to the power of the selected currency's
    decimals, the quotient by the denominator is taken, cut off towards zero
    and checked against the range, and it is written with the decimals of the
    amount's own currency. *)
Lemma raw_amount_value (c : Sdk.Currency) (a : Sdk.CurrencyAmount) :
  Limit.rawAmount (Some c) (Some a)
  = let scaled := Sdk.numerator (Sdk.asFraction a) * Sdk.exponentiate10 (Sdk.decimals c) in
    let d := Sdk.denominator (Sdk.asFraction a) in
    if d =? 0 then Threw "Division by zero"
    else if Sdk.MaxUint256 <? Z.quot scaled d then Threw "Invariant failed: AMOUNT"
    else Ok (Some (Sdk.decimal_string (Z.quot scaled d)
                     (Sdk.decimals (Sdk.currency a)))).
Proof.
  unfold Limit.rawAmount, Sdk.CurrencyAmount_multiply, Sdk.fromFractionalAmount,
    Sdk.multiply, Sdk.of_int.
  cbn [Sdk.numerator Sdk.denominator]. cbv zeta. rewrite Z.mul_1_r.
  destruct (Sdk.denominator (Sdk.asFraction a) =? 0); [reflexivity|].
  destruct (Sdk.MaxUint256 <? _); reflexivity.
Qed.

Lemma raw_amount_numeral (c : Sdk.Currency) (raw : Z) :
  raw * 10 ^ Z.of_N (Sdk.decimals c) <= Sdk.MaxUint256 ->
  Limit.rawAmount (Some c) (Some (Sdk.fromRawAmount c raw)) = Ok (Some (pretty raw)).
Proof.
  intros Hrange. rewrite raw_amount_value. cbv zeta.
  unfold Sdk.fromRawAmount, Sdk.of_int, Sdk.exponentiate10.
  cbn [Sdk.asFraction Sdk.numerator Sdk.denominator Sdk.currency].
  rewrite Z.quot_1_r.
  destruct (Z.ltb_spec Sdk.MaxUint256 (raw * 10 ^ Z.of_N (Sdk.decimals c))) as [Hover|_];
    [lia|].
  cbn. rewrite decimal_string_whole. reflexivity.
Qed.

(** C7, as the code has it.  For a selected token and an amount parsed for
    it that is a whole number [raw] of the token's smallest unit, with
    [raw * 10^decimals] within the range of the sdk, the raw amount the
    render computes is the decimal numeral of [raw]: the amount in whole
    tokens times ten to the power of the token's decimals.  It is what a hook
    of that render holds as its raw input amount, or as its raw output
    amount, and so what its submission uses.  For any amount at all, the
    render computes the quotient of the scaled numerator by the denominator,
    written with the decimals of the amount's currency, and it throws when
    that quotient is beyond the range. *)
Theorem raw_amount_of_whole_units :
  (forall c raw,
      raw * 10 ^ Z.of_N (Sdk.decimals c) <= Sdk.MaxUint256 ->
      Limit.rawAmount (Some c) (Some (Sdk.fromRawAmount c raw)) = Ok (Some (pretty raw))
      /\ (Sdk.exactQ (Sdk.fromRawAmount c raw)
          * inject_Z (10 ^ Z.of_N (Sdk.decimals c)) == inject_Z raw)%Q)
  /\ (forall h c raw,
         Limit.memoised h ->
         raw * 10 ^ Z.of_N (Sdk.decimals c) <= Sdk.MaxUint256 ->
         (Limit.inputCurrency h = Some c ->
          Limit.parsedInput h = Some (Sdk.fromRawAmount c raw) ->
          Limit.raw_input (Limit.rawAmounts h) = Some (pretty raw))
         /\ (Limit.outputCurrency h = Some c ->
             Limit.parsedOutput h = Some (Sdk.fromRawAmount c raw) ->
             Limit.raw_output (Limit.rawAmounts h) = Some (pretty raw)))
  /\ (forall c a,
         Sdk.denominator (Sdk.asFraction a) <> 0 ->
         let whole :=
           Z.quot (Sdk.numerator (Sdk.asFraction a) * 10 ^ Z.of_N (Sdk.decimals c))
             (Sdk.denominator (Sdk.asFraction a)) in
         (whole <= Sdk.MaxUint256 ->
          Limit.rawAmount (Some c) (Some a)
          = Ok (Some (Sdk.decimal_string whole (Sdk.decimals (Sdk.currency a)))))
         /\ (Sdk.MaxUint256 < whole ->
             Limit.rawAmount (Some c) (Some a) = Threw "Invariant failed: AMOUNT")).
Proof.
  split; [|split].
  - intros c raw Hrange. split; [exact (raw_amount_numeral c raw Hrange)|].
    unfold Sdk.exactQ, Sdk.toQ, Sdk.decimalScale. cbn.
    pose proof (exponentiate10_pos (Sdk.decimals c)) as Hpos.
    unfold Sdk.exponentiate10 in *.
    field. intros Hzero.
    apply (Qeq_bool_neq (inject_Z (10 ^ Z.of_N (Sdk.decimals c))) 0%Q); [|exact Hzero].
    unfold Qeq_bool, inject_Z; cbn. apply Z.eqb_neq. lia.
  - intros h c raw Hmemoised Hrange.
    unfold Limit.memoised, Limit.memoised_rawAmounts in Hmemoised.
    destruct (Limit.rawAmount (Limit.inputCurrency h) (Limit.parsedInput h))
      as [input|] eqn:Hinput; [|discriminate].
    destruct (Limit.rawAmount (Limit.outputCurrency h) (Limit.parsedOutput h))
      as [output|] eqn:Houtput; [|discriminate].
    injection Hmemoised as <-. cbn [Limit.raw_input Limit.raw_output].
    split; intros Hc Ha.
    + rewrite Hc, Ha, (raw_amount_numeral c raw Hrange) in Hinput. congruence.
    + rewrite Hc, Ha, (raw_amount_numeral c raw Hrange) in Houtput. congruence.
  - intros c a Hdenominator whole. subst whole.
    rewrite raw_amount_value. cbv zeta. unfold Sdk.exponentiate10.
    destruct (Z.eqb_spec (Sdk.denominator (Sdk.asFraction a)) 0) as [|_];
      [contradiction|].
    destruct (Z.ltb_spec Sdk.MaxUint256
                (Z.quot (Sdk.numerator (Sdk.asFraction a)
                         * 10 ^ Z.of_N (Sdk.decimals c))
                   (Sdk.denominator (Sdk.asFraction a)))) as [Hover|Hwithin];
      split; intros Hrange; solve [reflexivity | lia].
Qed.

(** C7 for 1000.0 USDC, with six decimals: the render computes "1000000000",
    and the hook of that render holds it as its raw input amount. *)
Lemma raw_amount_of_whole_units_witness :
  Limit.rawAmount (Some Run.USDC) (Some Run.usdc_1000) = Ok (Some "1000000000")
  /\ Limit.raw_input (Limit.rawAmounts (Run.limit_hook 137 MUL)) = Some "1000000000".
Proof.
  destruct raw_amount_of_whole_units as (Hwhole & Hhook & _).
  split.
  - exact (proj1 (Hwhole Run.USDC 1000000000 ltac:(vm_compute; discriminate))).
  - exact (proj1 (Hhook (Run.limit_hook 137 MUL) Run.USDC 1000000000
                    ltac:(vm_compute; reflexivity) ltac:(vm_compute; discriminate))
             eq_refl eq_refl).
Defined.

(** C7 as stated fails.  An amount of one and a half of the smallest unit of
    USDC gives "1.5", which is no integer string.  An amount of 10^76 of the
    smallest unit of USDC, which the sdk holds, gives no raw amount at all:
    scaled by 10^6 it is beyond the range of the sdk, and the render
    throws. *)
Lemma raw_amount_of_a_fraction_or_beyond_the_range :
  Limit.rawAmount (Some Run.USDC) (Some Stage.usdc_fraction) = Ok (Some "1.5")
  /\ Sdk.fromFractionalAmount Run.USDC (10 ^ 76) 1 = Ok Stage.usdc_huge
  /\ Limit.rawAmount (Some Run.USDC) (Some Stage.usdc_huge)
     = Threw "Invariant failed: AMOUNT".
Proof. repeat split; vm_compute; reflexivity. Qed.

(** ** Toggling the rate type *)

Lemma oriented_toggled r p : oriented (toggled r) p = Sdk.Price_invert (oriented r p).
Proof. destruct r, p as [base quote [n d]]; reflexivity. Qed.

Lemma adjusted_inverted p :
  Sdk.adjustedForDecimals (Sdk.Price_invert p) = Sdk.invert (Sdk.adjustedForDecimals p).
Proof. reflexivity. Qed.





Lemma flipped_renders `{Sdk.DecimalFormat} (a b : Sdk.CurrencyAmount) (c : Sdk.Currency) :
  Limit.flipped (Some a) (Some b) (Some c)
  = match Limit.flipped_fraction a b c with
    | Threw e => Threw e
    | Ok f =>
      match Sdk.toSignificantDigits 6 Sdk.ROUND_DOWN (Sdk.numerator f)
              (Sdk.denominator f) with
      | Ok shown => Ok (Some shown)
      | Threw e => Threw e
      end
    end.
Proof.
  unfold Limit.flipped, Limit.flipped_fraction.
  destruct (Sdk.CurrencyAmount_divide a (Sdk.asFraction b)) as [divided|]; [|reflexivity].
  destruct (Sdk.CurrencyAmount_multiply divided _); reflexivity.
Qed.







(** ** The stop-loss client *)

(** The memoised function of the hook never throws: it gives [undefined]
    without a chain id or without a provider library, and whenever asking for
    the signer or constructing the client throws. *)
Lemma memoised_never_throws {Signer Client : Type}
    (construct : Z -> Signer -> string -> Result Client) (w : Stoploss.Web3 Signer) :
  (exists client, Stoploss.memoised Signer Client construct w = Ok client)
  /\ (Js.truthy_number (Stoploss.chainId Signer w) = None ->
      Stoploss.memoised Signer Client construct w = Ok None)
  /\ (Stoploss.library Signer w = None ->
      Stoploss.memoised Signer Client construct w = Ok None)
  /\ (forall e, Stoploss.instantiate Signer Client construct w = Threw e ->
                Stoploss.memoised Signer Client construct w = Ok None).
Proof.
  unfold Stoploss.memoised, Stoploss.try_or_undefined, Stoploss.instantiate.
  repeat split.
  - repeat branch; eauto.
  - intros ->. reflexivity.
  - intros ->. destruct (Js.truthy_number _); reflexivity.
  - intros e. repeat branch; congruence.
Qed.

(** With a provider whose [getSigner] returns, the hook is its memoised
    function and does not throw. *)
Lemma hook_with_working_provider {Signer Client : Type}
    (construct : Z -> Signer -> string -> Result Client) (w : Stoploss.Web3 Signer) :
  (forall l e, Stoploss.library Signer w = Some l -> Stoploss.getSigner Signer l ≠ Threw e) ->
  Stoploss.useGelatoStoplossOrdersLib Signer Client construct w
  = Stoploss.memoised Signer Client construct w.
Proof.
  intros Hsigner. unfold Stoploss.useGelatoStoplossOrdersLib, Stoploss.optional_signer.
  destruct (Stoploss.library Signer w) as [l|]; [|reflexivity].
  destruct (Stoploss.getSigner Signer l) eqn:Hl; [reflexivity|].
  exfalso. exact (Hsigner l _ eq_refl Hl).
Qed.

(** C10 fails on the code.  The hook evaluates [library?.getSigner()] for its
    [console.log] before it enters the [try] block, so with a read-only
    provider, whose [getSigner] throws, the hook throws: with a chain id, where
    the memoised function alone would have caught the exception and returned
    [undefined], and also without a chain id, where the claim promises
    [undefined]. *)
Theorem stoploss_hook_throws_before_try :
  Stoploss.useGelatoStoplossOrdersLib unit string Run.construct0
    {| Stoploss.chainId := Some 137; Stoploss.library := Some Run.read_only_provider |}
  = Threw "API provider does not support signing"
  /\ Stoploss.memoised unit string Run.construct0
       {| Stoploss.chainId := Some 137; Stoploss.library := Some Run.read_only_provider |}
     = Ok None
  /\ Stoploss.useGelatoStoplossOrdersLib unit string Run.construct0
       {| Stoploss.chainId := None; Stoploss.library := Some Run.read_only_provider |}
     = Threw "API provider does not support signing".
Proof. repeat split. Qed.

(** * Further properties of the hooks and of the panel *)

(** ** The stop-limit submission and its collaborators *)

(** X1.  When a stop-limit submission fails, the history is as it was and the
    message is one of four kinds: a message of one of the handler's guards,
    with nothing called; the encoder's own rejection, unchanged, with the
    encoder called and nothing sent; the exception of [BigNumber.from] on the
    value of the payload the encoder answered with, again with the encoder
    called and nothing sent; or the signer's own rejection, unchanged, after
    the encoder answered and the signer was asked once. *)
Theorem submission_failure_provenance h o ov w e w' :
  StopLimit.handleStopLimitOrderSubmission h o ov w = (Threw e, w') ->
  let encode :=
    EncodeStopLimitOrderSubmissionWithSecret
      (StopLimit.OrderToSubmit.inputToken o) (StopLimit.OrderToSubmit.outputToken o)
      (StopLimit.OrderToSubmit.inputAmount o) (StopLimit.OrderToSubmit.outputAmount o)
      (StopLimit.OrderToSubmit.slippage o) (StopLimit.OrderToSubmit.owner o) in
  history w' = history w
  /\ ((In e stop_limit_submission_errors /\ w' = w)
      \/ (exists lib,
             StopLimit.gelatoStopLimitOrders h = Some lib
             /\ StopLimit.encodeStopLimitOrderSubmissionWithSecret lib
                  (StopLimit.OrderToSubmit.inputToken o)
                  (StopLimit.OrderToSubmit.outputToken o)
                  (StopLimit.OrderToSubmit.inputAmount o)
                  (StopLimit.OrderToSubmit.outputAmount o)
                  (StopLimit.OrderToSubmit.slippage o)
                  (StopLimit.OrderToSubmit.owner o) = Threw e
             /\ calls w' = (calls w ++ [encode])%list)
      \/ (exists lib witness payload order,
             StopLimit.gelatoStopLimitOrders h = Some lib
             /\ StopLimit.encodeStopLimitOrderSubmissionWithSecret lib
                  (StopLimit.OrderToSubmit.inputToken o)
                  (StopLimit.OrderToSubmit.outputToken o)
                  (StopLimit.OrderToSubmit.inputAmount o)
                  (StopLimit.OrderToSubmit.outputAmount o)
                  (StopLimit.OrderToSubmit.slippage o)
                  (StopLimit.OrderToSubmit.owner o) = Ok (witness, payload, order)
             /\ value payload = Threw e
             /\ calls w' = (calls w ++ [encode])%list)
      \/ (exists lib sg request,
             StopLimit.gelatoStopLimitOrders h = Some lib
             /\ StopLimit.signer lib = Some sg
             /\ StopLimit.sendTransaction sg request = Threw e
             /\ calls w' = (calls w ++ [encode; SendTransaction request])%list)).
Proof.
  intros Hrun encode. subst encode.
  pose proof (stop_limit_submission_run h o ov w) as H; cbv zeta in H.
  repeat branch_in H; rewrite H in Hrun; try discriminate;
    injection Hrun as <- <-; (split; [reflexivity|]).
  - right. right. right. eexists _, _, _. repeat split; try eassumption.
    cbn [calls]. rewrite <- app_assoc. reflexivity.
  - right. right. left. subst. eexists _, _, _, _. repeat split; eassumption.
  - right. left. eexists. repeat split; eassumption.
  - left. split; [cbn; auto | reflexivity].
  - left. split; [cbn; auto | reflexivity].
  - left. split; [cbn; auto | reflexivity].
Qed.

(** X1 with an encoder that rejects, with a payload whose value
    [BigNumber.from] does not take, and with a signer that rejects. *)
Lemma submission_failure_provenance_witness :
  let rejected_encoding :=
    StopLimit.handleStopLimitOrderSubmission
      (Stage.hook_with Stage.client_rejecting_encoding) Run.order_to_submit0 None
      empty_world in
  let rejected_value :=
    StopLimit.handleStopLimitOrderSubmission
      (Stage.hook_with Stage.client_invalid_value) Run.order_to_submit0 None
      empty_world in
  let rejected_send :=
    StopLimit.handleStopLimitOrderSubmission
      (Stage.hook_with Stage.client_rejecting_send) Run.order_to_submit0 None
      empty_world in
  (rejected_encoding.1 = Threw "invalid BigNumber string"
   /\ history rejected_encoding.2 = [])
  /\ (succeeded rejected_value = false
      /\ length (calls rejected_value.2) = 1%nat
      /\ history rejected_value.2 = [])
  /\ (rejected_send.1 = Threw "user rejected transaction"
      /\ history rejected_send.2 = []).
Proof.
  intros rejected_encoding rejected_value rejected_send.
  split; [|split]; (split; [reflexivity|]).
  - exact (proj1 (submission_failure_provenance
                    (Stage.hook_with Stage.client_rejecting_encoding)
                    Run.order_to_submit0 None empty_world
                    "invalid BigNumber string" rejected_encoding.2
                    ltac:(vm_compute; reflexivity))).
  - split; [reflexivity|].
    exact (proj1 (submission_failure_provenance
                    (Stage.hook_with Stage.client_invalid_value)
                    Run.order_to_submit0 None empty_world
                    "invalid BigNumber string" rejected_value.2
                    ltac:(vm_compute; reflexivity))).
  - exact (proj1 (submission_failure_provenance
                    (Stage.hook_with Stage.client_rejecting_send)
                    Run.order_to_submit0 None empty_world
                    "user rejected transaction" rejected_send.2
                    ltac:(vm_compute; reflexivity))).
Defined.

Lemma submission_request_payload h ov payload amount :
  let request := StopLimit.submission_request h ov payload amount in
  request !! "to" = Some (Js.Str (to payload))
  /\ request !! "data" = Some (Js.Str (data payload))
  /\ request !! "value" = Some (Js.Num amount)
  /\ forall k : string,
      k ≠ "to" -> k ≠ "data" -> k ≠ "value" ->
      request !! k = default {["gasPrice" := StopLimit.gasPrice h]} ov !! k.
Proof.
  unfold StopLimit.submission_request; cbn zeta.
  split; [|split; [|split]].
  - do 2 (rewrite lookup_insert_ne by discriminate). apply lookup_insert_eq.
  - rewrite lookup_insert_ne by discriminate. apply lookup_insert_eq.
  - apply lookup_insert_eq.
  - intros k Hto Hdata Hvalue. rewrite !lookup_insert_ne by congruence. reflexivity.
Qed.

(** X2.  The overrides of the caller reach the collaborators but cannot
    redirect a submission.  The request a successful stop-limit submission
    sent has the payload's [to], [data] and [value], whatever the overrides
    hold under these names; every other property is the overrides', or the
    hook's gas price alone when there are none; the value is the integer
    [BigNumber.from] made of the payload's.  A cancellation whose guards
    pass hands the caller's overrides to the client as they are, an empty
    object included; only without overrides does it pass the hook's gas price
    and the gas limit 600000. *)
Theorem overrides_reach_the_collaborators :
  (forall h o ov w tx w',
      StopLimit.handleStopLimitOrderSubmission h o ov w = (Ok tx, w') ->
      exists lib witness payload order request,
        StopLimit.gelatoStopLimitOrders h = Some lib
        /\ StopLimit.encodeStopLimitOrderSubmissionWithSecret lib
             (StopLimit.OrderToSubmit.inputToken o) (StopLimit.OrderToSubmit.outputToken o)
             (StopLimit.OrderToSubmit.inputAmount o) (StopLimit.OrderToSubmit.outputAmount o)
             (StopLimit.OrderToSubmit.slippage o) (StopLimit.OrderToSubmit.owner o)
           = Ok (witness, payload, order)
        /\ last (calls w') = Some (SendTransaction request)
        /\ request !! "to" = Some (Js.Str (to payload))
        /\ request !! "data" = Some (Js.Str (data payload))
        /\ (exists amount,
               value payload = Ok amount
               /\ request !! "value" = Some (Js.Num amount))
        /\ forall k : string,
            k ≠ "to" -> k ≠ "data" -> k ≠ "value" ->
            request !! k
            = match ov with
              | Some given => given !! k
              | None => if decide (k = "gasPrice") then Some (StopLimit.gasPrice h) else None
              end)
  /\ (forall h o d ov w lib chain account,
         StopLimit.gelatoStopLimitOrders h = Some lib ->
         Js.truthy_number (StopLimit.chainId h) = Some chain ->
         Js.truthy_string (StopLimit.account h) = Some account ->
         exists options,
           last (calls (StopLimit.handleStopLimitOrderCancellation h o d ov w).2)
           = Some (CancelStopLimitOrder o (StopLimit.checkIfOrderExists o) options)
           /\ match ov with
              | Some given => options = given
              | None =>
                options !! "gasLimit" = Some (Js.Num 600000)
                /\ options !! "gasPrice" = Some (StopLimit.gasPrice h)
                /\ dom options = {["gasPrice"; "gasLimit"]}
              end).
Proof.
  split.
  - intros h o ov w tx w' Hrun.
    pose proof (stop_limit_submission_run h o ov w) as H; cbv zeta in H.
    repeat branch_in H; rewrite H in Hrun; try discriminate.
    injection Hrun as -> <-. cbn [calls].
    eexists _, _, _, _, _.
    split; [reflexivity|]. split; [eassumption|].
    split; [apply last_snoc|].
    match goal with
    | |- context [StopLimit.submission_request h ov ?payload ?amount] =>
      destruct (submission_request_payload h ov payload amount)
        as (Hto & Hdata & Hvalue & Hrest)
    end.
    split; [exact Hto|]. split; [exact Hdata|]. split; [eauto|].
    intros k Hk1 Hk2 Hk3. rewrite (Hrest k Hk1 Hk2 Hk3).
    destruct ov as [given|]; cbn [default]; [reflexivity|].
    case_decide as Hk.
    + subst k. apply lookup_singleton_eq.
    + apply lookup_singleton_ne. congruence.
  - intros h o d ov w lib chain account Hlib Hchain Haccount.
    pose proof (stop_limit_cancellation_run h o d ov w) as H; cbv zeta in H.
    rewrite Hlib, Hchain, Haccount in H.
    exists (StopLimit.cancellation_overrides h ov).
    split.
    + destruct (StopLimit.cancelLimitOrder lib o _ _); rewrite H; apply last_snoc.
    + unfold StopLimit.cancellation_overrides.
      destruct ov as [given|]; cbn [default]; [reflexivity|].
      split; [apply lookup_insert_eq|].
      split; [rewrite lookup_insert_ne by discriminate; apply lookup_singleton_eq|].
      rewrite dom_insert_L, dom_singleton_L. set_solver.
Qed.

(** X2 with overrides that name another recipient and another value, and
    with an empty overrides object for a cancellation. *)
Lemma overrides_reach_the_collaborators_witness :
  (exists request,
      last (calls (StopLimit.handleStopLimitOrderSubmission Run.hook0
                     Run.order_to_submit0 (Some Stage.hostile_overrides)
                     empty_world).2) = Some (SendTransaction request)
      /\ request !! "to" = Some (Js.Str (to Run.payload0))
      /\ request !! "value" = Some (Js.Num 0)
      /\ request !! "gasLimit" = Some (Js.Num 21000)
      /\ request !! "gasPrice" = None)
  /\ last (calls (StopLimit.handleStopLimitOrderCancellation Run.hook0 Run.record0
                    None (Some ∅) empty_world).2)
     = Some (CancelStopLimitOrder Run.record0 true ∅).
Proof.
  destruct overrides_reach_the_collaborators as [Hsubmit Hcancel].
  split.
  - destruct (Hsubmit Run.hook0 Run.order_to_submit0 (Some Stage.hostile_overrides)
                empty_world Run.tx0 _ eq_refl)
      as (lib & witness & payload & order & request & Hlib & Hencode & Hlast
          & Hto & _ & (amount & Hamount & Hvalue) & Hrest).
    injection Hlib as <-. injection Hencode as <- <- <-.
    injection Hamount as <-.
    exists request. split; [exact Hlast|]. split; [exact Hto|]. split; [exact Hvalue|].
    split; [exact (Hrest "gasLimit" ltac:(discriminate) ltac:(discriminate)
                     ltac:(discriminate))
           | exact (Hrest "gasPrice" ltac:(discriminate) ltac:(discriminate)
                      ltac:(discriminate))].
  - destruct (Hcancel Run.hook0 Run.record0 None (Some ∅) empty_world Run.client0 137
                "0x8ba1f109551bD432803012645Ac136ddd64DBA72" eq_refl eq_refl eq_refl)
      as (options & Hlast & ->).
    exact Hlast.
Defined.

(** ** The record of a submission, and its cancellation *)

Lemma submitted_order_frame order tx witness now (k : string) :
  k ≠ "createdTxHash" -> k ≠ "witness" -> k ≠ "status" -> k ≠ "updatedAt" ->
  StopLimit.submitted_order order tx witness now !! k = order !! k.
Proof.
  intros Hc Hw Hs Hu. unfold StopLimit.submitted_order.
  rewrite !lookup_insert_ne by congruence. reflexivity.
Qed.

Lemma submitted_order_witness order tx witness now :
  StopLimit.submitted_order order tx witness now !! "witness" = Some (Js.Str witness).
Proof.
  unfold StopLimit.submitted_order.
  do 2 (rewrite lookup_insert_ne by discriminate). apply lookup_insert_eq.
Qed.

Lemma submitted_order_updatedAt order tx witness now :
  StopLimit.submitted_order order tx witness now !! "updatedAt"
  = Some (Js.Str (Js.toString now)).
Proof. unfold StopLimit.submitted_order. apply lookup_insert_eq. Qed.

Lemma get_frame (r o : Js.Object) (k : string) : r !! k = o !! k -> Js.get r k = Js.get o k.
Proof. unfold Js.get. intros ->. reflexivity. Qed.

(** X3.  The record a successful stop-limit submission writes is the
    encoder's order with four properties set by the handler: [witness] is the
    encoder's witness and [status] is "open" even if the encoder's order
    carried others, [createdTxHash] and [updatedAt] are the handler's; every
    other property is the encoder's.  The record passes the existence check
    of a later cancellation exactly when the encoder's order has its module,
    input token, owner and data set and the witness is not empty. *)
Theorem submitted_record_keeps_the_encoded_order h o ov w tx w' :
  StopLimit.handleStopLimitOrderSubmission h o ov w = (Ok tx, w') ->
  exists lib witness payload order r,
    StopLimit.gelatoStopLimitOrders h = Some lib
    /\ StopLimit.encodeStopLimitOrderSubmissionWithSecret lib
         (StopLimit.OrderToSubmit.inputToken o) (StopLimit.OrderToSubmit.outputToken o)
         (StopLimit.OrderToSubmit.inputAmount o) (StopLimit.OrderToSubmit.outputAmount o)
         (StopLimit.OrderToSubmit.slippage o) (StopLimit.OrderToSubmit.owner o)
       = Ok (witness, payload, order)
    /\ written w w' r
    /\ r !! "witness" = Some (Js.Str witness)
    /\ r !! "status" = Some (Js.Str "open")
    /\ r !! "updatedAt"
       = Some (Js.Str (Js.toString (Js.round_seconds (StopLimit.now h))))
    /\ (forall k : string,
           k ≠ "createdTxHash" -> k ≠ "witness" -> k ≠ "status" -> k ≠ "updatedAt" ->
           r !! k = order !! k)
    /\ StopLimit.checkIfOrderExists r
       = Js.truthy (Js.get order "module") && Js.truthy (Js.get order "inputToken")
         && Js.truthy (Js.get order "owner") && negb (String.eqb witness "")
         && Js.truthy (Js.get order "data").
Proof.
  intros Hrun.
  pose proof (stop_limit_submission_run h o ov w) as H; cbv zeta in H.
  repeat branch_in H; rewrite H in Hrun; try discriminate.
  injection Hrun as -> <-.
  eexists _, _, _, _, _.
  split; [reflexivity|]. split; [eassumption|].
  split; [eexists; split; reflexivity|].
  split; [apply submitted_order_witness|].
  split; [apply submitted_order_status|].
  split; [apply submitted_order_updatedAt|].
  split; [intros k; apply submitted_order_frame|].
  rewrite checkIfOrderExists_conjunction.
  rewrite (get_frame (StopLimit.submitted_order _ _ _ _) _ "module")
    by (apply submitted_order_frame; discriminate).
  rewrite (get_frame (StopLimit.submitted_order _ _ _ _) _ "inputToken")
    by (apply submitted_order_frame; discriminate).
  rewrite (get_frame (StopLimit.submitted_order _ _ _ _) _ "owner")
    by (apply submitted_order_frame; discriminate).
  rewrite (get_frame (StopLimit.submitted_order _ _ _ _) _ "data")
    by (apply submitted_order_frame; discriminate).
  unfold Js.get at 4. rewrite submitted_order_witness. reflexivity.
Qed.

(** X3 with an encoder whose order already carries the status "cancelled"
    and a witness of its own. *)
Lemma submitted_record_keeps_the_encoded_order_witness :
  exists r,
    order_records
      (history (StopLimit.handleStopLimitOrderSubmission
                  (Stage.hook_with Stage.client_stale) Run.order_to_submit0 None
                  empty_world).2) = [r]
    /\ r !! "status" = Some (Js.Str "open")
    /\ r !! "witness" = Some (Js.Str "0x71C7656EC7ab88b098defB751B7401B5f6d8976F")
    /\ r !! "owner" = Stage.encoded_stale !! "owner"
    /\ StopLimit.checkIfOrderExists r = true.
Proof.
  destruct (submitted_record_keeps_the_encoded_order
              (Stage.hook_with Stage.client_stale) Run.order_to_submit0 None empty_world
              Run.tx0
              (StopLimit.handleStopLimitOrderSubmission
                 (Stage.hook_with Stage.client_stale) Run.order_to_submit0 None
                 empty_world).2
              ltac:(vm_compute; reflexivity))
    as (lib & witness & payload & order & r & Hlib & Hencode & (e & Hhistory & Horder)
        & Hwitness & Hstatus & _ & Hframe & Hflag).
  injection Hlib as <-. injection Hencode as <- <- <-.
  exists r.
  split; [rewrite Hhistory; cbn; rewrite Horder; reflexivity|].
  split; [exact Hstatus|]. split; [exact Hwitness|].
  split; [apply Hframe; discriminate | exact Hflag].
Defined.

(** X4.  A submission followed by the cancellation of the record it wrote
    leaves two more entries in the history, the open record and then the
    cancelled one.  The cancelled record keeps the [createdTxHash] of the
    submission and its witness, has the lower-cased hash of the cancellation
    as [cancelledTxHash], and passes the existence check exactly when the open
    record does. *)
Theorem submit_then_cancel h o ov w tx w1 r h' d ov' tx' w2 :
  StopLimit.handleStopLimitOrderSubmission h o ov w = (Ok tx, w1) ->
  written w w1 r ->
  StopLimit.handleStopLimitOrderCancellation h' r d ov' w1 = (Ok tx', w2) ->
  exists e e' r',
    history w2 = (history w ++ [e; e'])%list
    /\ type e = submission /\ order e = Some r
    /\ type e' = cancellation /\ order e' = Some r'
    /\ status r = Js.Str "open"
    /\ status r' = Js.Str "cancelled"
    /\ r' !! "createdTxHash" = Some (Js.Str (Js.toLowerCase (hash tx)))
    /\ r' !! "cancelledTxHash" = Some (Js.Str (Js.toLowerCase (hash tx')))
    /\ r' !! "witness" = r !! "witness"
    /\ StopLimit.checkIfOrderExists r' = StopLimit.checkIfOrderExists r.
Proof.
  intros Hsubmit (e & Hhistory & Horder) Hcancel.
  pose proof (written_by_submission h o ov w tx w1 r Hsubmit
                (ex_intro _ e (conj Hhistory Horder))) as Hopen.
  destruct (stop_limit_submission_written _ _ _ _ _ _ Hsubmit)
    as (witness & encoded & Hsubmitted).
  rewrite Hhistory in Hsubmitted. apply app_inj_tail in Hsubmitted as [_ ->].
  cbn in Horder. injection Horder as <-.
  pose proof (stop_limit_cancellation_written _ _ _ _ _ _ _ Hcancel) as Hcancelled.
  rewrite Hhistory, <- app_assoc in Hcancelled.
  eexists _, _, _.
  split; [exact Hcancelled|].
  split; [reflexivity|]. split; [reflexivity|].
  split; [reflexivity|]. split; [reflexivity|].
  split; [exact Hopen|].
  split; [unfold status, Js.get; rewrite cancelled_order_status; reflexivity|].
  split; [rewrite cancelled_order_frame by discriminate;
          apply submitted_order_createdTxHash|].
  split; [apply cancelled_order_cancelledTxHash|].
  split; [apply cancelled_order_frame; discriminate|].
  rewrite !checkIfOrderExists_conjunction.
  rewrite (get_frame (StopLimit.cancelled_order _ _ _) _ "module")
    by (apply cancelled_order_frame; discriminate).
  rewrite (get_frame (StopLimit.cancelled_order _ _ _) _ "inputToken")
    by (apply cancelled_order_frame; discriminate).
  rewrite (get_frame (StopLimit.cancelled_order _ _ _) _ "owner")
    by (apply cancelled_order_frame; discriminate).
  rewrite (get_frame (StopLimit.cancelled_order _ _ _) _ "witness")
    by (apply cancelled_order_frame; discriminate).
  rewrite (get_frame (StopLimit.cancelled_order _ _ _) _ "data")
    by (apply cancelled_order_frame; discriminate).
  reflexivity.
Qed.

(** X4 for the record of [Run.hook0], cancelled through a client that answers
    with another transaction. *)
Lemma submit_then_cancel_witness :
  let submitted :=
    StopLimit.handleStopLimitOrderSubmission Run.hook0 Run.order_to_submit0 None
      empty_world in
  let cancelled :=
    StopLimit.handleStopLimitOrderCancellation (Stage.hook_with Stage.client1)
      Run.record0 None None submitted.2 in
  exists r',
    order_records (history cancelled.2) = [Run.record0; r']
    /\ r' !! "createdTxHash" = Some (Js.Str "0xab12cd34ef")
    /\ r' !! "cancelledTxHash" = Some (Js.Str "0xfeed01")
    /\ StopLimit.checkIfOrderExists r' = true.
Proof.
  intros submitted cancelled.
  destruct (submit_then_cancel Run.hook0 Run.order_to_submit0 None empty_world
              Run.tx0 submitted.2 Run.record0 (Stage.hook_with Stage.client1)
              None None Stage.tx1 cancelled.2
              ltac:(vm_compute; reflexivity)
              ltac:(eexists; split; reflexivity)
              ltac:(vm_compute; reflexivity))
    as (e & e' & r' & Hhistory & _ & He & _ & He' & _ & _ & Hcreated & Hcancelled & _
        & Hflag).
  exists r'.
  split; [rewrite Hhistory; cbn; rewrite He, He'; reflexivity|].
  split; [exact Hcreated|]. split; [exact Hcancelled | exact Hflag].
Defined.

(** ** Any sequence of handler calls *)

Ltac close_extension :=
  cbn; rewrite ?app_nil_r, <- ?app_assoc; repeat split; reflexivity.

Ltac extension :=
  solve [ exists [], []; close_extension
        | eexists [_], []; close_extension
        | eexists [_; _], []; close_extension
        | eexists [_], [_]; close_extension
        | eexists [_; _], [_]; close_extension ].

(** One call of a handler adds calls at the end of the call log, and one
    entry at the end of the history if it returns, none if it throws. *)
Lemma perform_extends isEthereumChain NATIVE op w :
  let done := perform isEthereumChain NATIVE op w in
  exists made new,
    calls done.2 = (calls w ++ made)%list
    /\ history done.2 = (history w ++ new)%list
    /\ length new = (if done.1 then 1 else 0)%nat.
Proof.
  destruct op as [h o ov | h o d ov | h | h fromCurrency toCurrency amount witness];
    cbn [perform]; cbv zeta; unfold succeeded; cbn [fst snd].
  - pose proof (stop_limit_submission_run h o ov w) as H; cbv zeta in H.
    repeat branch_in H; rewrite H; extension.
  - pose proof (stop_limit_cancellation_run h o d ov w) as H; cbv zeta in H.
    repeat branch_in H; rewrite H; extension.
  - destruct (Limit.handleLimitOrderSubmission _ _ h w) as [r w'] eqn:Hrun.
    unfold Limit.handleLimitOrderSubmission, Limit.minReturn in Hrun.
    run_handler. repeat branch_in Hrun; injection Hrun as <- <-; extension.
  - destruct (Limit.handleLimitOrderCancellation h _ _ _ _ w) as [r w'] eqn:Hrun.
    unfold Limit.handleLimitOrderCancellation in Hrun.
    run_handler. repeat branch_in Hrun; injection Hrun as <- <-; extension.
Qed.

(** X5.  Along any sequence of calls of the four submission and cancellation
    handlers, the history only grows at its end: what was there stays in
    place, and the number of entries added is the number of calls that
    returned.  The call log only grows at its end as well. *)
Theorem history_grows_by_the_calls_that_returned isEthereumChain NATIVE ops w :
  let done := perform_all isEthereumChain NATIVE ops w in
  exists made new,
    calls done.2 = (calls w ++ made)%list
    /\ history done.2 = (history w ++ new)%list
    /\ length new = done.1
    /\ (done.1 <= length ops)%nat.
Proof.
  revert w. induction ops as [|op ops IH]; intros w; cbn zeta.
  - exists [], []. cbn. rewrite !app_nil_r. repeat split; lia.
  - cbn [perform_all].
    pose proof (perform_extends isEthereumChain NATIVE op w) as Hop; cbv zeta in Hop.
    destruct (perform isEthereumChain NATIVE op w) as [ok w1]; cbn [fst snd] in Hop.
    destruct Hop as (made1 & new1 & Hcalls1 & Hhistory1 & Hlength1).
    specialize (IH w1); cbv zeta in IH.
    destruct (perform_all isEthereumChain NATIVE ops w1) as [n w2]; cbn [fst snd] in *.
    destruct IH as (made2 & new2 & Hcalls2 & Hhistory2 & Hlength2 & Hbound).
    exists (made1 ++ made2)%list, (new1 ++ new2)%list.
    rewrite Hcalls2, Hcalls1, Hhistory2, Hhistory1, !app_assoc, length_app.
    split; [reflexivity|]. split; [reflexivity|].
    destruct ok; cbn [length]; split; lia.
Qed.

(** ** The plain cancellation *)

(** X6.  The plain cancellation needs the client only, neither a chain id nor
    an account.  Without the client it throws before any call.  With it, it
    makes exactly one call to the client's [cancelLimitOrder], with its four
    arguments in order; if the client answers, one entry of type cancellation
    without an order record is added and the hash is returned as the client
    gave it; if the client rejects, its message is raised and the history
    stays as it was. *)
Theorem plain_cancellation_needs_only_the_client
    h fromCurrency toCurrency amount witness w :
  let run := Limit.handleLimitOrderCancellation h fromCurrency toCurrency amount witness w in
  match Limit.gelatoLimitOrders h with
  | None => run = (Threw "Could not reach Gelato Limit Orders library", w)
  | Some client =>
    calls run.2 = (calls w ++ [CancelLimitOrder fromCurrency toCurrency amount witness])%list
    /\ match Limit.cancelLimitOrder client fromCurrency toCurrency amount witness with
       | Ok tx =>
         run.1 = Ok (hash tx)
         /\ history run.2
            = (history w ++
                 [{| response := tx; summary := "Order cancellation";
                     type := cancellation; order := None |}])%list
       | Threw e => run.1 = Threw e /\ history run.2 = history w
       end
  end.
Proof.
  cbv zeta. unfold Limit.handleLimitOrderCancellation.
  destruct (Limit.gelatoLimitOrders h) as [client|]; [|reflexivity].
  run_handler.
  destruct (Limit.cancelLimitOrder client fromCurrency toCurrency amount witness);
    repeat split.
Qed.

(** ** The raw amounts *)

Lemma pretty_N_go_nonempty (x : N) (s : string) : s ≠ "" -> pretty_N_go x s ≠ "".
Proof.
  revert s. induction (N.lt_wf_0 x) as [x _ IH]; intros s Hs.
  destruct (decide (x = 0)%N) as [->|Hx].
  - rewrite pretty_N_go_0. exact Hs.
  - rewrite pretty_N_go_step by lia. apply IH; [apply N.div_lt; lia | discriminate].
Qed.

Lemma pretty_Z_nonempty (z : Z) : pretty z ≠ "".
Proof.
  destruct z as [|p|p]; [discriminate| |discriminate].
  unfold pretty, pretty_Z, pretty, pretty_positive, pretty, pretty_N.
  case_decide; [discriminate|].
  rewrite pretty_N_go_step by lia. apply pretty_N_go_nonempty. discriminate.
Qed.

Lemma decimal_string_nonempty (m : Z) (places : N) : Sdk.decimal_string m places ≠ "".
Proof.
  unfold Sdk.decimal_string. cbv zeta.
  destruct (Z.abs (Z.rem m (10 ^ Z.of_N places)) =? 0); [apply pretty_Z_nonempty|].
  destruct ((m <? 0) && (Z.quot m (10 ^ Z.of_N places) =? 0)); [discriminate|].
  pose proof (pretty_Z_nonempty (Z.quot m (10 ^ Z.of_N places))) as Hwhole.
  destruct (pretty (Z.quot m (10 ^ Z.of_N places))); [contradiction | discriminate].
Qed.

Lemma raw_amount_nonempty c a s : Limit.rawAmount c a = Ok (Some s) -> s ≠ "".
Proof.
  unfold Limit.rawAmount. intros Hraw.
  destruct c as [c|]; [|discriminate]. destruct a as [a|]; [|discriminate].
  destruct (Sdk.CurrencyAmount_multiply a _) as [scaled|]; [|discriminate].
  injection Hraw as <-. apply decimal_string_nonempty.
Qed.

(** X7.  A raw amount the render computes is undefined exactly when the
    currency or the parsed amount is missing, and it is never the empty
    string, so the amount guards of the plain submission reject nothing else:
    an amount of zero gives "0", which passes.  In a hook whose raw amounts
    are those of its render, which did not throw, with both currencies, both
    parsed amounts, the client and the chain id there, the submission goes on
    to its collaborators whatever the amounts are. *)
Theorem raw_amount_guard_rejects_missing_amounts_only :
  (forall c a s,
      Limit.rawAmount c a = Ok (Some s) -> Js.truthy_string (Some s) = Some s)
  /\ (forall c a, Limit.rawAmount c a = Ok None <-> c = None \/ a = None)
  /\ (forall c, Limit.rawAmount (Some c) (Some (Sdk.fromRawAmount c 0)) = Ok (Some "0"))
  /\ (forall isEthereumChain NATIVE h w ic oc a b client chain,
         Limit.memoised h ->
         Limit.inputCurrency h = Some ic -> Sdk.address ic ≠ "" ->
         Limit.outputCurrency h = Some oc -> Sdk.address oc ≠ "" ->
         Limit.parsedInput h = Some a -> Limit.parsedOutput h = Some b ->
         Limit.gelatoLimitOrders h = Some client ->
         Js.truthy_number (Limit.chainId h) = Some chain ->
         exists first rest,
           calls (Limit.handleLimitOrderSubmission isEthereumChain NATIVE h w).2
           = (calls w ++ first :: rest)%list).
Proof.
  assert (forall s : string, s ≠ "" -> Js.truthy_string (Some s) = Some s) as Hsome.
  { intros s Hs. cbn. destruct (String.eqb_spec s ""); [contradiction | reflexivity]. }
  split; [intros c a s Hraw; exact (Hsome s (raw_amount_nonempty c a s Hraw))|].
  split.
  { intros c a. unfold Limit.rawAmount. split.
    - destruct c as [c|]; [|auto]. destruct a as [a|]; [|auto].
      destruct (Sdk.CurrencyAmount_multiply a _); discriminate.
    - intros [-> | ->]; [reflexivity|]. destruct c; reflexivity. }
  split.
  { intros c. apply (raw_amount_numeral c 0). vm_compute. discriminate. }
  intros isEth NATIVE h w ic oc a b client chain Hmemoised Hic Haddress Hoc Haddress'
         Ha Hb Hclient Hchain.
  unfold Limit.memoised, Limit.memoised_rawAmounts in Hmemoised.
  rewrite Hic, Hoc, Ha, Hb in Hmemoised.
  destruct (Limit.rawAmount (Some ic) (Some a)) as [[rin|]|] eqn:Hin;
    [|exfalso; unfold Limit.rawAmount in Hin;
       destruct (Sdk.CurrencyAmount_multiply a _); discriminate
     |discriminate].
  destruct (Limit.rawAmount (Some oc) (Some b)) as [[rout|]|] eqn:Hout;
    [|exfalso; unfold Limit.rawAmount in Hout;
       destruct (Sdk.CurrencyAmount_multiply b _); discriminate
     |discriminate].
  assert (Hrin : Js.truthy_string (Limit.raw_input (Limit.rawAmounts h)) = Some rin).
  { injection Hmemoised as <-. cbn [Limit.raw_input].
    exact (Hsome rin (raw_amount_nonempty _ _ _ Hin)). }
  assert (Hrout : Js.truthy_string (Limit.raw_output (Limit.rawAmounts h)) = Some rout).
  { injection Hmemoised as <-. cbn [Limit.raw_output].
    exact (Hsome rout (raw_amount_nonempty _ _ _ Hout)). }
  rewrite (limit_submission_run isEth NATIVE h w ic oc _ _ rin rout client chain
             Hic (Hsome _ Haddress) Hoc (Hsome _ Haddress') Hrin Hrout Hclient Hchain).
  unfold Limit.minReturn. destruct (isEth chain); run_handler.
  - destruct (Limit.submitLimitOrder client _ _ _ _); cbn; eexists _, _; reflexivity.
  - destruct (Limit.getFeeAndSlippageAdjustedMinReturn client _); cbn;
      [|eexists _, _; reflexivity].
    destruct (Limit.submitLimitOrder client _ _ _ _); cbn; rewrite <- app_assoc;
      eexists _, _; reflexivity.
Qed.

(** X7 for an order of zero USDC for zero WETH on mainnet: the client is
    asked to submit "0" for "0". *)
Lemma raw_amount_guard_rejects_missing_amounts_only_witness :
  exists first rest,
    calls (Limit.handleLimitOrderSubmission Run.isEthereumChain Run.NATIVE
             (Stage.limit_hook_with (Some Run.limit_client0) (Some 1)
                (Some Stage.usdc_0) (Some Stage.weth_0)) empty_world).2
    = first :: rest
    /\ first = SubmitLimitOrder (Sdk.address Run.USDC) (Sdk.address Run.WETH) "0" "0".
Proof.
  destruct raw_amount_guard_rejects_missing_amounts_only as (_ & _ & _ & Hpasses).
  destruct (Hpasses Run.isEthereumChain Run.NATIVE
              (Stage.limit_hook_with (Some Run.limit_client0) (Some 1)
                 (Some Stage.usdc_0) (Some Stage.weth_0)) empty_world
              Run.USDC Run.WETH Stage.usdc_0 Stage.weth_0 Run.limit_client0 1
              ltac:(vm_compute; reflexivity)
              eq_refl ltac:(discriminate) eq_refl ltac:(discriminate)
              eq_refl eq_refl eq_refl eq_refl) as (first & rest & Hcalls).
  exists first, rest. split; [exact Hcalls|].
  cbn in Hcalls. injection Hcalls as <- _. reflexivity.
Defined.

(** X8.  The raw amount tells the parsed amount: two amounts of whole raw
    units for which the render computes the same raw-amount string are the
    same number of units, whatever the currencies. *)
Theorem raw_amount_is_injective (c c' : Sdk.Currency) (raw raw' : Z) (s : string) :
  Limit.rawAmount (Some c) (Some (Sdk.fromRawAmount c raw)) = Ok (Some s) ->
  Limit.rawAmount (Some c') (Some (Sdk.fromRawAmount c' raw')) = Ok (Some s) ->
  raw = raw'.
Proof.
  assert (Hnumeral : forall k n t,
             Limit.rawAmount (Some k) (Some (Sdk.fromRawAmount k n)) = Ok (Some t) ->
             t = pretty n).
  { intros k n t. rewrite raw_amount_value. cbv zeta.
    unfold Sdk.fromRawAmount, Sdk.of_int, Sdk.exponentiate10.
    cbn [Sdk.asFraction Sdk.numerator Sdk.denominator Sdk.currency].
    rewrite Z.quot_1_r. cbn [Z.eqb].
    destruct (Sdk.MaxUint256 <? _); [discriminate|].
    rewrite decimal_string_whole. congruence. }
  intros Hraw Hraw'.
  apply Hnumeral in Hraw, Hraw'. subst s.
  exact (pretty_Z_inj _ _ Hraw').
Qed.

(** X8 at 1000 USDC, written with six decimals and with eighteen. *)
Lemma raw_amount_is_injective_witness : 1000000000 = 1000000000.
Proof.
  exact (raw_amount_is_injective Run.USDC Run.WETH 1000000000 1000000000 "1000000000"
           ltac:(vm_compute; reflexivity) ltac:(vm_compute; reflexivity)).
Defined.

(** ** Toggling the rate type without a price, or with one that cannot be
    rendered *)

Lemma limit_toggle_unseeded `{Sdk.DecimalFormat} h s :
  Limit.parsedInput h = None \/ Limit.parsedOutput h = None ->
  Limit.handleRateType h s
  = (Ok tt,
     {| independentField := independentField s; typedValue := typedValue s;
        rateType := toggled (Limit.rateType h) |}).
Proof.
  intros Hmissing. unfold Limit.handleRateType, Limit.flipped.
  destruct (Limit.rateType h), Hmissing as [-> | ->]; cbn [toggled];
    try destruct (Limit.parsedInput h); try destruct (Limit.parsedOutput h);
    reflexivity.
Qed.

(** X9.  Without a price the toggle flips the rate type and nothing else: the
    typed value and the independent field stay, and a second toggle gives the
    draft back as it was.  For the stop-limit handler this is the call without
    a price argument; for the plain handler it is the hook with a parsed
    amount missing. *)
Theorem toggle_without_price_flips_the_rate_only `{Sdk.DecimalFormat} :
  (forall r s,
      StopLimit.handleRateType r None s
      = (Ok tt,
         {| independentField := independentField s; typedValue := typedValue s;
            rateType := toggled r |}))
  /\ (forall s,
         let once := (StopLimit.handleRateType (rateType s) None s).2 in
         StopLimit.handleRateType (rateType once) None once = (Ok tt, s))
  /\ (forall h s,
         Limit.parsedInput h = None \/ Limit.parsedOutput h = None ->
         Limit.handleRateType h s
         = (Ok tt,
            {| independentField := independentField s; typedValue := typedValue s;
               rateType := toggled (Limit.rateType h) |})
         /\ (Limit.rateType h = rateType s ->
             let once := (Limit.handleRateType h s).2 in
             Limit.handleRateType (rerender h once) once = (Ok tt, s))).
Proof.
  split; [|split].
  - intros [] s; reflexivity.
  - intros [field typed []]; reflexivity.
  - intros h s Hmissing.
    split; [exact (limit_toggle_unseeded h s Hmissing)|].
    intros Hrate once. subst once.
    rewrite (limit_toggle_unseeded h s Hmissing). cbn [snd].
    rewrite limit_toggle_unseeded by exact Hmissing.
    cbn. rewrite Hrate. destruct s as [field typed []]; reflexivity.
Qed.

(** X9 for a draft with a typed input of 1000 and no output amount yet. *)
Lemma toggle_without_price_flips_the_rate_only_witness :
  let h := Stage.limit_hook_with (Some Run.limit_client0) (Some 137)
             (Some Run.usdc_1000) None in
  Limit.handleRateType (H := Sdk.decimal_js) h Stage.draft0
  = (Ok tt, {| independentField := INPUT; typedValue := "1000"; rateType := DIV |})
  /\ Limit.handleRateType (H := Sdk.decimal_js)
       (rerender h (Limit.handleRateType (H := Sdk.decimal_js) h Stage.draft0).2)
       (Limit.handleRateType (H := Sdk.decimal_js) h Stage.draft0).2
     = (Ok tt, Stage.draft0).
Proof.
  intros h.
  destruct (toggle_without_price_flips_the_rate_only (H := Sdk.decimal_js))
    as (_ & _ & Hplain).
  destruct (Hplain h Stage.draft0 (or_intror eq_refl)) as [Honce Htwice].
  split; [exact Honce | exact (Htwice eq_refl)].
Defined.

(** X10.  A toggle that throws changes nothing: the exception is raised
    before any action, so the typed value, the independent field and the rate
    type are as they were.  The stop-limit handler throws what the rendering
    of the price in the opposite orientation throws.  The plain handler
    throws what its quotient throws, which is one of: the "Division by zero"
    of the amount made by the division, when the amount it divides by is
    zero; the "Invariant failed: AMOUNT" of an amount beyond the range of the
    sdk; or what the rendering of the fraction throws. *)
Theorem failed_toggle_changes_nothing `{Sdk.DecimalFormat} :
  (forall r p s e,
      Sdk.Price_toSignificant 6 (Sdk.Price_invert (oriented r p)) = Threw e ->
      StopLimit.handleRateType r (Some p) s = (Threw e, s))
  /\ (forall h s e,
         Limit.quoted (toggled (Limit.rateType h)) h = Threw e ->
         Limit.handleRateType h s = (Threw e, s))
  /\ (forall a b c,
         Sdk.numerator (Sdk.asFraction b) = 0 ->
         Limit.flipped (Some a) (Some b) (Some c) = Threw "Division by zero")
  /\ (forall a b c e,
         Limit.flipped (Some a) (Some b) (Some c) = Threw e ->
         (e = "Division by zero"
          /\ Sdk.denominator (Sdk.asFraction a) * Sdk.numerator (Sdk.asFraction b) = 0)
         \/ e = "Invariant failed: AMOUNT"
         \/ exists f,
             Limit.flipped_fraction a b c = Ok f
             /\ Sdk.toSignificantDigits 6 Sdk.ROUND_DOWN (Sdk.numerator f)
                  (Sdk.denominator f) = Threw e).
Proof.
  split; [|split; [|split]].
  - intros r p s e Hthrows. rewrite <- oriented_toggled in Hthrows.
    unfold StopLimit.handleRateType.
    destruct r; cbn [oriented toggled] in Hthrows; run_handler; rewrite Hthrows;
      reflexivity.
  - intros h s e Hthrows. unfold Limit.handleRateType.
    destruct (Limit.rateType h); cbn [Limit.quoted toggled] in Hthrows;
      unfold bind, lift; rewrite Hthrows; reflexivity.
  - intros a b c Hzero.
    unfold Limit.flipped, Sdk.CurrencyAmount_divide, Sdk.fromFractionalAmount, Sdk.divide.
    cbv zeta. cbn [Sdk.numerator Sdk.denominator].
    rewrite Hzero, Z.mul_0_r. reflexivity.
  - intros a b c e. rewrite flipped_renders.
    unfold Limit.flipped_fraction, Sdk.CurrencyAmount_divide, Sdk.CurrencyAmount_multiply,
      Sdk.fromFractionalAmount, Sdk.divide, Sdk.multiply, Sdk.of_int.
    cbv zeta. cbn [Sdk.numerator Sdk.denominator].
    destruct (Z.eqb_spec (Sdk.denominator (Sdk.asFraction a)
                          * Sdk.numerator (Sdk.asFraction b)) 0) as [Hzero|Hnonzero].
    { intros [= <-]. left. split; [reflexivity | exact Hzero]. }
    destruct (Sdk.MaxUint256 <? _); [intros [= <-]; right; left; reflexivity|].
    cbn [Sdk.asFraction Sdk.currency Sdk.numerator Sdk.denominator].
    rewrite Z.mul_1_r.
    destruct (Z.eqb_spec (Sdk.denominator (Sdk.asFraction a)
                          * Sdk.numerator (Sdk.asFraction b)) 0) as [Hzero|_];
      [contradiction|].
    destruct (Sdk.MaxUint256 <? _); [intros [= <-]; right; left; reflexivity|].
    destruct (Sdk.toSignificantDigits _ _ _ _) eqn:Hrender; [discriminate|].
    intros [= <-]. right. right. eexists. split; [reflexivity | exact Hrender].
Qed.

(** X10 for a price of zero, whose inverse has no decimal rendering, and for
    an output amount of zero, by which the input amount cannot be divided. *)
Lemma failed_toggle_changes_nothing_witness :
  StopLimit.handleRateType (H := Sdk.decimal_js) MUL (Some Stage.price_zero) Stage.draft0
  = (Threw "[DecimalError] Division by zero", Stage.draft0)
  /\ Limit.handleRateType (H := Sdk.decimal_js)
       (Stage.limit_hook_with (Some Run.limit_client0) (Some 137)
          (Some Run.usdc_1000) (Some Stage.weth_0)) Stage.draft0
     = (Threw "Division by zero", Stage.draft0).
Proof.
  destruct (failed_toggle_changes_nothing (H := Sdk.decimal_js))
    as (Hstop & Hplain & Hzero & _).
  split.
  - exact (Hstop MUL Stage.price_zero Stage.draft0 _ eq_refl).
  - exact (Hplain (Stage.limit_hook_with (Some Run.limit_client0) (Some 137)
                     (Some Run.usdc_1000) (Some Stage.weth_0)) Stage.draft0 _
             (Hzero Run.usdc_1000 Stage.weth_0 Run.WETH eq_refl)).
Defined.

(** ** The clients of the hooks *)

(** X11.  The stop-loss hook throws exactly when there is a provider library
    whose [getSigner] throws, with that exception; an exception of the
    client's constructor never leaves the hook.  It returns a client exactly
    when the chain id is not zero or undefined, the library is there, its
    [getSigner] returns a signer and the constructor returns that client for
    this chain id, this signer and the handler "quickswap_stoploss". *)
Theorem stoploss_hook_outcomes {Signer Client : Type}
    (construct : Z -> Signer -> string -> Result Client) (w : Stoploss.Web3 Signer) :
  (forall e,
      Stoploss.useGelatoStoplossOrdersLib Signer Client construct w = Threw e
      <-> exists l, Stoploss.library Signer w = Some l
                    /\ Stoploss.getSigner Signer l = Threw e)
  /\ (forall client,
         Stoploss.useGelatoStoplossOrdersLib Signer Client construct w = Ok (Some client)
         <-> exists chain l s,
             Js.truthy_number (Stoploss.chainId Signer w) = Some chain
             /\ Stoploss.library Signer w = Some l
             /\ Stoploss.getSigner Signer l = Ok s
             /\ construct chain s "quickswap_stoploss" = Ok client).
Proof.
  unfold Stoploss.useGelatoStoplossOrdersLib, Stoploss.optional_signer,
    Stoploss.memoised, Stoploss.try_or_undefined, Stoploss.instantiate.
  split.
  - intros e. split.
    + destruct (Stoploss.library Signer w) as [l|].
      * destruct (Stoploss.getSigner Signer l) eqn:Hsigner.
        -- destruct (Js.truthy_number _); [|discriminate].
           destruct (construct _ _ _); discriminate.
        -- intros [= ->]. eauto.
      * destruct (Js.truthy_number _); discriminate.
    + intros (l & -> & ->). reflexivity.
  - intros client. split.
    + destruct (Stoploss.library Signer w) as [l|].
      * destruct (Stoploss.getSigner Signer l) as [s|] eqn:Hsigner; [|discriminate].
        destruct (Js.truthy_number _) as [chain|]; [|discriminate].
        destruct (construct chain s "quickswap_stoploss") eqn:Hconstruct;
          [|discriminate].
        intros [= ->]. eauto 10.
      * destruct (Js.truthy_number _); discriminate.
    + intros (chain & l & s & -> & -> & Hsigner & Hconstruct).
      rewrite Hsigner, Hconstruct. reflexivity.
Qed.

(** X12.  The client of the plain hook is memoised without a [try]: an
    exception of the constructor leaves the hook.  In a render of the hook the
    client is there only with a chain id that is not zero or undefined, so
    the last guard of the plain submission never fires: without a chain id the
    submission fails on an earlier guard, with a message other than
    "No chainId" and with nothing called. *)
Theorem plain_client_needs_the_chain_id {Signer : Type}
    (construct : Z -> Signer -> Result Limit.GelatoLimitOrders) :
  (forall w chain l s e,
      Js.truthy_number (Stoploss.chainId Signer w) = Some chain ->
      Stoploss.library Signer w = Some l ->
      Stoploss.getSigner Signer l = Ok s ->
      construct chain s = Threw e ->
      Client.gelatoLimitOrders Signer construct w = Threw e)
  /\ (forall w h,
         Client.rendered Signer construct w h ->
         (forall client,
             Limit.gelatoLimitOrders h = Some client ->
             exists chain, Js.truthy_number (Limit.chainId h) = Some chain)
         /\ (Js.truthy_number (Limit.chainId h) = None ->
             forall isEthereumChain NATIVE world,
             exists message,
               In message limit_submission_errors
               /\ message ≠ "No chainId"
               /\ Limit.handleLimitOrderSubmission isEthereumChain NATIVE h world
                  = (Threw message, world))).
Proof.
  split.
  - intros w chain l s e Hchain Hlibrary Hsigner Hconstruct.
    unfold Client.gelatoLimitOrders.
    rewrite Hchain, Hlibrary, Hsigner, Hconstruct. reflexivity.
  - intros w h [Hchain Hmemo].
    assert (Hneeds : forall client,
               Limit.gelatoLimitOrders h = Some client ->
               exists chain, Js.truthy_number (Limit.chainId h) = Some chain).
    { intros client Hclient. rewrite Hclient in Hmemo.
      unfold Client.gelatoLimitOrders in Hmemo. rewrite <- Hchain in Hmemo.
      destruct (Js.truthy_number (Limit.chainId h)) as [chain|]; [eauto|].
      discriminate. }
    split; [exact Hneeds|].
    intros Hnone isEth NATIVE world.
    unfold Limit.handleLimitOrderSubmission.
    destruct (Limit.inputCurrency h) as [ic|]; cbn [Limit.wrapped_address];
      [|exists "Invalid input currency"; repeat split; [cbn; auto | discriminate]].
    destruct (Js.truthy_string (Some (Sdk.address ic)));
      [|exists "Invalid input currency"; repeat split; [cbn; auto | discriminate]].
    destruct (Limit.outputCurrency h) as [oc|]; cbn [Limit.wrapped_address];
      [|exists "Invalid output currency"; repeat split; [cbn; auto | discriminate]].
    destruct (Js.truthy_string (Some (Sdk.address oc)));
      [|exists "Invalid output currency"; repeat split; [cbn; auto | discriminate]].
    destruct (Js.truthy_string (Limit.raw_input (Limit.rawAmounts h)));
      [|exists "Invalid input amount"; repeat split; [cbn; auto | discriminate]].
    destruct (Js.truthy_string (Limit.raw_output (Limit.rawAmounts h)));
      [|exists "Invalid output amount"; repeat split; [cbn; auto | discriminate]].
    destruct (Limit.gelatoLimitOrders h) as [client|] eqn:Hclient;
      [|exists "Could not reach Gelato Limit Orders library";
        repeat split; [cbn; auto 10 | discriminate]].
    destruct (Hneeds client eq_refl) as [chain Hsome]. congruence.
Qed.

(** X12 for a wallet provider without a chain id: the memoised client is
    undefined and the submission stops at the guard of the client. *)
Lemma plain_client_needs_the_chain_id_witness :
  exists message,
    message ≠ "No chainId"
    /\ Limit.handleLimitOrderSubmission Run.isEthereumChain Run.NATIVE
         (Stage.limit_hook_with None None (Some Run.usdc_1000) (Some Run.weth_half))
         empty_world = (Threw message, empty_world).
Proof.
  destruct (proj2 (plain_client_needs_the_chain_id Stage.construct_limit)
              {| Stoploss.chainId := None; Stoploss.library := Some Run.wallet_provider |}
              (Stage.limit_hook_with None None (Some Run.usdc_1000) (Some Run.weth_half))
              (conj eq_refl eq_refl)) as [_ Hfails].
  destruct (Hfails eq_refl Run.isEthereumChain Run.NATIVE empty_world)
    as (message & _ & Hother & Hrun).
  exists message. split; assumption.
Defined.

(** ** The order panel *)

(** X13.  [handleSwap] never throws.  If there is a price impact and the user
    does not confirm it, nothing happens: no state is set and nothing is
    called.  Otherwise the panel first shows the attempt, with no hash and no
    error, then the outcome of the plain submission: the returned hash and no
    error, with exactly one entry added to the history for that hash; or the
    message of the exception and no hash, with the history as it was.  The
    modal's [showConfirm] and [tradeToConfirm] and the order state are not
    touched. *)
Theorem swap_shows_the_outcome_of_the_submission
    confirmPriceImpactWithoutFee isEthereumChain NATIVE hook impact p :
  let declined :=
    match impact with
    | Some i => negb (confirmPriceImpactWithoutFee i)
    | None => false
    end in
  let submission :=
    Limit.handleLimitOrderSubmission isEthereumChain NATIVE hook (Panel.world p) in
  let run :=
    Panel.handleSwap confirmPriceImpactWithoutFee isEthereumChain NATIVE hook impact p in
  let attempt :=
    {| Panel.attemptingTxn := true;
       Panel.tradeToConfirm := Panel.tradeToConfirm (Panel.swapState p);
       Panel.showConfirm := Panel.showConfirm (Panel.swapState p);
       Panel.swapErrorMessage := None; Panel.txHash := None |} in
  run.1 = Ok tt
  /\ if declined then run.2 = p
     else
       Panel.orderState run.2 = Panel.orderState p
       /\ Panel.world run.2 = submission.2
       /\ Panel.shown run.2 = (Panel.shown p ++ [attempt; Panel.swapState run.2])%list
       /\ Panel.attemptingTxn (Panel.swapState run.2) = false
       /\ Panel.showConfirm (Panel.swapState run.2) = Panel.showConfirm (Panel.swapState p)
       /\ Panel.tradeToConfirm (Panel.swapState run.2)
          = Panel.tradeToConfirm (Panel.swapState p)
       /\ match submission.1 with
          | Ok txHash =>
            Panel.txHash (Panel.swapState run.2) = Some txHash
            /\ Panel.swapErrorMessage (Panel.swapState run.2) = None
            /\ exists e,
                history (Panel.world run.2) = (history (Panel.world p) ++ [e])%list
                /\ hash (response e) = txHash
          | Threw message =>
            Panel.txHash (Panel.swapState run.2) = None
            /\ Panel.swapErrorMessage (Panel.swapState run.2) = Some message
            /\ history (Panel.world run.2) = history (Panel.world p)
          end.
Proof.
  cbv zeta.
  pose proof (limit_submission_history isEthereumChain NATIVE hook (Panel.world p))
    as Hhistory; cbv zeta in Hhistory.
  unfold Panel.handleSwap.
  destruct (match impact with
            | Some i => negb (confirmPriceImpactWithoutFee i)
            | None => false
            end); [split; reflexivity|].
  unfold bind, Panel.setSwapState, Panel.on_world; cbn.
  destruct (Limit.handleLimitOrderSubmission isEthereumChain NATIVE hook (Panel.world p))
    as [[txHash|message] w']; cbn in *.
  - destruct Hhistory as (e & He & _ & _ & Hhash).
    rewrite <- app_assoc. repeat split; eauto.
  - rewrite <- app_assoc. repeat split; assumption.
Qed.

(** X14.  From the click on the order button to the dismissal of the modal.
    The click opens the modal on the current trade; after [handleSwap] and
    [handleConfirmDismiss] the modal is closed and still holds that trade.  If
    the submission returned a hash that is not empty, the dismissal clears the
    input: the typed value is empty and the input is the independent field,
    the rate type being kept.  If the submission failed, or the price impact
    was declined, the draft is as it was; after a failure the error message is
    still in the swap state. *)
Theorem dismissal_clears_the_input_after_a_submission
    confirmPriceImpactWithoutFee isEthereumChain NATIVE hook trade impact p :
  let declined :=
    match impact with
    | Some i => negb (confirmPriceImpactWithoutFee i)
    | None => false
    end in
  let submission :=
    Limit.handleLimitOrderSubmission isEthereumChain NATIVE hook (Panel.world p) in
  let opened := (Panel.placeOrderClick trade p).2 in
  let swapped :=
    (Panel.handleSwap confirmPriceImpactWithoutFee isEthereumChain NATIVE hook impact
       opened).2 in
  let closed := (Panel.handleConfirmDismiss swapped).2 in
  Panel.showConfirm (Panel.swapState opened) = true
  /\ Panel.showConfirm (Panel.swapState closed) = false
  /\ Panel.tradeToConfirm (Panel.swapState closed) = trade
  /\ if declined
     then Panel.orderState closed = Panel.orderState p
          /\ Panel.world closed = Panel.world p
     else
       match submission.1 with
       | Ok txHash =>
         Panel.txHash (Panel.swapState closed) = Some txHash
         /\ (txHash ≠ "" ->
             Panel.orderState closed
             = {| independentField := INPUT; typedValue := "";
                  rateType := rateType (Panel.orderState p) |})
         /\ (txHash = "" -> Panel.orderState closed = Panel.orderState p)
       | Threw message =>
         Panel.swapErrorMessage (Panel.swapState closed) = Some message
         /\ Panel.orderState closed = Panel.orderState p
       end.
Proof.
  cbv zeta.
  unfold Panel.handleSwap, Panel.placeOrderClick, Panel.setSwapState.
  cbn [snd Panel.swapState Panel.world Panel.showConfirm Panel.tradeToConfirm].
  destruct (match impact with
            | Some i => negb (confirmPriceImpactWithoutFee i)
            | None => false
            end).
  - repeat split.
  - unfold bind, Panel.on_world; cbn.
    destruct (Limit.handleLimitOrderSubmission isEthereumChain NATIVE hook (Panel.world p))
      as [[txHash|message] w']; cbn.
    + unfold Panel.handleConfirmDismiss, bind, Panel.setSwapState; cbn.
      destruct (String.eqb_spec txHash "") as [->|Hhash]; cbn;
        repeat split; try reflexivity; intros; congruence.
    + repeat split.
Qed.

Lemma truthy_string_some (s : option string) (a : string) :
  Js.truthy_string s = Some a -> s = Some a /\ a ≠ "".
Proof.
  destruct s as [b|]; [|discriminate]. cbn.
  destruct (String.eqb_spec b ""); [discriminate|].
  intros [= <-]. split; [reflexivity | assumption].
Qed.

(** X15.  What the bottom of the panel shows.  The order button is enabled
    only for a supported pair, with an account that is not empty, without an
    input error and without a price impact above zero, and then it is
    labelled "Place order"; a disabled button is labelled with the input
    error.  "Insufficient liquidity" is shown only for a trade that is there
    and has no route; without a trade the panel shows "Loading".  Neither of
    the two is shown while the price is the independent field. *)
Theorem order_button_is_gated (v : Panel.View) :
  (forall label,
      Panel.bottom v = Panel.OrderButton label false ->
      Panel.swapIsUnsupported v = false
      /\ (exists a, Panel.account v = Some a /\ a ≠ "")
      /\ label = "Place order"
      /\ Js.truthy_string (Panel.inputError v) = None
      /\ (forall impact,
             Panel.priceImpact v = Some impact ->
             Panel.greaterThan impact (Sdk.of_int 0) = false))
  /\ (forall label,
         Panel.bottom v = Panel.OrderButton label true ->
         Js.truthy_string (Panel.inputError v) = Some label)
  /\ (Panel.bottom v = Panel.InsufficientLiquidity ->
      exists t, Panel.trade v = Some t /\ Panel.route t = None)
  /\ (Panel.bottom v = Panel.LoadingRoute ->
      Panel.trade v = None /\ Panel.parsedInput v ≠ None)
  /\ (Panel.independent v = PRICE ->
      Panel.bottom v ≠ Panel.LoadingRoute
      /\ Panel.bottom v ≠ Panel.InsufficientLiquidity).
Proof.
  unfold Panel.bottom, Panel.isValid.
  destruct (Panel.swapIsUnsupported v) eqn:Hunsupported.
  { repeat split; intros; discriminate. }
  destruct (Js.truthy_string (Panel.account v)) as [a|] eqn:Haccount;
    cbn [Panel.present negb].
  2: { repeat split; intros; discriminate. }
  apply truthy_string_some in Haccount.
  destruct (Panel.routeNotFound v && Panel.userHasSpecifiedInputOutput v
            && Panel.present (Panel.parsedInput v)) eqn:Hcard.
  - apply andb_prop in Hcard as [Hcard Hparsed].
    apply andb_prop in Hcard as [Hroute Huser].
    assert (Hprice : Panel.independent v ≠ PRICE).
    { intros Hprice. unfold Panel.userHasSpecifiedInputOutput in Huser.
      rewrite Hprice in Huser. discriminate. }
    unfold Panel.isLoadingRoute. rewrite Hparsed. cbn [andb].
    unfold Panel.routeNotFound in Hroute.
    destruct (Panel.trade v) as [t|]; cbn [Panel.present negb].
    + split; [intros; discriminate|]. split; [intros; discriminate|].
      split; [intros _; exists t; split; [reflexivity|];
              destruct (Panel.route t); [discriminate | reflexivity]|].
      split; [intros; discriminate|].
      intros Hindependent. contradiction.
    + split; [intros; discriminate|]. split; [intros; discriminate|].
      split; [intros; discriminate|].
      split; [intros _; split; [reflexivity|];
              destruct (Panel.parsedInput v); [discriminate | discriminate]|].
      intros Hindependent. contradiction.
  - destruct (match Panel.priceImpact v with
              | Some impact => Panel.greaterThan impact (Sdk.of_int 0)
              | None => false
              end) eqn:Himpact.
    { repeat split; intros; discriminate. }
    destruct (Js.truthy_string (Panel.inputError v)) as [message|] eqn:Herror;
      cbn [Panel.present negb default].
    + split; [intros; discriminate|].
      split; [intros label [= <-]; reflexivity|].
      repeat split; intros; discriminate.
    + split.
      { intros label [= <-].
        split; [reflexivity|]. split; [eauto|]. split; [reflexivity|].
        split; [reflexivity|].
        intros impact Hsome. rewrite Hsome in Himpact. exact Himpact. }
      repeat split; intros; discriminate.
Qed.

(** X15 for a connected wallet with a routed trade and a price impact below
    zero, where the button is enabled, and for a trade without a route. *)
Lemma order_button_is_gated_witness :
  (Panel.swapIsUnsupported Stage.view0 = false
   /\ Js.truthy_string (Panel.inputError Stage.view0) = None)
  /\ (exists t, Panel.trade Stage.view_no_route = Some t /\ Panel.route t = None).
Proof.
  split.
  - destruct (proj1 (order_button_is_gated Stage.view0) "Place order" eq_refl)
      as (Hsupported & _ & _ & Herror & _).
    split; assumption.
  - exact (proj1 (proj2 (proj2 (order_button_is_gated Stage.view_no_route))) eq_refl).
Defined.

Lemma formatted_independent (typed : string) (derived : option (Result string)) :
  Panel.formatted true typed derived = Ok typed.
Proof. reflexivity. Qed.

(** X16.  The field the user typed into shows the typed text as it is,
    whatever the parsed amounts and the price are, and whenever the other two
    fields can be rendered.  The max button does nothing without a maximum;
    with one it types the exact decimal amount into the input, not a rounding
    to six digits, and touches neither the swap state nor the world.  The
    button is hidden when there is no maximum, when the maximum is not above
    zero, and when the parsed input equals the maximum. *)
Theorem typed_text_is_shown_as_typed `{Sdk.DecimalFormat} :
  (forall field typed s a b price shown,
      Panel.formattedAmounts (Panel.handleInput field typed s).2 a b price = Ok shown ->
      match field with
      | INPUT => Limit.input shown
      | OUTPUT => Limit.output shown
      | PRICE => Limit.price shown
      end = typed)
  /\ (forall p, Panel.handleMaxInput None p = (Ok tt, p))
  /\ (forall amount p a b price shown,
         let after := (Panel.handleMaxInput (Some amount) p).2 in
         Panel.swapState after = Panel.swapState p
         /\ Panel.world after = Panel.world p
         /\ Panel.orderState after
            = {| independentField := INPUT; typedValue := Sdk.toExact amount;
                 rateType := rateType (Panel.orderState p) |}
         /\ (Panel.formattedAmounts (Panel.orderState after) a b price = Ok shown ->
             Limit.input shown = Sdk.toExact amount))
  /\ (forall parsed, Panel.showMaxButton None parsed = false)
  /\ (forall amount, Panel.showMaxButton (Some amount) (Some amount) = false)
  /\ (forall amount parsed,
         Panel.showMaxButton (Some amount) parsed = true ->
         0 < Sdk.numerator (Sdk.asFraction amount)).
Proof.
  assert (Hshown : forall field typed r a b price shown,
             Panel.formattedAmounts
               {| independentField := field; typedValue := typed; rateType := r |}
               a b price = Ok shown ->
             match field with
             | INPUT => Limit.input shown
             | OUTPUT => Limit.output shown
             | PRICE => Limit.price shown
             end = typed).
  { intros field typed r a b price shown. unfold Panel.formattedAmounts.
    destruct field; cbn [independentField typedValue];
      rewrite ?formatted_independent;
      repeat match goal with
             | |- context [match Panel.formatted ?i ?t ?d with _ => _ end] =>
               destruct (Panel.formatted i t d)
             end;
      intros [= <-]; reflexivity. }
  split; [intros field typed s a b price shown;
          exact (Hshown field typed (rateType s) a b price shown)|].
  split; [reflexivity|].
  split; [|split; [reflexivity|split]].
  - intros amount p a b price shown after. subst after.
    unfold Panel.handleMaxInput, Panel.on_order, Panel.handleInput, onUserInput; cbn.
    repeat split.
    exact (Hshown INPUT (Sdk.toExact amount) (rateType (Panel.orderState p)) a b
             price shown).
  - intros amount. unfold Panel.showMaxButton, Panel.equalTo.
    rewrite Z.eqb_refl. apply andb_false_r.
  - intros amount parsed. unfold Panel.showMaxButton, Panel.greaterThan.
    intros Hshow. apply andb_prop in Hshow as [Hpositive _].
    cbn in Hpositive. apply Z.ltb_lt in Hpositive. lia.
Qed.

(** X16 for a maximum of 1000 USDC and nothing parsed yet: the input shows
    "1000" and the button was to be seen. *)
Lemma typed_text_is_shown_as_typed_witness :
  let after := (Panel.handleMaxInput (Some Run.usdc_1000) Stage.panel0).2 in
  (forall shown,
      Panel.formattedAmounts (H := Sdk.decimal_js) (Panel.orderState after)
        None None None = Ok shown ->
      Limit.input shown = "1000")
  /\ 0 < Sdk.numerator (Sdk.asFraction Run.usdc_1000).
Proof.
  intros after.
  destruct (typed_text_is_shown_as_typed (H := Sdk.decimal_js))
    as (_ & _ & Hmax & _ & _ & Hpositive).
  split.
  - intros shown.
    exact (proj2 (proj2 (proj2 (Hmax Run.usdc_1000 Stage.panel0 None None None shown)))).
  - exact (Hpositive Run.usdc_1000 None eq_refl).
Defined.

(** X13 for a confirmed price impact and a submission that returns. *)
Lemma swap_shows_the_outcome_of_the_submission_witness :
  let run :=
    Panel.handleSwap (fun _ => true) Run.isEthereumChain Run.NATIVE
      (Run.limit_hook 137 MUL) (Some Stage.impact_down) Stage.panel0 in
  Panel.txHash (Panel.swapState run.2) = Some "0xAB12CD34EF"
  /\ Panel.attemptingTxn (Panel.swapState run.2) = false
  /\ length (Panel.shown run.2) = 2%nat.
Proof.
  intros run.
  pose proof (swap_shows_the_outcome_of_the_submission (fun _ => true)
                Run.isEthereumChain Run.NATIVE (Run.limit_hook 137 MUL)
                (Some Stage.impact_down) Stage.panel0) as Houtcome.
  vm_compute in Houtcome.
  destruct Houtcome as (_ & _ & _ & Hshown & Hattempting & _ & _ & Hhash & _).
  split; [exact Hhash|]. split; [exact Hattempting|].
  exact (f_equal (@length _) Hshown).
Defined.

(** X14 for the same submission: after the dismissal the input is cleared. *)
Lemma dismissal_clears_the_input_after_a_submission_witness :
  let opened := (Panel.placeOrderClick (Some Stage.trade0) Stage.panel0).2 in
  let swapped :=
    (Panel.handleSwap (fun _ => true) Run.isEthereumChain Run.NATIVE
       (Run.limit_hook 137 MUL) (Some Stage.impact_down) opened).2 in
  let closed := (Panel.handleConfirmDismiss swapped).2 in
  Panel.orderState closed
  = {| independentField := INPUT; typedValue := ""; rateType := MUL |}
  /\ Panel.showConfirm (Panel.swapState closed) = false.
Proof.
  intros opened swapped closed.
  pose proof (dismissal_clears_the_input_after_a_submission (fun _ => true)
                Run.isEthereumChain Run.NATIVE (Run.limit_hook 137 MUL)
                (Some Stage.trade0) (Some Stage.impact_down) Stage.panel0) as Hflow.
  vm_compute in Hflow.
  destruct Hflow as (_ & Hclosed & _ & _ & Hcleared & _).
  split; [exact (Hcleared ltac:(discriminate)) | exact Hclosed].
Defined.

(** X11 for a wallet provider on Polygon, where the client is constructed,
    and for a read-only provider, where the hook throws. *)
Lemma stoploss_hook_outcomes_witness :
  Stoploss.useGelatoStoplossOrdersLib unit string Run.construct0
    {| Stoploss.chainId := Some 137; Stoploss.library := Some Run.wallet_provider |}
  = Ok (Some "quickswap_stoploss")
  /\ Stoploss.useGelatoStoplossOrdersLib unit string Run.construct0
       {| Stoploss.chainId := Some 137; Stoploss.library := Some Run.read_only_provider |}
     = Threw "API provider does not support signing".
Proof.
  split.
  - apply (proj2 (stoploss_hook_outcomes Run.construct0
                    {| Stoploss.chainId := Some 137;
                       Stoploss.library := Some Run.wallet_provider |})).
    exists 137, Run.wallet_provider, tt. repeat split.
  - apply (proj1 (stoploss_hook_outcomes Run.construct0
                    {| Stoploss.chainId := Some 137;
                       Stoploss.library := Some Run.read_only_provider |})).
    exists Run.read_only_provider. split; reflexivity.
Defined.

(** ** The stop-limit cancellation when it fails *)

(** X17.  When a stop-limit cancellation fails, the history is as it was.
    Either a guard of the handler stopped it, with one of the messages
    "Could not reach Gelato Limit Orders library", "No chainId" and
    "No account" and with nothing called; or the client rejected the call, and
    the handler raises the client's message unchanged after that one call. *)
Theorem cancellation_failure_provenance h o d ov w e w' :
  StopLimit.handleStopLimitOrderCancellation h o d ov w = (Threw e, w') ->
  history w' = history w
  /\ ((In e ["Could not reach Gelato Limit Orders library"; "No chainId"; "No account"]
       /\ w' = w
       /\ (StopLimit.gelatoStopLimitOrders h = None
           \/ Js.truthy_number (StopLimit.chainId h) = None
           \/ Js.truthy_string (StopLimit.account h) = None))
      \/ (exists lib,
             StopLimit.gelatoStopLimitOrders h = Some lib
             /\ StopLimit.cancelLimitOrder lib o (StopLimit.checkIfOrderExists o)
                  (StopLimit.cancellation_overrides h ov) = Threw e
             /\ calls w'
                = (calls w ++
                     [CancelStopLimitOrder o (StopLimit.checkIfOrderExists o)
                        (StopLimit.cancellation_overrides h ov)])%list)).
Proof.
  intros Hrun.
  pose proof (stop_limit_cancellation_run h o d ov w) as H; cbv zeta in H.
  repeat branch_in H; rewrite H in Hrun; try discriminate;
    injection Hrun as <- <-; (split; [reflexivity|]).
  - right. eexists. repeat split; eassumption.
  - left. split; [cbn; auto|]. split; [reflexivity | auto].
  - left. split; [cbn; auto|]. split; [reflexivity | auto].
  - left. split; [cbn; auto|]. split; [reflexivity | auto].
Qed.

(** X17 for a hook without an account yet, and for a client that rejects. *)
Lemma cancellation_failure_provenance_witness :
  let offline :=
    StopLimit.handleStopLimitOrderCancellation Run.hook_offline Run.record0 None None
      empty_world in
  let rejected :=
    StopLimit.handleStopLimitOrderCancellation
      (Stage.hook_with Stage.client_rejecting_encoding) Run.record0 None None
      empty_world in
  (offline.1 = Threw "Could not reach Gelato Limit Orders library"
   /\ history offline.2 = [])
  /\ (rejected.1 = Threw "execution reverted" /\ history rejected.2 = []).
Proof.
  intros offline rejected.
  split; (split; [reflexivity|]).
  - exact (proj1 (cancellation_failure_provenance Run.hook_offline Run.record0 None
                    None empty_world "Could not reach Gelato Limit Orders library"
                    offline.2 ltac:(vm_compute; reflexivity))).
  - exact (proj1 (cancellation_failure_provenance
                    (Stage.hook_with Stage.client_rejecting_encoding) Run.record0 None
                    None empty_world "execution reverted" rejected.2
                    ltac:(vm_compute; reflexivity))).
Defined.
